(** * The DAP diagnostic scripts of debugger-mcp, embedded in Rocq

    The repository holds Python scripts that drive a Debug Adapter Protocol
    adapter over the standard streams of a child process:

    - [scripts/test_dap_standalone.py]: class [DAPTester], a reader thread and
      the handshake of [main];
    - [test_correct_sequence.py], [test_launch_sequence.py]: sequential
      variants with their own [send_message] and [read_message];
    - [fizzbuzz.py]: the debugged fixture.

    Bytes are [string]s (one [ascii] per byte).  A Python [str] is held as
    its UTF-8 encoding, so that [encode('utf-8')] is the identity,
    [decode('utf-8')] is a validity check and [len] counts code points.
    Python objects that travel as JSON are values of [json]; [json.dumps],
    [json.loads] and pathlib are parameters ([JsonCodec], [PathLib]).

    A call returns a value or raises ([result]).  A pipe is the string of
    the bytes it will still deliver.  The clock is left out: a wait is given the
    states it polls, and the threads of the standalone script take turns
    under a schedule.  The [print]s and [log_timing] only report and are
    left out, except where their arguments can raise; the standard output
    is taken to encode what they print, as the emoji of the scripts need. *)

From Stdlib Require Import ZArith Lia Ascii String List Bool.
From Stdlib Require Import Decimal DecimalString DecimalZ DecimalN DecimalPos.
From stdpp Require Import base option gmap strings list fin_maps.

Local Open Scope Z_scope.
Set Warnings "-register-all".

(** ** Python outcomes *)

Inductive exn : Type :=
  | ValueError (what : string)
  | JSONDecodeError
  | UnicodeDecodeError
  | KeyError (key : string)
  | TypeError
  | AttributeError
  | TimeoutError
  | BrokenPipeError.

Inductive result (A : Type) : Type :=
  | Return (a : A)
  | Raise (e : exn).
Arguments Return {A} a.
Arguments Raise {A} e.

Global Instance result_ret : MRet result := fun A a => Return a.
Global Instance result_bind : MBind result := fun A B k r =>
  match r with
  | Return a => k a
  | Raise e => Raise e
  end.

(** ** Text primitives *)

Module Py.

Definition CR : ascii := ascii_of_nat 13.
Definition LF : ascii := ascii_of_nat 10.
Definition CRLF : string := String CR (String LF EmptyString).
Definition CRLFCRLF : string := CRLF +:+ CRLF.

(** [str.isspace] on the ASCII range: 9 to 13, 28 to 31 and 32. *)
Definition isspace (c : ascii) : bool :=
  let n := nat_of_ascii c in
  ((9 <=? n)%nat && (n <=? 13)%nat) || ((28 <=? n)%nat && (n <=? 32)%nat).

Fixpoint lstrip (s : string) : string :=
  match s with
  | String c r => if isspace c then lstrip r else s
  | EmptyString => EmptyString
  end.

Fixpoint rstrip (s : string) : string :=
  match s with
  | String c r =>
      match rstrip r with
      | EmptyString => if isspace c then EmptyString else String c EmptyString
      | r' => String c r'
      end
  | EmptyString => EmptyString
  end.

(** [s.strip()] *)
Definition strip (s : string) : string := rstrip (lstrip s).

(** [s.startswith(p)] *)
Definition startswith (s p : string) : bool := String.prefix p s.

(** [s.endswith(p)] *)
Definition endswith (s p : string) : bool :=
  String.prefix (String.rev p) (String.rev s).

(** [s.split(sep)] for a non-empty [sep]; [skip] counts the bytes of a matched
    separator that are still to be passed over. *)
Fixpoint split_from (sep : string) (skip : nat) (s : string) : list string :=
  match s with
  | EmptyString => [EmptyString]
  | String c r =>
      match skip with
      | S k => split_from sep k r
      | O =>
          if String.prefix sep s
          then EmptyString :: split_from sep (String.length sep - 1) r
          else match split_from sep 0 r with
               | h :: t => String c h :: t
               | [] => [String c EmptyString]
               end
      end
  end.

Definition split (s sep : string) : list string := split_from sep 0 s.

(** [s.split(sep, 1)] for a one-byte [sep]. *)
Fixpoint split1 (s : string) (sep : ascii) : list string :=
  match s with
  | EmptyString => [EmptyString]
  | String c r =>
      if Ascii.eqb c sep then [EmptyString; r]
      else match split1 r sep with
           | h :: t => String c h :: t
           | [] => [String c EmptyString]
           end
  end.

(** [sep in s] for a one-byte [sep]. *)
Fixpoint contains (s : string) (sep : ascii) : bool :=
  match s with
  | EmptyString => false
  | String c r => Ascii.eqb c sep || contains r sep
  end.

(** The digits of [int(s)]: one digit, then digits each optionally preceded
    by a single underscore. *)
Fixpoint digits (s : string) : option uint :=
  match s with
  | EmptyString => None
  | String c r =>
      match r with
      | EmptyString => DecimalString.uint_of_char c (Some Nil)
      | String "_" r' => DecimalString.uint_of_char c (digits r')
      | _ => DecimalString.uint_of_char c (digits r)
      end
  end.

(** The white space that [int] passes over on ASCII text: 9 to 13 and 32,
    not 28 to 31. *)
Definition int_space (c : ascii) : bool :=
  let n := nat_of_ascii c in
  ((9 <=? n)%nat && (n <=? 13)%nat) || (n =? 32)%nat.

Fixpoint int_lstrip (s : string) : string :=
  match s with
  | String c r => if int_space c then int_lstrip r else s
  | EmptyString => EmptyString
  end.

Fixpoint int_rstrip (s : string) : string :=
  match s with
  | String c r =>
      match int_rstrip r with
      | EmptyString => if int_space c then EmptyString else String c EmptyString
      | r' => String c r'
      end
  | EmptyString => EmptyString
  end.

(** [int(s)] on ASCII text: surrounding white space, an optional sign, then
    [digits].  The decimal digits and white space that Unicode has outside
    ASCII are not modelled, and the text of the [ValueError] is cut before
    the base and the literal that Python adds to it. *)
Definition int (s : string) : result Z :=
  let t := int_rstrip (int_lstrip s) in
  let '(neg, d) :=
    match t with
    | String "-" r => (true, r)
    | String "+" r => (false, r)
    | _ => (false, t)
    end in
  match digits d with
  | Some u => Return (if neg : bool then - Z.of_uint u else Z.of_uint u)
  | None => Raise (ValueError "invalid literal for int()")
  end.

(** [str(n)] for an integer. *)
Definition str (n : Z) : string := NilZero.string_of_int (Z.to_int n).

(** [len(s)] of a [str] held as UTF-8: the bytes that are not continuation
    bytes (0x80 to 0xBF). *)
Definition is_continuation (c : ascii) : bool :=
  let n := nat_of_ascii c in (128 <=? n)%nat && (n <=? 191)%nat.

Fixpoint len (s : string) : nat :=
  match s with
  | EmptyString => O
  | String c r => if is_continuation c then len r else S (len r)
  end.

Definition is_ascii_char (c : ascii) : bool := (nat_of_ascii c <? 128)%nat.

Fixpoint is_ascii (s : string) : bool :=
  match s with
  | EmptyString => true
  | String c r => is_ascii_char c && is_ascii r
  end.

(** Well-formed UTF-8 (Unicode, table 3-7): [need] continuation bytes are
    still due, the next one within [lo..hi]. *)
Fixpoint utf8_ok (need lo hi : nat) (s : string) : bool :=
  match s with
  | EmptyString => (need =? 0)%nat
  | String c r =>
      let n := nat_of_ascii c in
      match need with
      | S k => (lo <=? n)%nat && (n <=? hi)%nat && utf8_ok k 128 191 r
      | O =>
          if (n <? 128)%nat then utf8_ok 0 128 191 r
          else if (194 <=? n)%nat && (n <=? 223)%nat then utf8_ok 1 128 191 r
          else if (n =? 224)%nat then utf8_ok 2 160 191 r
          else if (n =? 237)%nat then utf8_ok 2 128 159 r
          else if (225 <=? n)%nat && (n <=? 239)%nat then utf8_ok 2 128 191 r
          else if (n =? 240)%nat then utf8_ok 3 144 191 r
          else if (241 <=? n)%nat && (n <=? 243)%nat then utf8_ok 3 128 191 r
          else if (n =? 244)%nat then utf8_ok 3 128 143 r
          else false
      end
  end.

Definition is_digit (c : ascii) : bool :=
  let n := nat_of_ascii c in (48 <=? n)%nat && (n <=? 57)%nat.

Fixpoint all_digits (s : string) : bool :=
  match s with
  | EmptyString => true
  | String c r => is_digit c && all_digits r
  end.

(** [b.decode('utf-8')] *)
Definition decode (b : string) : result string :=
  if utf8_ok 0 128 191 b then Return b else Raise UnicodeDecodeError.

(** [sub in s] for two texts: [sub] occurs in [s]. *)
Fixpoint contains_str (s sub : string) : bool :=
  String.prefix sub s
  || match s with
     | String _ r => contains_str r sub
     | EmptyString => false
     end.

(** [range(start, stop)] *)
Definition range (start stop : Z) : list Z := seqZ start (stop - start).

End Py.

(** ** fizzbuzz.py *)

Module Fizzbuzz.

(** Python's [%] on integers has the sign of the divisor, as [Z.modulo]. *)
Definition fizzbuzz (n : Z) : string :=
  if n mod 15 =? 0 then "FizzBuzz"
  else if n mod 3 =? 0 then "Fizz"
  else if n mod 5 =? 0 then "Buzz"
  else Py.str n.

(** [main]: the list it returns and the lines it prints. *)
Definition main : list string * list string :=
  fold_left (fun '(results, printed) i =>
               let result := fizzbuzz i in (results ++ [result], printed ++ [result]))
    (Py.range 1 101) ([], []).

End Fizzbuzz.

(** ** Python values that travel as JSON *)

(** [JObj] is a [dict] with [str] keys in insertion order.  Floats are left
    out: no message of the scripts carries one.  A [str] is held as its
    UTF-8 encoding, so that a text with a lone surrogate, which [json.loads]
    builds from an escape and [print] cannot encode, has no value here: on
    the values of [json] the [print]s of the scripts do not raise. *)
Inductive json : Type :=
  | JNull
  | JBool (b : bool)
  | JInt (n : Z)
  | JStr (s : string)
  | JArr (items : list json)
  | JObj (fields : list (string * json)).

(** The hashable values, as [dict] keys: [True == 1] and [False == 0] are
    the same key as the integer. *)
Inductive pykey : Type :=
  | KNone
  | KInt (n : Z)
  | KStr (s : string).

Global Instance pykey_eq_dec : EqDecision pykey.
Proof. solve_decision. Defined.

Global Instance pykey_countable : Countable pykey :=
  inj_countable'
    (fun k => match k with
              | KNone => None
              | KInt n => Some (inl n)
              | KStr s => Some (inr s)
              end)
    (fun o => match o with
              | None => KNone
              | Some (inl n) => KInt n
              | Some (inr s) => KStr s
              end)
    (fun k => match k with KNone | KInt _ | KStr _ => eq_refl end).

Module Dict.

Fixpoint lookup (fields : list (string * json)) (k : string) : option json :=
  match fields with
  | [] => None
  | (k', v) :: more => if String.eqb k' k then Some v else lookup more k
  end.

(** [m.get(k, default)]; a value that is not a [dict] has no [get]. *)
Definition get_default (m : json) (k : string) (default : json) : result json :=
  match m with
  | JObj fields =>
      match lookup fields k with
      | Some v => Return v
      | None => Return default
      end
  | _ => Raise AttributeError
  end.

(** [m.get(k)]: [None] when the key is absent. *)
Definition get (m : json) (k : string) : result json := get_default m k JNull.

(** [m[k]] *)
Definition item (m : json) (k : string) : result json :=
  match m with
  | JObj fields =>
      match lookup fields k with
      | Some v => Return v
      | None => Raise (KeyError k)
      end
  | _ => Raise TypeError
  end.

(** [hash(v)], the key under which [v] indexes a [dict]. *)
Definition key (v : json) : result pykey :=
  match v with
  | JNull => Return KNone
  | JBool b => Return (KInt (if b then 1 else 0))
  | JInt n => Return (KInt n)
  | JStr s => Return (KStr s)
  | JArr _ | JObj _ => Raise TypeError
  end.

(** Truth value of [v] in an [if]. *)
Definition truthy (v : json) : bool :=
  match v with
  | JNull => false
  | JBool b => b
  | JInt n => negb (n =? 0)
  | JStr s => negb (String.eqb s EmptyString)
  | JArr items => match items with [] => false | _ => true end
  | JObj fields => match fields with [] => false | _ => true end
  end.

End Dict.

(** [v == s] for a [str] constant [s]. *)
Definition is_str (v : json) (s : string) : bool :=
  match v with
  | JStr s' => String.eqb s' s
  | _ => false
  end.

(** [json.dumps] and [json.loads] belong to Python's library.  [json_dumps]
    is called with its defaults, so the text it returns is ASCII
    ([ensure_ascii]); [json_loads] raises [JSONDecodeError] on text that is
    not JSON. *)
Class JsonCodec : Type := {
  json_dumps : json -> string;
  json_loads : string -> result json;
}.

(** [str(Path(p).parent)] of pathlib. *)
Class PathLib : Type := {
  path_parent : string -> string;
}.

(** ** Byte streams of the child process *)

Module Stream.

(** The bytes a pipe will still deliver before its writer closes it; a read
    returns at once what it asks for, or what is left. *)
Fixpoint read (n : nat) (stream : string) : string * string :=
  match n, stream with
  | S k, String c r => let '(got, rest) := read k r in (String c got, rest)
  | _, _ => (EmptyString, stream)
  end.

(** [FileIO.read(n)] of an unbuffered pipe when the bytes asked for are in
    the pipe: a negative [n] reads to the end. *)
Definition raw_read (n : Z) (stream : string) : string * string :=
  if n <? 0 then (stream, EmptyString) else read (Z.to_nat n) stream.

(** [FileIO.read(n)] of an unbuffered pipe in general.  The call is a single
    read of the operating system: it waits until the pipe holds a byte or
    the stream has ended, and returns what the pipe holds then, up to [n]
    bytes.  [arrived] is the number of bytes of [stream] that the pipe
    holds at that moment; a pipe holds no more than its capacity, 64 KiB by
    default on Linux.  A negative [n] reads until the stream ends. *)
Definition raw_read_arrived (arrived : nat) (n : Z) (stream : string) : string * string :=
  if n <? 0 then (stream, EmptyString)
  else read (Nat.min (Z.to_nat n) (Nat.max 1 arrived)) stream.

(** [BufferedReader.read(n)]: -1 reads to the end, below -1 is refused. *)
Definition buffered_read (n : Z) (stream : string) : result string * string :=
  if n <? -1 then (Raise (ValueError "read length must be non-negative or -1"), stream)
  else if n =? -1 then (Return stream, EmptyString)
  else let '(got, rest) := read (Z.to_nat n) stream in (Return got, rest).

(** [readline()]: the bytes up to and including the next line feed, or what
    is left. *)
Fixpoint readline (stream : string) : string * string :=
  match stream with
  | EmptyString => (EmptyString, EmptyString)
  | String c r =>
      if Ascii.eqb c Py.LF then (String c EmptyString, r)
      else let '(line, rest) := readline r in (String c line, rest)
  end.

End Stream.

(** The frame of the wire format around a body: the header line, the blank
    line, the body. *)
Definition frame (body : string) : string :=
  "Content-Length: " +:+ Py.str (Z.of_nat (String.length body)) +:+ Py.CRLFCRLF +:+ body.

(** ** scripts/test_dap_standalone.py: the transport of [DAPTester] *)

Module Standalone.

(** The order in which messages crossed the pipes, kept for stating what
    happens before what. *)
Inductive io : Type :=
  | Sent (message : json)
  | Received (message : json).

Record DAPTester : Type := mkDAPTester {
  seq : Z;
  received_events : list json;
  received_responses : gmap pykey json;
  running : bool;
  stdin : string;      (* process.stdin: the bytes written so far *)
  stdout : string;     (* process.stdout: the bytes not yet read *)
  wire : list io;
}.

(** [DAPTester.__init__] and the pipes of a freshly spawned adapter. *)
Definition init : DAPTester :=
  mkDAPTester 0 [] ∅ false EmptyString EmptyString [].

Definition set_stdout (t : DAPTester) (s : string) : DAPTester :=
  mkDAPTester (seq t) (received_events t) (received_responses t) (running t)
    (stdin t) s (wire t).

Definition set_running (t : DAPTester) (b : bool) : DAPTester :=
  mkDAPTester (seq t) (received_events t) (received_responses t) b
    (stdin t) (stdout t) (wire t).

(** The first loop of [_read_message]: one byte at a time until the header
    ends with the blank line; [None] when the stream ends first. *)
Fixpoint read_header (header : string) (stream : string) : option (string * string) :=
  match stream with
  | EmptyString => None
  | String char rest =>
      let header := header +:+ String char EmptyString in
      if Py.endswith header Py.CRLFCRLF then Some (header, rest)
      else read_header header rest
  end.

(** The [for ... else] of [_read_message] over the header lines. *)
Fixpoint content_length_of (header_str : string) (lines : list string) : result Z :=
  match lines with
  | [] => Raise (ValueError ("No Content-Length in header: " +:+ header_str))
  | line :: more =>
      if Py.startswith line "Content-Length:"
      then match Py.split line ":" with
           | _ :: value :: _ => Py.int (Py.strip value)
           | _ => Raise (ValueError "list index out of range")
           end
      else content_length_of header_str more
  end.

Section Transport.
Context `{JsonCodec}.

(** [DAPTester._read_message]: the outcome and the stream that is left, when
    the body that the header announces is in the pipe by the time it is
    read. *)
Definition _read_message (stdout : string) : result (option json) * string :=
  match read_header EmptyString stdout with
  | None => (Return None, EmptyString)
  | Some (header, rest) =>
      match header_str ← Py.decode header;
            content_length_of header_str (Py.split header_str Py.CRLF) with
      | Raise e => (Raise e, rest)
      | Return content_length =>
          let '(body, rest') := Stream.raw_read content_length rest in
          (text ← Py.decode body; message ← json_loads text; mret (Some message), rest')
      end
  end.

(** [DAPTester._read_message] in general.  The adapter is spawned with
    [bufsize=0]: [process.stdout.read(content_length)] is one read of the
    pipe, which returns the part of the body that has arrived; the header
    is read byte by byte, each [read(1)] waiting for its byte. *)
Definition _read_message_arrived (arrived : nat) (stdout : string)
  : result (option json) * string :=
  match read_header EmptyString stdout with
  | None => (Return None, EmptyString)
  | Some (header, rest) =>
      match header_str ← Py.decode header;
            content_length_of header_str (Py.split header_str Py.CRLF) with
      | Raise e => (Raise e, rest)
      | Return content_length =>
          let '(body, rest') := Stream.raw_read_arrived arrived content_length rest in
          (text ← Py.decode body; message ← json_loads text; mret (Some message), rest')
      end
  end.

(** [DAPTester._send_message] to an adapter that runs and reads its input
    (the write to one that has exited raises [BrokenPipeError]); the two
    [print]s and [log_timing] only report, but their [message.get] needs a
    [dict]. *)
Definition _send_message (message : json) (t : DAPTester) : result DAPTester :=
  let body := json_dumps message in
  let header := "Content-Length: " +:+ Py.str (Z.of_nat (String.length body)) +:+ Py.CRLFCRLF in
  type ← Dict.get message "type";
  command ← Dict.get_default message "command" type;
  seq_ ← Dict.get message "seq";
  mret (mkDAPTester (seq t) (received_events t) (received_responses t) (running t)
          (stdin t +:+ header +:+ body) (stdout t) (wire t ++ [Sent message])).

End Transport.

Definition set_seq (t : DAPTester) (n : Z) : DAPTester :=
  mkDAPTester n (received_events t) (received_responses t) (running t)
    (stdin t) (stdout t) (wire t).

Definition set_received_events (t : DAPTester) (l : list json) : DAPTester :=
  mkDAPTester (seq t) l (received_responses t) (running t)
    (stdin t) (stdout t) (wire t).

Definition set_received_responses (t : DAPTester) (m : gmap pykey json) : DAPTester :=
  mkDAPTester (seq t) (received_events t) m (running t)
    (stdin t) (stdout t) (wire t).

(** What a read that returned [message] leaves behind. *)
Definition received (t : DAPTester) (message : json) (rest : string) : DAPTester :=
  mkDAPTester (seq t) (received_events t) (received_responses t) (running t)
    (stdin t) rest (wire t ++ [Received message]).

Definition initialize_request (n : Z) : json :=
  JObj [("type", JStr "request"); ("seq", JInt n); ("command", JStr "initialize");
        ("arguments",
         JObj [("clientID", JStr "dap-standalone-test");
               ("clientName", JStr "DAP Standalone Tester");
               ("adapterID", JStr "debugpy");
               ("pathFormat", JStr "path");
               ("linesStartAt1", JBool true);
               ("columnsStartAt1", JBool true);
               ("supportsVariableType", JBool true);
               ("supportsVariablePaging", JBool true);
               ("supportsRunInTerminalRequest", JBool false);
               ("locale", JStr "en-US")])]%string.

Definition launch_request `{PathLib} (n : Z) (program_path : string) : json :=
  JObj [("type", JStr "request"); ("seq", JInt n); ("command", JStr "launch");
        ("arguments",
         JObj [("request", JStr "launch");
               ("type", JStr "python");
               ("program", JStr program_path);
               ("args", JArr []);
               ("console", JStr "internalConsole");
               ("stopOnEntry", JBool false);
               ("cwd", JStr (path_parent program_path))])]%string.

Definition configuration_done_request (n : Z) : json :=
  JObj [("type", JStr "request"); ("seq", JInt n);
        ("command", JStr "configurationDone")]%string.

Definition disconnect_request (n : Z) : json :=
  JObj [("type", JStr "request"); ("seq", JInt n); ("command", JStr "disconnect");
        ("arguments", JObj [("terminateDebuggee", JBool true)])]%string.

(** The outcome of one pass of the [while] of [_read_messages]. *)
Inductive loop : Type :=
  | Continue
  | Break.

(** The states of the tester that the loop of [wait_for_response] finds at
    its successive tests before the deadline, as the reader thread leaves
    them.  The clock itself is not modelled: an empty list is a deadline
    that has passed.
    [if seq in self.received_responses: return self.received_responses[seq]] *)
Fixpoint wait_for_response (seq : Z) (polls : list DAPTester) : result json :=
  match polls with
  | [] => Raise TimeoutError
  | t :: later =>
      match received_responses t !! KInt seq with
      | Some response => Return response
      | None => wait_for_response seq later
      end
  end.

Section Tester.
Context `{JsonCodec} `{PathLib}.

(** Each [send_*] method up to its [_send_message]; its [return self.seq]
    reads the counter again afterwards. *)
Definition request_initialize (t : DAPTester) : result DAPTester :=
  let t := set_seq t (seq t + 1) in
  _send_message (initialize_request (seq t)) t.

Definition request_launch (program_path : string) (t : DAPTester) : result DAPTester :=
  let t := set_seq t (seq t + 1) in
  _send_message (launch_request (seq t) program_path) t.

Definition request_configuration_done (t : DAPTester) : result DAPTester :=
  let t := set_seq t (seq t + 1) in
  _send_message (configuration_done_request (seq t)) t.

Definition request_disconnect (t : DAPTester) : result DAPTester :=
  let t := set_seq t (seq t + 1) in
  _send_message (disconnect_request (seq t)) t.

Definition send_initialize (t : DAPTester) : result (Z * DAPTester) :=
  t ← request_initialize t; mret (seq t, t).

Definition send_launch (program_path : string) (t : DAPTester) : result (Z * DAPTester) :=
  t ← request_launch program_path t; mret (seq t, t).

Definition send_configuration_done (t : DAPTester) : result (Z * DAPTester) :=
  t ← request_configuration_done t; mret (seq t, t).

Definition send_disconnect (t : DAPTester) : result (Z * DAPTester) :=
  t ← request_disconnect t; mret (seq t, t).

(** The body of [if message:] in [_read_messages]. *)
Definition handle_message (message : json) (t : DAPTester) : result DAPTester :=
  msg_type ← Dict.get message "type";
  if is_str msg_type "response" then
    seq_ ← Dict.get message "request_seq";
    command ← Dict.get message "command";
    k ← Dict.key seq_;
    let t := set_received_responses t (<[k := message]> (received_responses t)) in
    success ← Dict.get message "success";
    mret t
  else if is_str msg_type "event" then
    event_name ← Dict.get message "event";
    let t := set_received_events t (received_events t ++ [message]) in
    body ← Dict.get_default message "body" (JObj []);
    if is_str event_name "initialized" then
      '(_, t) ← send_configuration_done t; mret t
    else mret t
  else mret t.

(** One pass of the loop of [_read_messages].  An exception is printed and
    leaves the loop. *)
Definition _read_messages_pass (t : DAPTester) : loop * DAPTester :=
  if running t then
    match _read_message (stdout t) with
    | (Raise e, rest) => (Break, set_stdout t rest)
    | (Return None, rest) => (Continue, set_stdout t rest)
    | (Return (Some message), rest) =>
        let t := received t message rest in
        if Dict.truthy message then
          match handle_message message t with
          | Return t' => (Continue, t')
          | Raise e => (Break, t)
          end
        else (Continue, t)
    end
  else (Break, t).

(** [_read_messages], for at most [passes] passes of its loop. *)
Fixpoint _read_messages (passes : nat) (t : DAPTester) : loop * DAPTester :=
  match passes with
  | O => (Continue, t)
  | S n =>
      match _read_messages_pass t with
      | (Continue, t') => _read_messages n t'
      | (Break, t') => (Break, t')
      end
  end.

End Tester.

(** [start_adapter]: a fresh process, whose output will hold [pending], and
    the reader thread started. *)
Definition start_adapter (pending : string) (t : DAPTester) : DAPTester :=
  mkDAPTester (seq t) (received_events t) (received_responses t) true
    EmptyString pending (wire t).

(** [shutdown]: the flag that the reader loop tests is cleared and the
    process terminated. *)
Definition shutdown (t : DAPTester) : DAPTester := set_running t false.

End Standalone.

(** ** test_correct_sequence.py *)

Module CorrectSequence.

(** One pass of the header loop on a decoded line that is not the blank one:
    [if ':' in line: k, v = line.strip().split(':', 1); headers[k.strip()] = v.strip()] *)
Definition header_line (line : string) (headers : gmap string string)
  : result (gmap string string) :=
  if Py.contains line ":" then
    match Py.split1 (Py.strip line) ":" with
    | [k; v] => Return (<[Py.strip k := Py.strip v]> headers)
    | _ => Raise (ValueError "not enough values to unpack")
    end
  else Return headers.

(** The header loop: [line] holds the bytes [readline] has gathered so far.
    The loop is left at a blank line and at the end of the stream. *)
Fixpoint read_headers (line : string) (headers : gmap string string) (stream : string)
  : result (gmap string string) * string :=
  match stream with
  | EmptyString =>
      match line with
      | EmptyString => (Return headers, EmptyString)
      | _ => (text ← Py.decode line; header_line text headers, EmptyString)
      end
  | String c rest =>
      let line := line +:+ String c EmptyString in
      if Ascii.eqb c Py.LF then
        match Py.decode line with
        | Raise e => (Raise e, rest)
        | Return text =>
            if String.eqb text Py.CRLF || String.eqb text (String Py.LF EmptyString)
            then (Return headers, rest)
            else match header_line text headers with
                 | Raise e => (Raise e, rest)
                 | Return headers => read_headers EmptyString headers rest
                 end
        end
      else read_headers line headers rest
  end.

(** [int(headers.get('Content-Length', 0))] *)
Definition content_length (headers : gmap string string) : result Z :=
  match headers !! "Content-Length"%string with
  | Some value => Py.int value
  | None => Return 0
  end.

Section Transport.
Context `{JsonCodec}.

(** [send_message] to an adapter that runs: the outcome and the bytes of
    [proc.stdin].  The [print] comes after the write and needs a [dict]. *)
Definition send_message (stdin : string) (msg : json) : result unit * string :=
  let content := json_dumps msg in
  let header := "Content-Length: " +:+ Py.str (Z.of_nat (Py.len content)) +:+ Py.CRLFCRLF in
  let stdin := stdin +:+ (header +:+ content) in
  (event ← Dict.get_default msg "event" (JStr EmptyString);
   command ← Dict.get_default msg "command" event;
   mret tt, stdin).

(** The body of the [try] of [read_message]. *)
Definition read_message_try (stdout : string) : result json * string :=
  match read_headers EmptyString ∅ stdout with
  | (Raise e, rest) => (Raise e, rest)
  | (Return headers, rest) =>
      match content_length headers with
      | Raise e => (Raise e, rest)
      | Return length =>
          match Stream.buffered_read length rest with
          | (Raise e, rest') => (Raise e, rest')
          | (Return content, rest') =>
              (text ← Py.decode content;
               msg ← json_loads text;
               type ← Dict.item msg "type";
               event ← Dict.get_default msg "event" (JStr EmptyString);
               command ← Dict.get_default msg "command" event;
               mret msg, rest')
          end
      end
  end.

(** [read_message]; [ready] is what [select] answered within the timeout (on
    win32 the test is skipped, as if it were [true]).  Every exception is
    printed and becomes [None]. *)
Definition read_message (ready : bool) (stdout : string) : option json * string :=
  if ready then
    match read_message_try stdout with
    | (Return msg, rest) => (Some msg, rest)
    | (Raise e, rest) => (None, rest)
    end
  else (None, stdout).

End Transport.

(** *** The script after [Popen]

    The adapter process, as the script sees it: the bytes written to its
    input, the bytes that its output will still deliver, and the number of
    calls of [read_message] made so far.  What the call of [select] in the
    [n]-th of them answers within its timeout is given by [select] (on win32
    no call is made, as if every answer were [true]); whether the adapter
    still runs and holds its input open after [n] of them is given by
    [alive]. *)
Record proc : Type := mkProc {
  stdin : string;
  stdout : string;
  selects : nat;
}.

Definition initialize_request : json :=
  JObj [("seq", JInt 1); ("type", JStr "request"); ("command", JStr "initialize");
        ("arguments",
         JObj [("clientID", JStr "test"); ("adapterID", JStr "debugpy");
               ("linesStartAt1", JBool true); ("columnsStartAt1", JBool true)])]%string.

Definition configuration_done_request : json :=
  JObj [("seq", JInt 2); ("type", JStr "request"); ("command", JStr "configurationDone");
        ("arguments", JObj [])]%string.

Definition launch_request (fizzbuzz : string) : json :=
  JObj [("seq", JInt 3); ("type", JStr "request"); ("command", JStr "launch");
        ("arguments",
         JObj [("request", JStr "launch"); ("type", JStr "python");
               ("program", JStr fizzbuzz); ("console", JStr "internalConsole");
               ("stopOnEntry", JBool false)])]%string.

(** [msg and msg.get('type') == type and msg.get(key) == name] *)
Definition wanted (msg : option json) (type key name : string) : result bool :=
  match msg with
  | Some m =>
      if Dict.truthy m then
        t ← Dict.get m "type";
        if is_str t type then v ← Dict.get m key; mret (is_str v name)
        else mret false
      else mret false
  | None => mret false
  end.

Section Script.
Context `{JsonCodec}.
Variable select : nat -> bool.
Variable alive : nat -> bool.

Definition read (p : proc) : option json * proc :=
  let '(msg, rest) := read_message (select (selects p)) (stdout p) in
  (msg, mkProc (stdin p) rest (S (selects p))).

(** [send_message(proc, msg)] on the pipe of the adapter: the bytes go out
    at [proc.stdin.flush()], which raises [BrokenPipeError] when the adapter
    has exited; the [print] follows. *)
Definition send (msg : json) (p : proc) : result proc :=
  if alive (selects p) then
    let '(r, written) := send_message (stdin p) msg in
    _ ← r; mret (mkProc written (stdout p) (selects p))
  else Raise BrokenPipeError.

(** The loops of steps 1 to 3:
    [for _ in range(n): msg = read_message(proc); if <wanted>: break] *)
Fixpoint await (n : nat) (type key name : string) (p : proc) : result proc :=
  match n with
  | O => mret p
  | S n =>
      let '(msg, p) := read p in
      found ← wanted msg type key name;
      if found : bool then mret p else await n type key name p
  end.

(** The loop of step 4, which stops at the first read that gives nothing. *)
Fixpoint await_launch (n : nat) (p : proc) : result proc :=
  match n with
  | O => mret p
  | S n =>
      let '(msg, p) := read p in
      match msg with
      | None => mret p
      | Some m =>
          if negb (Dict.truthy m) then mret p
          else
            t ← Dict.get m "type";
            if is_str t "response" then
              c ← Dict.get m "command";
              if is_str c "launch" then
                success ← Dict.get_default m "success" (JBool false);
                if Dict.truthy success then mret p
                else _ ← Dict.get m "message"; mret p
              else await_launch n p
            else await_launch n p
      end
  end.

(** The [try] of the script, on an adapter whose output will deliver
    [pending]; an exception leaves the script after [finally]. *)
Definition script (fizzbuzz pending : string) : result proc :=
  p ← send initialize_request (mkProc EmptyString pending 0);
  p ← await 5 "response" "command" "initialize" p;
  p ← await 5 "event" "event" "initialized" p;
  p ← send configuration_done_request p;
  p ← await 5 "response" "command" "configurationDone" p;
  p ← send (launch_request fizzbuzz) p;
  await_launch 10 p.

End Script.
End CorrectSequence.

(** ** test_launch_sequence.py *)

Module LaunchSequence.

(** The header loop; [None] stands for the [return None] at the end of the
    stream. *)
Fixpoint read_headers (line : string) (headers : gmap string string) (stream : string)
  : result (option (gmap string string)) * string :=
  match stream with
  | EmptyString =>
      match line with
      | EmptyString => (Return None, EmptyString)
      | _ => (text ← Py.decode line;
              headers ← CorrectSequence.header_line text headers;
              mret None, EmptyString)
      end
  | String c rest =>
      let line := line +:+ String c EmptyString in
      if Ascii.eqb c Py.LF then
        match Py.decode line with
        | Raise e => (Raise e, rest)
        | Return text =>
            if String.eqb text Py.CRLF || String.eqb text (String Py.LF EmptyString)
            then (Return (Some headers), rest)
            else match CorrectSequence.header_line text headers with
                 | Raise e => (Raise e, rest)
                 | Return headers => read_headers EmptyString headers rest
                 end
        end
      else read_headers line headers rest
  end.

(** [s.upper()] exists on a [str] only. *)
Definition upper_of (v : json) : result unit :=
  match v with
  | JStr _ => Return tt
  | _ => Raise AttributeError
  end.

Section Transport.
Context `{JsonCodec}.

(** [send_message] to an adapter that runs: the [print] comes before the
    write, and its [msg['type'].upper()] needs a [dict] with a [str] under
    ['type']. *)
Definition send_message (stdin : string) (msg : json) : result unit * string :=
  let content := json_dumps msg in
  let header := "Content-Length: " +:+ Py.str (Z.of_nat (Py.len content)) +:+ Py.CRLFCRLF in
  let message := header +:+ content in
  match type ← Dict.item msg "type";
        _ ← upper_of type;
        event ← Dict.get_default msg "event" (JStr EmptyString);
        command ← Dict.get_default msg "command" event;
        mret tt with
  | Return _ => (Return tt, stdin +:+ message)
  | Raise e => (Raise e, stdin)
  end.

(** The body of the [try] of [read_message]. *)
Definition read_message_try (stdout : string) : result (option json) * string :=
  match read_headers EmptyString ∅ stdout with
  | (Raise e, rest) => (Raise e, rest)
  | (Return None, rest) => (Return None, rest)
  | (Return (Some headers), rest) =>
      match CorrectSequence.content_length headers with
      | Raise e => (Raise e, rest)
      | Return length =>
          match Stream.buffered_read length rest with
          | (Raise e, rest') => (Raise e, rest')
          | (Return content, rest') =>
              (text ← Py.decode content;
               msg ← json_loads text;
               type ← Dict.item msg "type";
               _ ← upper_of type;
               event ← Dict.get_default msg "event" (JStr EmptyString);
               command ← Dict.get_default msg "command" event;
               mret (Some msg), rest')
          end
      end
  end.

Definition read_message (ready : bool) (stdout : string) : option json * string :=
  if ready then
    match read_message_try stdout with
    | (Return msg, rest) => (msg, rest)
    | (Raise e, rest) => (None, rest)
    end
  else (None, stdout).

End Transport.

(** *** [main] after [Popen] *)

Definition initialize_request : json :=
  JObj [("seq", JInt 1); ("type", JStr "request"); ("command", JStr "initialize");
        ("arguments",
         JObj [("clientID", JStr "test"); ("clientName", JStr "Test");
               ("adapterID", JStr "debugpy");
               ("linesStartAt1", JBool true); ("columnsStartAt1", JBool true);
               ("pathFormat", JStr "path")])]%string.

Definition launch_request (fizzbuzz : string) : json :=
  JObj [("seq", JInt 2); ("type", JStr "request"); ("command", JStr "launch");
        ("arguments",
         JObj [("request", JStr "launch"); ("type", JStr "python");
               ("program", JStr fizzbuzz); ("args", JArr []);
               ("console", JStr "internalConsole");
               ("stopOnEntry", JBool false)])]%string.

Definition configuration_done_request : json :=
  JObj [("seq", JInt 3); ("type", JStr "request"); ("command", JStr "configurationDone");
        ("arguments", JObj [])]%string.

Section Main.
Context `{JsonCodec}.
Variable select : nat -> bool.
Variable alive : nat -> bool.

Definition read (p : CorrectSequence.proc) : option json * CorrectSequence.proc :=
  let '(msg, rest) :=
    read_message (select (CorrectSequence.selects p)) (CorrectSequence.stdout p) in
  (msg, CorrectSequence.mkProc (CorrectSequence.stdin p) rest (S (CorrectSequence.selects p))).

(** [send_message(proc, msg)] on the pipe of the adapter: after the
    [print], the bytes go out at [proc.stdin.flush()], which raises
    [BrokenPipeError] when the adapter has exited. *)
Definition send (msg : json) (p : CorrectSequence.proc) : result CorrectSequence.proc :=
  let '(r, written) := send_message (CorrectSequence.stdin p) msg in
  _ ← r;
  if alive (CorrectSequence.selects p) then
    mret (CorrectSequence.mkProc written (CorrectSequence.stdout p)
            (CorrectSequence.selects p))
  else Raise BrokenPipeError.

(** The three loops of [main]: at most [n] reads, left at the first read
    that gives nothing and at the response to [command]. *)
Fixpoint await (n : nat) (command : string) (p : CorrectSequence.proc)
  : result CorrectSequence.proc :=
  match n with
  | O => mret p
  | S n =>
      let '(msg, p) := read p in
      match msg with
      | None => mret p
      | Some m =>
          if negb (Dict.truthy m) then mret p
          else
            t ← Dict.get m "type";
            if is_str t "response" then
              c ← Dict.get m "command";
              if is_str c command then mret p else await n command p
            else await n command p
      end
  end.

(** The [try] of [main], on an adapter whose output will deliver
    [pending]; an exception leaves [main] after [finally]. *)
Definition main (fizzbuzz pending : string) : result CorrectSequence.proc :=
  p ← send initialize_request (CorrectSequence.mkProc EmptyString pending 0);
  p ← await 10 "initialize" p;
  p ← send (launch_request fizzbuzz) p;
  p ← await 10 "launch" p;
  p ← send configuration_done_request p;
  await 5 "configurationDone" p.

End Main.
End LaunchSequence.

(** ** test_debugpy_manual.py *)

Module DebugpyManual.

(** The header loop of [read_message], for at most [passes] passes; [None]
    when the loop has not ended by then.  The loop is left at the line
    ['\r\n'] only; its body is that of the other two scripts. *)
Fixpoint read_headers (passes : nat) (headers : gmap string string) (stream : string)
  : option (result (gmap string string) * string) :=
  match passes with
  | O => None
  | S n =>
      let '(line, rest) := Stream.readline stream in
      match Py.decode line with
      | Raise e => Some (Raise e, rest)
      | Return text =>
          if String.eqb text Py.CRLF then Some (Return headers, rest)
          else match CorrectSequence.header_line text headers with
               | Raise e => Some (Raise e, rest)
               | Return headers => read_headers n headers rest
               end
      end
  end.

Section Transport.
Context `{JsonCodec}.

(** [send_message] to an adapter that runs: its [print] shows the message
    itself and does not raise. *)
Definition send_message (stdin : string) (msg : json) : string :=
  let content := json_dumps msg in
  let header := "Content-Length: " +:+ Py.str (Z.of_nat (Py.len content)) +:+ Py.CRLFCRLF in
  stdin +:+ (header +:+ content).

(** [read_message], whose header loop makes at most [passes] passes: there
    is no [select] and no [try], an exception leaves the function. *)
Definition read_message (passes : nat) (stdout : string) : option (result json * string) :=
  match read_headers passes ∅ stdout with
  | None => None
  | Some (Raise e, rest) => Some (Raise e, rest)
  | Some (Return headers, rest) =>
      match CorrectSequence.content_length headers with
      | Raise e => Some (Raise e, rest)
      | Return content_length =>
          match Stream.buffered_read content_length rest with
          | (Raise e, rest') => Some (Raise e, rest')
          | (Return content, rest') =>
              Some (text ← Py.decode content; msg ← json_loads text; mret msg, rest')
          end
      end
  end.

End Transport.
End DebugpyManual.

(** ** A JSON codec to run the model

    The serializer follows [json.dumps] with its default separators and
    [ensure_ascii]; the parser reads the JSON texts whose strings stay within
    code points below 256 and whose numbers are integers. *)

Module MiniJson.

Definition dquote : ascii := ascii_of_nat 34.

Definition hex_digit (n : nat) : ascii :=
  if (n <? 10)%nat then ascii_of_nat (48 + n) else ascii_of_nat (87 + n).

Definition escape (c : ascii) : string :=
  let n := nat_of_ascii c in
  if (n =? 34)%nat then String "\" (String dquote EmptyString)
  else if (n =? 92)%nat then "\\"
  else if (n =? 10)%nat then "\n"
  else if (n =? 13)%nat then "\r"
  else if (n =? 9)%nat then "\t"
  else if (n =? 8)%nat then "\b"
  else if (n =? 12)%nat then "\f"
  else if (n <? 32)%nat || (127 <? n)%nat
       then "\u00" +:+ String (hex_digit (n / 16)) (String (hex_digit (n mod 16)) EmptyString)
  else String c EmptyString.

Fixpoint escape_all (s : string) : string :=
  match s with
  | EmptyString => EmptyString
  | String c r => escape c +:+ escape_all r
  end.

Definition quote (s : string) : string :=
  String dquote (escape_all s +:+ String dquote EmptyString).

Fixpoint join (sep : string) (parts : list string) : string :=
  match parts with
  | [] => EmptyString
  | [p] => p
  | p :: more => p +:+ sep +:+ join sep more
  end.

Fixpoint dumps (v : json) : string :=
  match v with
  | JNull => "null"
  | JBool true => "true"
  | JBool false => "false"
  | JInt n => Py.str n
  | JStr s => quote s
  | JArr items => "[" +:+ join ", " (map dumps items) +:+ "]"
  | JObj fields =>
      "{" +:+ join ", " (map (fun kv => quote (fst kv) +:+ ": " +:+ dumps (snd kv)) fields) +:+ "}"
  end.

Definition is_ws (c : ascii) : bool :=
  let n := nat_of_ascii c in
  (n =? 32)%nat || (n =? 9)%nat || (n =? 10)%nat || (n =? 13)%nat.

Fixpoint skip_ws (s : string) : string :=
  match s with
  | String c r => if is_ws c then skip_ws r else s
  | EmptyString => EmptyString
  end.

Definition hex_value (c : ascii) : option nat :=
  let n := nat_of_ascii c in
  if (48 <=? n)%nat && (n <=? 57)%nat then Some (n - 48)%nat
  else if (97 <=? n)%nat && (n <=? 102)%nat then Some (n - 87)%nat
  else if (65 <=? n)%nat && (n <=? 70)%nat then Some (n - 55)%nat
  else None.

(** The characters of a string literal after its opening quote. *)
Fixpoint parse_chars (s : string) : option (string * string) :=
  match s with
  | EmptyString => None
  | String c r =>
      let n := nat_of_ascii c in
      if (n =? 34)%nat then Some (EmptyString, r)
      else if (n =? 92)%nat then
        match r with
        | String e r' =>
            let unescaped (c' : ascii) :=
              match parse_chars r' with
              | Some (t, rest) => Some (String c' t, rest)
              | None => None
              end in
            match nat_of_ascii e with
            | 34%nat => unescaped e
            | 92%nat => unescaped e
            | 47%nat => unescaped e
            | 110%nat => unescaped Py.LF
            | 114%nat => unescaped Py.CR
            | 116%nat => unescaped (ascii_of_nat 9)
            | 98%nat => unescaped (ascii_of_nat 8)
            | 102%nat => unescaped (ascii_of_nat 12)
            | 117%nat =>
                match r' with
                | String "0" (String "0" (String h (String l r''))) =>
                    match hex_value h, hex_value l, parse_chars r'' with
                    | Some a, Some b, Some (t, rest) =>
                        Some (String (ascii_of_nat (16 * a + b)) t, rest)
                    | _, _, _ => None
                    end
                | _ => None
                end
            | _ => None
            end
        | EmptyString => None
        end
      else if (n <? 32)%nat || (127 <? n)%nat then None
      else match parse_chars r with
           | Some (t, rest) => Some (String c t, rest)
           | None => None
           end
  end.

Definition is_digit (c : ascii) : bool :=
  let n := nat_of_ascii c in (48 <=? n)%nat && (n <=? 57)%nat.

Fixpoint span_digits (s : string) : string * string :=
  match s with
  | String c r =>
      if is_digit c then let '(d, rest) := span_digits r in (String c d, rest)
      else (EmptyString, s)
  | EmptyString => (EmptyString, EmptyString)
  end.

(** An integer literal: no leading zero, no fraction and no exponent. *)
Definition parse_int (s : string) : option (Z * string) :=
  let '(neg, s') := match s with String "-" r => (true, r) | _ => (false, s) end in
  let '(d, rest) := span_digits s' in
  match d, rest with
  | String "0" (String _ _), _ => None
  | _, String "." _ | _, String "e" _ | _, String "E" _ => None
  | _, _ =>
      match NilEmpty.uint_of_string d with
      | Some Nil | None => None
      | Some u => Some (if neg : bool then - Z.of_uint u else Z.of_uint u, rest)
      end
  end.

Fixpoint set_field (fields : list (string * json)) (k : string) (v : json)
  : list (string * json) :=
  match fields with
  | [] => [(k, v)]
  | (k', v') :: more =>
      if String.eqb k' k then (k', v) :: more else (k', v') :: set_field more k v
  end.

Fixpoint parse_value (fuel : nat) (s : string) : option (json * string) :=
  match fuel with
  | O => None
  | S fuel =>
      match skip_ws s with
      | String "n" (String "u" (String "l" (String "l" r))) => Some (JNull, r)
      | String "t" (String "r" (String "u" (String "e" r))) => Some (JBool true, r)
      | String "f" (String "a" (String "l" (String "s" (String "e" r)))) =>
          Some (JBool false, r)
      | String "[" r =>
          match skip_ws r with
          | String "]" rest => Some (JArr [], rest)
          | _ => parse_items fuel [] r
          end
      | String "{" r =>
          match skip_ws r with
          | String "}" rest => Some (JObj [], rest)
          | _ => parse_fields fuel [] r
          end
      | String c r as s' =>
          if Ascii.eqb c dquote then
            match parse_chars r with
            | Some (t, rest) => Some (JStr t, rest)
            | None => None
            end
          else
            match parse_int s' with
            | Some (n, rest) => Some (JInt n, rest)
            | None => None
            end
      | EmptyString => None
      end
  end
with parse_items (fuel : nat) (acc : list json) (s : string) : option (json * string) :=
  match fuel with
  | O => None
  | S fuel =>
      match parse_value fuel s with
      | Some (v, rest) =>
          match skip_ws rest with
          | String "," rest' => parse_items fuel (acc ++ [v]) rest'
          | String "]" rest' => Some (JArr (acc ++ [v]), rest')
          | _ => None
          end
      | None => None
      end
  end
with parse_fields (fuel : nat) (acc : list (string * json)) (s : string)
  : option (json * string) :=
  match fuel with
  | O => None
  | S fuel =>
      match skip_ws s with
      | String c r =>
          if Ascii.eqb c dquote then
            match parse_chars r with
            | Some (k, rest) =>
                match skip_ws rest with
                | String ":" rest' =>
                    match parse_value fuel rest' with
                    | Some (v, rest'') =>
                        match skip_ws rest'' with
                        | String "," more => parse_fields fuel (set_field acc k v) more
                        | String "}" more => Some (JObj (set_field acc k v), more)
                        | _ => None
                        end
                    | None => None
                    end
                | _ => None
                end
            | None => None
            end
          else None
      | EmptyString => None
      end
  end.

Definition loads (s : string) : result json :=
  match parse_value (2 * String.length s + 2) s with
  | Some (v, rest) =>
      match skip_ws rest with
      | EmptyString => Return v
      | _ => Raise JSONDecodeError
      end
  | None => Raise JSONDecodeError
  end.

Definition codec : JsonCodec := {| json_dumps := dumps; json_loads := loads |}.

End MiniJson.

(** ** Notions the properties are stated with *)

(** The header line of a frame around a body of [n] bytes. *)
Definition header_line_of (n : nat) : string :=
  "Content-Length: " +:+ Py.str (Z.of_nat n).

(** [written] is a frame around [body]: the header line with a decimal
    numeral that [int] reads as the number of bytes of [body], the blank
    line, then [body] and nothing after it. *)
Definition is_frame_of (body written : string) : Prop :=
  exists numeral,
    written = "Content-Length: " +:+ numeral +:+ Py.CRLFCRLF +:+ body
    /\ Py.all_digits numeral = true
    /\ numeral <> EmptyString
    /\ Py.int numeral = Return (Z.of_nat (String.length body)).

(** A message that survives the codec: [json.dumps] writes it as ASCII text
    and [json.loads] reads that text back as the same value. *)
Definition json_faithful `{JsonCodec} (m : json) : Prop :=
  Py.is_ascii (json_dumps m) = true /\ json_loads (json_dumps m) = Return m.

(** A DAP message: a [dict] whose ["type"] is a [str]. *)
Definition dap_message (m : json) : Prop :=
  exists fields t, m = JObj fields /\ Dict.lookup fields "type" = Some (JStr t).

(** [body] is what the adapter wrote for [m]: well-formed UTF-8 that
    [json.loads] reads as [m]. *)
Definition inbound `{JsonCodec} (body : string) (m : json) : Prop :=
  Py.decode body = Return body /\ json_loads body = Return m.

(** A response to the request numbered [n]. *)
Definition is_response (m : json) (n : Z) : Prop :=
  exists fields,
    m = JObj fields
    /\ Dict.lookup fields "type" = Some (JStr "response")
    /\ Dict.lookup fields "request_seq" = Some (JInt n).

(** An event, by name. *)
Definition is_event (m : json) (name : string) : Prop :=
  exists fields,
    m = JObj fields
    /\ Dict.lookup fields "type" = Some (JStr "event")
    /\ Dict.lookup fields "event" = Some (JStr name).

(** A response that reports success. *)
Definition succeeded (m : json) : Prop :=
  exists fields, m = JObj fields /\ Dict.lookup fields "success" = Some (JBool true).

(** A response whose ['body'] is absent or a [dict]: [main] can read the
    capabilities of it. *)
Definition capable (m : json) : Prop :=
  exists capabilities, Dict.get_default m "body" (JObj []) = Return (JObj capabilities).

(** The test of the reader loop for the event it handles itself. *)
Definition is_initialized (m : json) : bool :=
  match m with
  | JObj fields =>
      match Dict.lookup fields "type", Dict.lookup fields "event" with
      | Some ty, Some ev => is_str ty "event" && is_str ev "initialized"
      | _, _ => false
      end
  | _ => false
  end.

(** What one pass of the reader loop adds to the order of the wire: nothing,
    a message it received, or the ['initialized'] event followed by the
    [configurationDone] request. *)
Definition pass_chunk (chunk : list Standalone.io) : Prop :=
  chunk = []
  \/ (exists m, chunk = [Standalone.Received m] /\ is_initialized m = false)
  \/ (exists m n, chunk = [Standalone.Received m;
                           Standalone.Sent (Standalone.configuration_done_request n)]
                  /\ is_initialized m = true).

(** The requests written so far. *)
Fixpoint requests_sent (w : list Standalone.io) : list json :=
  match w with
  | [] => []
  | Standalone.Sent m :: more => m :: requests_sent more
  | Standalone.Received _ :: more => requests_sent more
  end.

(** The specification's fate of a response that no pending request awaits: it
    is diagnosed as a protocol violation and fulfils no wait. *)
Definition diagnosed_as_violation (t : Standalone.DAPTester) (n : Z) : Prop :=
  forall later, Standalone.wait_for_response n (t :: later)
                = Standalone.wait_for_response n later.

Definition initialized_event : json :=
  JObj [("type", JStr "event"); ("event", JStr "initialized")]%string.

Definition response_to (n : Z) (command : string) (success : bool) : json :=
  JObj [("type", JStr "response"); ("request_seq", JInt n);
        ("command", JStr command); ("success", JBool success)]%string.

(** In the order [w] of the wire, [x] comes strictly before every received
    message that satisfies [P]. *)
Definition comes_before (x : Standalone.io) (P : json -> Prop) (w : list Standalone.io)
  : Prop :=
  forall pre m post, w = pre ++ Standalone.Received m :: post -> P m -> In x pre.

(** The frames of several bodies, one after the other. *)
Definition frames (bodies : list string) : string :=
  foldr (fun body after => frame body +:+ after) EmptyString bodies.

(** The messages received so far, in order. *)
Fixpoint messages_received (w : list Standalone.io) : list json :=
  match w with
  | [] => []
  | Standalone.Received m :: more => m :: messages_received more
  | Standalone.Sent _ :: more => messages_received more
  end.

(** A well-formed inbound message: a response to some request number, or an
    event with a name. *)
Definition well_formed (m : json) : Prop :=
  (exists n, is_response m n) \/ (exists name, is_event m name).

(** A tester whose adapter has been spawned ([start_adapter]) and whose pipe
    holds [pending]. *)
Definition spawned (pending : string) : Standalone.DAPTester :=
  Standalone.mkDAPTester 0 [] ∅ true EmptyString pending [].

(** ** Concrete sessions with the codec of [MiniJson] *)

Module Session.

(** The tester once [main] has spawned the adapter and sent [initialize]. *)
Definition after_initialize : Standalone.DAPTester :=
  match @Standalone.request_initialize MiniJson.codec (spawned EmptyString) with
  | Return t => t
  | Raise _ => spawned EmptyString
  end.

(** The same tester when the adapter has written [bodies] since. *)
Definition with_inbound (t : Standalone.DAPTester) (bodies : list string)
  : Standalone.DAPTester :=
  Standalone.set_stdout t (Standalone.stdout t +:+ frames bodies).

Definition pass (t : Standalone.DAPTester) : Standalone.DAPTester :=
  snd (@Standalone._read_messages_pass MiniJson.codec t).

End Session.

(** pathlib on POSIX paths without a trailing slash, to run the model. *)
Module MiniPath.

Fixpoint parent_of (s : string) : option string :=
  match s with
  | EmptyString => None
  | String c r =>
      match parent_of r with
      | Some p => Some (String c p)
      | None => if Ascii.eqb c "/" then Some EmptyString else None
      end
  end.

Definition parent (s : string) : string :=
  match parent_of s with
  | Some EmptyString => "/"
  | Some p => p
  | None => "."
  end.

Definition pathlib : PathLib := {| path_parent := parent |}.

End MiniPath.

(** ** scripts/test_dap_standalone.py: [main], the reader thread and the adapter

    Three parties take turns: the main thread, the reader thread
    ([_read_messages]) and the adapter process.  A schedule lists whose turn
    it is.  A turn of the main thread is one statement of the handshake of
    [main]; a turn of the reader is one pass of its loop, enabled when the
    pipe holds bytes (the read blocks otherwise) or when [running] has been
    cleared (the pass leaves the loop); a turn of the adapter writes one
    frame.  A turn is taken as a whole: the order of the wire is the order
    of the writes and of the returns of [_read_message].  The adapter
    writes whole frames, which are in the pipe when the reader comes to
    them, and it runs until [shutdown] terminates it: it keeps its output
    open and reads its input, so that writes to it do not fail.  The
    fixture that [main] looks for exists. *)

Module Handshake.

(** Where the main thread stands.  [send_initialize] and [send_launch] end
    with [return self.seq], which reads the counter again after the request
    went out: that read is a turn of its own. *)
Inductive main_pc : Type :=
  | AtStart                       (* the adapter is spawned; next: send_initialize() *)
  | InitializeWritten             (* in send_initialize, before return self.seq *)
  | WaitInitialize (init_seq : Z) (* in wait_for_response(init_seq) *)
  | InitializeOk                  (* lines 251-254 passed; next: send_launch() *)
  | LaunchWritten                 (* in send_launch, before return self.seq *)
  | WaitLaunch (launch_seq : Z)   (* in wait_for_response(launch_seq) *)
  | LaunchOk                      (* launch_response.get('success') held: the handshake is done *)
  | Exit1.                        (* return 1, after shutdown() *)

(** An adapter: from its state and the requests written to it so far, what
    it may write next, by choice; a body is sent in a frame. *)
Record adapter : Type := mkAdapter {
  astate : Type;
  astart : astate;
  areact : astate -> list json -> nat -> option (astate * string);
}.

Inductive label : Type :=
  | Main
  | Deadline                      (* the clock of a wait_for_response passes its timeout *)
  | Reader
  | Adapter (choice : nat).

Record system (A : adapter) : Type := mkSystem {
  tester : Standalone.DAPTester;
  pc : main_pc;
  reader : Standalone.loop;       (* [Break] once the reader thread has left its loop *)
  adapter_state : astate A;
}.
Arguments mkSystem {A} _ _ _ _.
Arguments tester {A} _.
Arguments pc {A} _.
Arguments reader {A} _.
Arguments adapter_state {A} _.

(** [main] after [tester.start_adapter()]. *)
Definition init (A : adapter) : system A :=
  mkSystem (spawned EmptyString) AtStart Standalone.Continue (astart A).

(** [return 1] runs the [finally]: [tester.shutdown()]. *)
Definition exit1 {A : adapter} (s : system A) : system A :=
  mkSystem (Standalone.set_running (tester s) false) Exit1 (reader s) (adapter_state s).

Definition goto {A : adapter} (s : system A) (t : Standalone.DAPTester) (next : main_pc)
  : system A :=
  mkSystem t next (reader s) (adapter_state s).

(** What [main] does with the response to [initialize] (lines 251-257):
    the [if] on ['success'] and, when it holds, the capabilities that are
    printed; [capabilities.get] needs the ['body'] to be a [dict]. *)
Definition initialize_succeeded (init_response : json) : result bool :=
  success ← Dict.get init_response "success";
  if Dict.truthy success then
    capabilities ← Dict.get_default init_response "body" (JObj []);
    supports ← Dict.get capabilities "supportsConfigurationDoneRequest";
    mret true
  else
    message ← Dict.get init_response "message";
    mret false.

(** What [main] does with the response to [launch] (lines 273-277). *)
Definition launch_succeeded (launch_response : json) : result bool :=
  success ← Dict.get launch_response "success";
  if Dict.truthy success then mret true
  else
    message ← Dict.get launch_response "message";
    mret false.

(** One test of the loop of [wait_for_response], then the statements that
    follow the call in [main]: [check] is the [if] on ['success'], whose
    [else] is [return 1]; an exception is caught by [except Exception], which
    returns 1 as well. *)
Definition poll {A : adapter} (s : system A) (seq : Z)
  (check : json -> result bool) (next : main_pc) : system A :=
  match Standalone.wait_for_response seq [tester s] with
  | Return response =>
      match check response with
      | Return true => goto s (tester s) next
      | Return false | Raise _ => exit1 s
      end
  | Raise _ => s                  (* time.sleep(0.1) *)
  end.

Definition has_command (requests : list json) (command : string) : bool :=
  existsb (fun q => match Dict.get q "command" with
                    | Return c => is_str c command
                    | Raise _ => false
                    end) requests.

Definition is_empty (s : string) : bool :=
  match s with EmptyString => true | _ => false end.

Section Steps.
Context `{JsonCodec} `{PathLib}.
Variable program_path : string.
Variable A : adapter.

Definition main_step (s : system A) : option (system A) :=
  match pc s with
  | AtStart =>
      match Standalone.request_initialize (tester s) with
      | Return t => Some (goto s t InitializeWritten)
      | Raise _ => Some (exit1 s)
      end
  | InitializeWritten => Some (goto s (tester s) (WaitInitialize (Standalone.seq (tester s))))
  | WaitInitialize init_seq => Some (poll s init_seq initialize_succeeded InitializeOk)
  | InitializeOk =>
      match Standalone.request_launch program_path (tester s) with
      | Return t => Some (goto s t LaunchWritten)
      | Raise _ => Some (exit1 s)
      end
  | LaunchWritten => Some (goto s (tester s) (WaitLaunch (Standalone.seq (tester s))))
  | WaitLaunch launch_seq => Some (poll s launch_seq launch_succeeded LaunchOk)
  | LaunchOk | Exit1 => None
  end.

Definition step (l : label) (s : system A) : option (system A) :=
  match l with
  | Main => main_step s
  | Deadline =>
      match pc s with
      | WaitInitialize _ | WaitLaunch _ => Some (exit1 s)
      | _ => None
      end
  | Reader =>
      match reader s with
      | Standalone.Continue =>
          if negb (is_empty (Standalone.stdout (tester s)))
             || negb (Standalone.running (tester s))
          then let '(l, t) := Standalone._read_messages_pass (tester s) in
               Some (mkSystem t (pc s) l (adapter_state s))
          else None
      | Standalone.Break => None
      end
  | Adapter choice =>
      if Standalone.running (tester s) then
        match areact A (adapter_state s)
                (requests_sent (Standalone.wire (tester s))) choice with
        | Some (a, body) =>
            Some (mkSystem
                    (Standalone.set_stdout (tester s)
                       (Standalone.stdout (tester s) +:+ frame body))
                    (pc s) (reader s) a)
        | None => None
        end
      else None
  end.

Fixpoint run (schedule : list label) (s : system A) : option (system A) :=
  match schedule with
  | [] => Some s
  | l :: later =>
      match step l s with
      | Some s' => run later s'
      | None => None
      end
  end.

End Steps.

Definition is_deadline (l : label) : bool :=
  match l with Deadline => true | _ => false end.

(** No wait runs out of time. *)
Definition in_time (schedule : list label) : Prop :=
  Forall (fun l => is_deadline l = false) schedule.

(** *** The adapter double of the handshake

    It answers [initialize] with [init_body], answers [launch] by the event
    [event_body] first and the response [launch_body] at some later time, and
    answers [configurationDone] with [done_body]. *)
Record double_state : Type := mkDouble {
  initialize_answered : bool;
  initialized_emitted : bool;
  launch_answered : bool;
  done_answered : bool;
}.

Definition double (init_body event_body launch_body done_body : string) : adapter :=
  mkAdapter double_state (mkDouble false false false false)
    (fun a requests choice =>
       match choice with
       | 0%nat =>
           if negb (initialize_answered a) && has_command requests "initialize"
           then Some (mkDouble true (initialized_emitted a) (launch_answered a)
                        (done_answered a), init_body)
           else None
       | 1%nat =>
           if negb (initialized_emitted a) && has_command requests "launch"
           then Some (mkDouble (initialize_answered a) true (launch_answered a)
                        (done_answered a), event_body)
           else None
       | 2%nat =>
           if initialized_emitted a && negb (launch_answered a)
           then Some (mkDouble (initialize_answered a) (initialized_emitted a) true
                        (done_answered a), launch_body)
           else None
       | 3%nat =>
           if negb (done_answered a) && has_command requests "configurationDone"
           then Some (mkDouble (initialize_answered a) (initialized_emitted a)
                        (launch_answered a) true, done_body)
           else None
       | _ => None
       end).

(** An adapter that follows the protocol's own order instead: the
    ['initialized'] event right after the response to [initialize]. *)
Definition eager (init_body event_body : string) : adapter :=
  mkAdapter (bool * bool) (false, false)
    (fun a requests choice =>
       match choice with
       | 0%nat =>
           if negb (fst a) && has_command requests "initialize"
           then Some ((true, snd a), init_body) else None
       | 1%nat =>
           if fst a && negb (snd a) then Some ((fst a, true), event_body) else None
       | _ => None
       end).

(** How far the handshake has come: the statements the main thread has
    passed, the messages read and the frames the double has written. *)
Definition pc_index (p : main_pc) : nat :=
  match p with
  | AtStart => 0
  | InitializeWritten => 1
  | WaitInitialize _ => 2
  | InitializeOk => 3
  | LaunchWritten => 4
  | WaitLaunch _ => 5
  | LaunchOk => 6
  | Exit1 => 0
  end.

Definition frames_written (a : double_state) : nat :=
  Nat.b2n (initialize_answered a) + Nat.b2n (initialized_emitted a)
  + Nat.b2n (launch_answered a) + Nat.b2n (done_answered a).

Definition progress {i e l d : string} (s : system (double i e l d)) : nat :=
  pc_index (pc s)
  + length (messages_received (Standalone.wire (tester s)))
  + frames_written (adapter_state s).

(** Nothing but idle polling is left to do. *)
Definition quiescent `{JsonCodec} `{PathLib} (program_path : string) {A : adapter}
  (s : system A) : Prop :=
  forall l, is_deadline l = false ->
            step program_path A l s = None \/ step program_path A l s = Some s.

(** Concrete handshakes with the codec of [MiniJson]. *)
Definition fixture : string := "/repo/tests/fixtures/fizzbuzz.py".

Definition play (A : adapter) (schedule : list label) : option (system A) :=
  @run MiniJson.codec MiniPath.pathlib fixture A schedule (init A).

(** The double whose response to [launch] reports [launched]. *)
Definition plain_double (launched : bool) : adapter :=
  double (MiniJson.dumps (response_to 1 "initialize" true))
         (MiniJson.dumps initialized_event)
         (MiniJson.dumps (response_to 2 "launch" launched))
         (MiniJson.dumps (response_to 3 "configurationDone" true)).

(** The eager adapter, and turns in which the reader is quicker than the
    polling main thread. *)
Definition eager_adapter : adapter :=
  eager (MiniJson.dumps (response_to 1 "initialize" true))
        (MiniJson.dumps initialized_event).

Definition reader_first : list label :=
  [Main; Main; Adapter 0; Adapter 1; Reader; Reader; Main; Main; Main].

(** One order of the turns in which every frame is read as soon as it is
    written and the main thread polls last. *)
Definition in_step : list label :=
  [Main; Main; Adapter 0; Reader; Main; Main; Main;
   Adapter 1; Reader; Adapter 2; Adapter 3; Reader; Reader; Main].

End Handshake.


(** ** The order of [launch] and ['initialized'] *)

(** A launch request is among the requests written in [w]. *)
Definition launch_written (w : list Standalone.io) : bool :=
  Handshake.has_command (requests_sent w) "launch".

(** What follows the ['initialized'] event: the event being read, and the
    [configurationDone] request being written. *)
Definition follows_initialized (x : Standalone.io) : Prop :=
  match x with
  | Standalone.Received m => is_initialized m = true
  | Standalone.Sent q => exists n, q = Standalone.configuration_done_request n
  end.

(** In the order [w] of the wire, the launch request is written before the
    ['initialized'] event is read and before [configurationDone] is
    written. *)
Definition launch_comes_first (w : list Standalone.io) : Prop :=
  forall pre x post,
    w = pre ++ x :: post -> follows_initialized x -> launch_written pre = true.

(** An adapter that writes JSON bodies and emits the ['initialized'] event
    only once it has been asked to launch. *)
Definition initialized_on_launch `{JsonCodec} (A : Handshake.adapter) : Prop :=
  forall a requests choice a' body,
    Handshake.areact A a requests choice = Some (a', body) ->
    exists m, inbound body m
              /\ (is_initialized m = true -> Handshake.has_command requests "launch" = true).

(** A body in the pipe that is not the ['initialized'] event. *)
Definition not_initialized `{JsonCodec} (body : string) : Prop :=
  exists m, inbound body m /\ is_initialized m = false.

(** What holds along every schedule: the order of the wire so far, and,
    until [launch] is written, a pipe without the event. *)
Definition launch_invariant `{JsonCodec} (t : Standalone.DAPTester) : Prop :=
  launch_comes_first (Standalone.wire t)
  /\ (launch_written (Standalone.wire t) = false ->
      exists bodies, Standalone.stdout t = frames bodies /\ Forall not_initialized bodies).

(** ** The handshake with the double, state by state

    With the double for an adapter, the states that schedules without a
    deadline reach are few.  Each is named by where the main thread stands
    and by which frames of the double have been read and which are still in
    the pipe; [Reach.concrete] gives the state of the system for a name, and
    [Reach.next] what a turn makes of it. *)

Module Reach.

(** The four frames of the double: the response to [initialize], the
    ['initialized'] event, the response to [launch] and the response to
    [configurationDone]. *)
Inductive tag : Type := TI | TE | TL | TD.

Inductive at_pc : Type :=
  | PStart | PInitializeWritten | PWaitInitialize | PInitializeOk
  | PLaunchWritten | PWaitLaunch2 | PWaitLaunch3 | PLaunchOk.

Record name : Type := mkName {
  main_at : at_pc;
  read : list tag;
  pending : list tag;
}.

Global Instance tag_eq_dec : EqDecision tag.
Proof. solve_decision. Defined.
Global Instance at_pc_eq_dec : EqDecision at_pc.
Proof. solve_decision. Defined.
Global Instance name_eq_dec : EqDecision name.
Proof. solve_decision. Defined.

Definition same (x y : tag) : bool :=
  match x, y with
  | TI, TI | TE, TE | TL, TL | TD, TD => true
  | _, _ => false
  end.

Definition has (x : tag) (l : list tag) : bool := existsb (same x) l.

Definition index (p : at_pc) : nat :=
  match p with
  | PStart => 0
  | PInitializeWritten => 1
  | PWaitInitialize => 2
  | PInitializeOk => 3
  | PLaunchWritten => 4
  | PWaitLaunch2 | PWaitLaunch3 => 5
  | PLaunchOk => 6
  end.

Definition next (l : Handshake.label) (a : name) : option name :=
  let emitted := read a ++ pending a in
  match l with
  | Handshake.Main =>
      match main_at a with
      | PStart => Some (mkName PInitializeWritten (read a) (pending a))
      | PInitializeWritten => Some (mkName PWaitInitialize (read a) (pending a))
      | PWaitInitialize =>
          Some (mkName (if has TI (read a) then PInitializeOk else PWaitInitialize)
                  (read a) (pending a))
      | PInitializeOk => Some (mkName PLaunchWritten (read a) (pending a))
      | PLaunchWritten =>
          Some (mkName (if has TE (read a) then PWaitLaunch3 else PWaitLaunch2)
                  (read a) (pending a))
      | PWaitLaunch2 =>
          Some (mkName (if has TL (read a) then PLaunchOk else PWaitLaunch2)
                  (read a) (pending a))
      | PWaitLaunch3 =>
          Some (mkName (if has TD (read a) then PLaunchOk else PWaitLaunch3)
                  (read a) (pending a))
      | PLaunchOk => None
      end
  | Handshake.Deadline => None
  | Handshake.Reader =>
      match pending a with
      | x :: rest => Some (mkName (main_at a) (read a ++ [x]) rest)
      | [] => None
      end
  | Handshake.Adapter 0 =>
      if negb (has TI emitted) && (1 <=? index (main_at a))%nat
      then Some (mkName (main_at a) (read a) (pending a ++ [TI])) else None
  | Handshake.Adapter 1 =>
      if negb (has TE emitted) && (4 <=? index (main_at a))%nat
      then Some (mkName (main_at a) (read a) (pending a ++ [TE])) else None
  | Handshake.Adapter 2 =>
      if has TE emitted && negb (has TL emitted)
      then Some (mkName (main_at a) (read a) (pending a ++ [TL])) else None
  | Handshake.Adapter 3 =>
      if negb (has TD emitted) && has TE (read a)
      then Some (mkName (main_at a) (read a) (pending a ++ [TD])) else None
  | Handshake.Adapter _ => None
  end.

Definition turns : list Handshake.label :=
  [Handshake.Main; Handshake.Reader; Handshake.Adapter 0; Handshake.Adapter 1;
   Handshake.Adapter 2; Handshake.Adapter 3].

Definition start : name := mkName PStart [] [].

Fixpoint add_new (found new : list name) : list name :=
  match new with
  | [] => found
  | a :: more => if bool_decide (a ∈ found) then add_new found more
                 else add_new (found ++ [a]) more
  end.

Fixpoint explore (rounds : nat) (found : list name) : list name :=
  match rounds with
  | O => found
  | S n =>
      explore n (add_new found
                   (flat_map (fun a => omap (fun l => next l a) turns) found))
  end.

(** The names that turns lead to from [start]. *)
Definition reachable : list name := Eval vm_compute in explore 15 [start].

(** The turns that complete the handshake from a name: each party acts
    whenever it can, round after round. *)
Fixpoint complete (rounds : nat) (a : name) : list Handshake.label * name :=
  match rounds with
  | O => ([], a)
  | S n =>
      let '(done, a') :=
        fold_left (fun '(done, a) l =>
                     match next l a with
                     | Some a' => (done ++ [l], a')
                     | None => (done, a)
                     end) turns ([], a) in
      let '(more, a'') := complete n a' in (done ++ more, a'')
  end.

Definition closed_under_turns : bool :=
  forallb (fun a =>
             forallb (fun l => match next l a with
                               | Some a' => bool_decide (a' ∈ reachable)
                               | None => true
                               end) turns) reachable.

(** A schedule, followed name by name. *)
Fixpoint follow (schedule : list Handshake.label) (a : name) : option name :=
  match schedule with
  | [] => Some a
  | l :: later =>
      match next l a with
      | Some a' => follow later a'
      | None => None
      end
  end.

(** How far a name is: as [Handshake.progress] counts. *)
Definition measure (a : name) : nat :=
  index (main_at a) + length (read a) + length (read a ++ pending a).

(** What holds of every reachable name, checked by running [next]. *)
Definition completes (a : name) : bool :=
  let '(schedule, _) := complete 8 a in
  forallb (fun l => negb (Handshake.is_deadline l)) schedule
  && match follow schedule a with
     | Some a' => bool_decide (main_at a' = PLaunchOk)
     | None => false
     end.

Definition moves_on (a : name) : bool :=
  bool_decide (main_at a = PLaunchOk)
  || existsb (fun l => match next l a with
                       | Some a' => (measure a' =? S (measure a))%nat
                       | None => false
                       end) turns.

Definition steps_by_one (a : name) : bool :=
  forallb (fun l => match next l a with
                    | Some a' => bool_decide (a' = a) || (measure a' =? S (measure a))%nat
                    | None => true
                    end) turns.

(** The frames are read in the order [TI], [TE], then the two responses. *)
Definition read_in_order (a : name) : bool :=
  match read a with
  | [] | [TI] => true
  | TI :: TE :: others => negb (has TI others) && negb (has TE others)
  | _ => false
  end.

Definition checked : bool :=
  forallb (fun a => completes a && moves_on a && steps_by_one a && read_in_order a
                    && (measure a <=? 14)%nat) reachable.

Section Concrete.
Context `{JsonCodec} `{PathLib}.
Variable program_path : string.
Variables init_body event_body launch_body done_body : string.
Variables init_response initialized launch_response done_response : json.

Definition body_of (x : tag) : string :=
  match x with
  | TI => init_body
  | TE => event_body
  | TL => launch_body
  | TD => done_body
  end.

Definition message_of (x : tag) : json :=
  match x with
  | TI => init_response
  | TE => initialized
  | TL => launch_response
  | TD => done_response
  end.

(** The requests written so far: [initialize] is number 1, [launch] number
    2, and [configurationDone], sent when the event is read, number 3. *)
Definition requests_of (a : name) : list json :=
  (if (1 <=? index (main_at a))%nat then [Standalone.initialize_request 1] else [])
  ++ (if (4 <=? index (main_at a))%nat then [Standalone.launch_request 2 program_path] else [])
  ++ (if has TE (read a) then [Standalone.configuration_done_request 3] else []).

Definition stdin_of (a : name) : string :=
  fold_left (fun written q => written +:+ frame (json_dumps q)) (requests_of a) EmptyString.

Definition responses_of (l : list tag) : gmap pykey json :=
  fold_left (fun stored x =>
               match x with
               | TI => <[KInt 1 := init_response]> stored
               | TE => stored
               | TL => <[KInt 2 := launch_response]> stored
               | TD => <[KInt 3 := done_response]> stored
               end) l ∅.

Definition events_of (l : list tag) : list json :=
  flat_map (fun x => match x with TE => [initialized] | _ => [] end) l.

Definition wire_of (a : name) : list Standalone.io :=
  (if (1 <=? index (main_at a))%nat
   then [Standalone.Sent (Standalone.initialize_request 1)] else [])
  ++ match read a with
     | [] => []
     | x :: more =>
         Standalone.Received (message_of x)
         :: (if (4 <=? index (main_at a))%nat
             then [Standalone.Sent (Standalone.launch_request 2 program_path)] else [])
         ++ match more with
            | [] => []
            | y :: others =>
                Standalone.Received (message_of y)
                :: Standalone.Sent (Standalone.configuration_done_request 3)
                :: map (fun z => Standalone.Received (message_of z)) others
            end
     end.

Definition pc_of (p : at_pc) : Handshake.main_pc :=
  match p with
  | PStart => Handshake.AtStart
  | PInitializeWritten => Handshake.InitializeWritten
  | PWaitInitialize => Handshake.WaitInitialize 1
  | PInitializeOk => Handshake.InitializeOk
  | PLaunchWritten => Handshake.LaunchWritten
  | PWaitLaunch2 => Handshake.WaitLaunch 2
  | PWaitLaunch3 => Handshake.WaitLaunch 3
  | PLaunchOk => Handshake.LaunchOk
  end.

Definition concrete (a : name)
  : Handshake.system (Handshake.double init_body event_body launch_body done_body) :=
  let emitted := read a ++ pending a in
  @Handshake.mkSystem (Handshake.double init_body event_body launch_body done_body)
    (Standalone.mkDAPTester
       (Z.of_nat (length (requests_of a)))
       (events_of (read a))
       (responses_of (read a))
       true
       (stdin_of a)
       (frames (map body_of (pending a)))
       (wire_of a))
    (pc_of (main_at a))
    Standalone.Continue
    (Handshake.mkDouble (has TI emitted) (has TE emitted) (has TL emitted) (has TD emitted)).

End Concrete.

End Reach.

(** ** Notions for the properties beyond the handshake *)

(** A block of header lines, each ended by CR LF, and the blank line that
    ends the block. *)
Definition header_block (lines : list string) : string :=
  foldr (fun line after => line +:+ Py.CRLF +:+ after) Py.CRLF lines.

(** A header line of plain text: not empty, ASCII, without CR and LF. *)
Definition plain_line (line : string) : Prop :=
  line <> EmptyString
  /\ Py.is_ascii line = true
  /\ Py.contains line Py.CR = false
  /\ Py.contains line Py.LF = false.

(** A header field [key: value] of plain text: the key has no colon. *)
Definition plain_field (kv : string * string) : Prop :=
  Py.is_ascii (fst kv) = true
  /\ Py.is_ascii (snd kv) = true
  /\ Py.contains (fst kv) ":" = false
  /\ Py.contains (fst kv) Py.LF = false
  /\ Py.contains (snd kv) Py.LF = false.

Definition field_line (kv : string * string) : string :=
  fst kv +:+ String ":" (snd kv).

(** The [headers] that a block of fields leaves: each field filed under its
    stripped key, a later field replacing an earlier one. *)
Definition headers_of (fields : list (string * string)) (headers : gmap string string)
  : gmap string string :=
  fold_left (fun headers kv => <[Py.strip (fst kv) := Py.strip (snd kv)]> headers)
    fields headers.

(** What the [send_message] of the sequence scripts writes for [m]: the
    header with the length of the text, and the text. *)
Definition written_for `{JsonCodec} (m : json) : string :=
  ("Content-Length: " +:+ Py.str (Z.of_nat (Py.len (json_dumps m))) +:+ Py.CRLFCRLF)
  +:+ json_dumps m.

(** [stream] holds no blank line: CR LF CR LF occurs nowhere in it. *)
Definition no_blank_line (stream : string) : Prop :=
  forall pre post, stream <> pre +:+ Py.CRLFCRLF +:+ post.

(** The test [message.get('type') == ty] of the reader loop. *)
Definition type_is (m : json) (ty : string) : bool :=
  match Dict.get m "type" with
  | Return v => is_str v ty
  | Raise _ => false
  end.

(** A value that cannot index a [dict]. *)
Definition unhashable (v : json) : bool :=
  match v with
  | JArr _ | JObj _ => true
  | _ => false
  end.

(** What the reader loop does to [received_responses] on a message. *)
Definition store (responses : gmap pykey json) (m : json) : gmap pykey json :=
  if type_is m "response" then
    match v ← Dict.get m "request_seq"; Dict.key v with
    | Return k => <[k := m]> responses
    | Raise _ => responses
    end
  else responses.

(** White space only. *)
Fixpoint all_space (s : string) : bool :=
  match s with
  | EmptyString => true
  | String c r => Py.isspace c && all_space r
  end.

(** The messages on which the body of the reader loop raises: a truthy value
    that is not a [dict] has no [get]; a response whose [request_seq] cannot
    index a [dict]. *)
Definition ends_reader (m : json) : bool :=
  Dict.truthy m
  && match m with
     | JObj fields =>
         type_is m "response"
         && match Dict.lookup fields "request_seq" with
            | Some v => unhashable v
            | None => false
            end
     | _ => true
     end.

(** The test [if response.get('success')] of [main]. *)
Definition reports_success (m : json) : Prop :=
  exists v, Dict.get m "success" = Return v /\ Dict.truthy v = true.

(** In the order [w] of the wire, every launch request is written after a
    message that reports success has been read. *)
Definition launch_follows_success (w : list Standalone.io) : Prop :=
  forall pre q post,
    w = pre ++ Standalone.Sent q :: post ->
    Handshake.has_command [q] "launch" = true ->
    exists m, In (Standalone.Received m) pre /\ reports_success m.

(** What holds of the handshake along every schedule: the order of the
    wire; every stored response was received; when [main] is about to send
    the launch request a success was received; after [return 1] the tester is
    shut down. *)
Definition success_invariant {A : Handshake.adapter} (s : Handshake.system A) : Prop :=
  launch_follows_success (Standalone.wire (Handshake.tester s))
  /\ (forall k m, Standalone.received_responses (Handshake.tester s) !! k = Some m ->
                  In (Standalone.Received m) (Standalone.wire (Handshake.tester s)))
  /\ (Handshake.pc s = Handshake.InitializeOk ->
      exists m, In (Standalone.Received m) (Standalone.wire (Handshake.tester s))
                /\ reports_success m)
  /\ (Handshake.pc s = Handshake.Exit1 -> Standalone.running (Handshake.tester s) = false).

(** The requests of a tester are numbered: the counter is the number of
    requests written, the request written as the [i]-th carries the number
    [i], and the bytes written are the frames of the requests, in order. *)
Definition numbered `{JsonCodec} (t : Standalone.DAPTester) : Prop :=
  Standalone.seq t = Z.of_nat (length (requests_sent (Standalone.wire t)))
  /\ (forall i q, requests_sent (Standalone.wire t) !! i = Some q ->
                  Dict.get q "seq" = Return (JInt (Z.of_nat i + 1)))
  /\ Standalone.stdin t = frames (map json_dumps (requests_sent (Standalone.wire t))).

(** The requests that [main] itself writes: those other than
    [configurationDone], which the reader thread sends. *)
Definition by_main (q : json) : bool :=
  negb (Handshake.has_command [q] "configurationDone").

(** What [main] has written, by where it stands. *)
Definition main_requests `{PathLib} (program_path : string) (p : Handshake.main_pc)
  (written : list json) : Prop :=
  match p with
  | Handshake.AtStart => written = []
  | Handshake.InitializeWritten | Handshake.WaitInitialize _ | Handshake.InitializeOk =>
      exists a, written = [Standalone.initialize_request a]
  | Handshake.LaunchWritten | Handshake.WaitLaunch _ | Handshake.LaunchOk =>
      exists a b, written = [Standalone.initialize_request a;
                             Standalone.launch_request b program_path]
  | Handshake.Exit1 =>
      (exists a, written = [Standalone.initialize_request a])
      \/ (exists a b, written = [Standalone.initialize_request a;
                                 Standalone.launch_request b program_path])
  end.

(** ** Calls on a tester

    What happens to a [DAPTester] while its adapter runs, one call after the
    other: a [send_*] method is called, the reader thread makes a pass of
    its loop, the adapter writes bytes to its output.  The adapter is alive
    and reads what is written to it, so that no write fails; [shutdown],
    which terminates it, is not among the calls. *)

Module Calls.

Inductive call : Type :=
  | SendInitialize
  | SendLaunch (program_path : string)
  | SendConfigurationDone
  | SendDisconnect
  | ReaderPass
  | AdapterWrites (bytes : string).

Section Run.
Context `{JsonCodec} `{PathLib}.

Definition do_call (c : call) (t : Standalone.DAPTester) : result Standalone.DAPTester :=
  match c with
  | SendInitialize => '(_, t) ← Standalone.send_initialize t; mret t
  | SendLaunch program_path => '(_, t) ← Standalone.send_launch program_path t; mret t
  | SendConfigurationDone => '(_, t) ← Standalone.send_configuration_done t; mret t
  | SendDisconnect => '(_, t) ← Standalone.send_disconnect t; mret t
  | ReaderPass => mret (snd (Standalone._read_messages_pass t))
  | AdapterWrites bytes =>
      mret (Standalone.set_stdout t (Standalone.stdout t +:+ bytes))
  end.

Fixpoint run (calls : list call) (t : Standalone.DAPTester) : result Standalone.DAPTester :=
  match calls with
  | [] => mret t
  | c :: later => t ← do_call c t; run later t
  end.

End Run.
End Calls.

(** ** scripts/test_dap_standalone.py: [find_timing] of [main] *)

Module Timing.
Section Log.

(** The time stamps are floats; what they are plays no part. *)
Variable timestamp : Type.

(** An entry of [timing_log], as [log_timing] files it. *)
Record entry : Type := mkEntry {
  timestamp_ms : timestamp;
  type : string;
  description : string;
  details : string;
}.

(** [find_timing(log, type_val, desc_contains)] *)
Fixpoint find_timing (log : list entry) (type_val desc_contains : string)
  : option timestamp :=
  match log with
  | [] => None
  | e :: later =>
      if String.eqb (type e) type_val && Py.contains_str (description e) desc_contains
      then Some (timestamp_ms e)
      else find_timing later type_val desc_contains
  end.

(** The test of the loop on an entry, with [in] spelled out. *)
Definition matches (type_val desc_contains : string) (e : entry) : Prop :=
  type e = type_val
  /\ exists pre post, description e = pre +:+ desc_contains +:+ post.

End Log.
End Timing.

(** * Properties *)

(** ** Strings *)

Lemma sapp_cons (c : ascii) (s t : string) : String c s +:+ t = String c (s +:+ t).
Proof. reflexivity. Qed.

Lemma sapp_nil_l (s : string) : EmptyString +:+ s = s.
Proof. reflexivity. Qed.

Lemma sapp_nil_r (s : string) : s +:+ EmptyString = s.
Proof. induction s as [|c s IH]; [reflexivity|]. rewrite sapp_cons, IH. reflexivity. Qed.

Lemma sapp_assoc (s t u : string) : (s +:+ t) +:+ u = s +:+ (t +:+ u).
Proof. induction s as [|c s IH]; [reflexivity|]. rewrite !sapp_cons, IH. reflexivity. Qed.

Lemma slength_app (s t : string) :
  String.length (s +:+ t) = (String.length s + String.length t)%nat.
Proof. induction s as [|c s IH]; [reflexivity|]. rewrite sapp_cons. simpl. rewrite IH. reflexivity. Qed.

Lemma rev_app_app (s t u : string) :
  String.rev_app (s +:+ t) u = String.rev_app t (String.rev_app s u).
Proof.
  revert u. induction s as [|c s IH]; intros u; [reflexivity|].
  rewrite sapp_cons. simpl. apply IH.
Qed.

Lemma rev_snoc (s : string) (c : ascii) :
  String.rev (s +:+ String c EmptyString) = String c (String.rev s).
Proof. unfold String.rev. rewrite rev_app_app. reflexivity. Qed.

Lemma contains_app (s t : string) (c : ascii) :
  Py.contains (s +:+ t) c = Py.contains s c || Py.contains t c.
Proof.
  induction s as [|a s IH]; [reflexivity|].
  rewrite sapp_cons. simpl. rewrite IH. apply orb_assoc.
Qed.

Lemma contains_rev_app (s u : string) (c : ascii) :
  Py.contains (String.rev_app s u) c = Py.contains s c || Py.contains u c.
Proof.
  revert u. induction s as [|a s IH]; intros u; [reflexivity|].
  simpl. rewrite IH. simpl. destruct (Ascii.eqb a c), (Py.contains s c); reflexivity.
Qed.

Lemma contains_rev (s : string) (c : ascii) :
  Py.contains (String.rev s) c = Py.contains s c.
Proof. unfold String.rev. rewrite contains_rev_app. simpl. apply orb_false_r. Qed.

Lemma is_ascii_app (s t : string) :
  Py.is_ascii (s +:+ t) = Py.is_ascii s && Py.is_ascii t.
Proof.
  induction s as [|a s IH]; [reflexivity|].
  rewrite sapp_cons. simpl. rewrite IH. apply andb_assoc.
Qed.

(** ASCII text is well-formed UTF-8, one byte per character. *)
Lemma utf8_ok_ascii (s : string) :
  Py.is_ascii s = true -> Py.utf8_ok 0 128 191 s = true.
Proof.
  induction s as [|c s IH]; [reflexivity|].
  simpl. unfold Py.is_ascii_char. intros [Hc Hs]%andb_true_iff.
  rewrite Hc. auto.
Qed.

Lemma decode_ascii (s : string) : Py.is_ascii s = true -> Py.decode s = Return s.
Proof. intros Hs. unfold Py.decode. rewrite utf8_ok_ascii; auto. Qed.

Lemma len_ascii (s : string) : Py.is_ascii s = true -> Py.len s = String.length s.
Proof.
  induction s as [|c s IH]; [reflexivity|].
  simpl. unfold Py.is_ascii_char, Py.is_continuation.
  intros [Hc Hs]%andb_true_iff. apply Nat.ltb_lt in Hc.
  destruct (128 <=? nat_of_ascii c)%nat eqn:E; [apply Nat.leb_le in E; lia|].
  simpl. rewrite IH; auto.
Qed.

(** ** Decimal numerals *)

Lemma all_digits_string_of_uint (u : uint) :
  Py.all_digits (NilEmpty.string_of_uint u) = true.
Proof. induction u; simpl; auto. Qed.

Lemma string_of_uint_nonempty (u : uint) :
  u <> Nil -> NilEmpty.string_of_uint u <> EmptyString.
Proof. destruct u; simpl; congruence. Qed.

Lemma digits_string_of_uint (u : uint) :
  u <> Nil -> Py.digits (NilEmpty.string_of_uint u) = Some u.
Proof.
  induction u as [|u IH|u IH|u IH|u IH|u IH|u IH|u IH|u IH|u IH|u IH];
    intros Hu; [congruence|..];
    (destruct u as [|u'|u'|u'|u'|u'|u'|u'|u'|u'|u']; [reflexivity|..];
     (match goal with
      | |- Py.digits (NilEmpty.string_of_uint (?D1 (?D2 ?v))) = _ =>
          change (DecimalString.uint_of_char
                    (match NilEmpty.string_of_uint (D1 Nil) with
                     | String c _ => c | EmptyString => "0"%char end)
                    (Py.digits (NilEmpty.string_of_uint (D2 v))) = Some (D1 (D2 v)))
      end; rewrite IH by congruence; reflexivity)).
Qed.

(** The numeral of a length: digits only, and [int] reads it back. *)
Lemma str_nat_digits (n : nat) :
  exists u, u <> Nil /\ Py.str (Z.of_nat n) = NilEmpty.string_of_uint u
            /\ Z.of_uint u = Z.of_nat n.
Proof.
  unfold Py.str. destruct (Z.of_nat n) as [|p|p] eqn:E; [| |lia].
  - exists (D0 Nil). repeat split; congruence.
  - exists (Pos.to_uint p). pose proof (DecimalPos.Unsigned.of_to p) as Hp.
    assert (Hnil : Pos.to_uint p <> Nil).
    { intros Heq. rewrite Heq in Hp. discriminate. }
    repeat split; [exact Hnil| |].
    + simpl. unfold NilZero.string_of_uint. destruct (Pos.to_uint p); congruence.
    + unfold Z.of_uint. rewrite Hp. reflexivity.
Qed.

(** ** Reading back a frame *)

Lemma all_digits_no (s : string) (c : ascii) :
  Py.all_digits s = true -> Py.is_digit c = false -> Py.contains s c = false.
Proof.
  intros Hs Hc. induction s as [|a s IH]; [reflexivity|].
  simpl in *. apply andb_true_iff in Hs as [Ha Hs].
  rewrite IH by assumption. rewrite orb_false_r.
  apply Ascii.eqb_neq. intros ->. congruence.
Qed.

Lemma all_digits_ascii (s : string) : Py.all_digits s = true -> Py.is_ascii s = true.
Proof.
  induction s as [|a s IH]; [reflexivity|].
  simpl. intros [Ha Hs]%andb_true_iff. rewrite IH by assumption.
  unfold Py.is_digit in Ha. unfold Py.is_ascii_char.
  apply andb_true_iff in Ha as [_ Ha%Nat.leb_le].
  rewrite andb_true_r. apply Nat.ltb_lt. lia.
Qed.

Lemma all_digits_no_space (s : string) :
  Py.all_digits s = true -> s <> EmptyString -> Py.strip s = s.
Proof.
  intros Hs Hne. unfold Py.strip.
  assert (Hl : Py.lstrip s = s).
  { destruct s as [|a s]; [congruence|]. simpl in *.
    apply andb_true_iff in Hs as [Ha _].
    assert (Py.isspace a = false) as ->; [|reflexivity].
    unfold Py.is_digit in Ha. unfold Py.isspace.
    apply andb_true_iff in Ha as [H1%Nat.leb_le H2%Nat.leb_le].
    destruct (nat_of_ascii a <=? 13)%nat eqn:E1; [apply Nat.leb_le in E1; lia|].
    destruct (nat_of_ascii a <=? 32)%nat eqn:E2; [apply Nat.leb_le in E2; lia|].
    rewrite !andb_false_r. reflexivity. }
  rewrite Hl. clear Hl Hne. induction s as [|a s IH]; [reflexivity|].
  simpl in *. apply andb_true_iff in Hs as [Ha Hs]. rewrite IH by assumption.
  destruct s; [|reflexivity].
  assert (Py.isspace a = false) as ->; [|reflexivity].
  unfold Py.is_digit in Ha. unfold Py.isspace.
  apply andb_true_iff in Ha as [H1%Nat.leb_le H2%Nat.leb_le].
  destruct (nat_of_ascii a <=? 13)%nat eqn:E1; [apply Nat.leb_le in E1; lia|].
  destruct (nat_of_ascii a <=? 32)%nat eqn:E2; [apply Nat.leb_le in E2; lia|].
  rewrite !andb_false_r. reflexivity.
Qed.

Lemma digit_not_int_space (c : ascii) : Py.is_digit c = true -> Py.int_space c = false.
Proof.
  unfold Py.is_digit, Py.int_space.
  intros [H1%Nat.leb_le H2%Nat.leb_le]%andb_true_iff.
  destruct (nat_of_ascii c <=? 13)%nat eqn:E1; [apply Nat.leb_le in E1; lia|].
  destruct (nat_of_ascii c =? 32)%nat eqn:E2; [apply Nat.eqb_eq in E2; lia|].
  rewrite andb_false_r. reflexivity.
Qed.

Lemma int_rstrip_digits (s : string) : Py.all_digits s = true -> Py.int_rstrip s = s.
Proof.
  induction s as [|a s IH]; [reflexivity|].
  cbn [Py.all_digits Py.int_rstrip]. intros [Ha Hs]%andb_true_iff.
  rewrite IH by assumption. destruct s; [|reflexivity].
  rewrite digit_not_int_space by assumption. reflexivity.
Qed.

(** [int] finds no white space to pass over around digits. *)
Lemma int_strip_digits (s : string) :
  Py.all_digits s = true -> Py.int_rstrip (Py.int_lstrip s) = s.
Proof.
  intros Hs.
  assert (Hl : Py.int_lstrip s = s).
  { destruct s as [|a s]; [reflexivity|]. cbn [Py.all_digits Py.int_lstrip] in *.
    apply andb_true_iff in Hs as [Ha _].
    rewrite digit_not_int_space by assumption. reflexivity. }
  rewrite Hl. apply int_rstrip_digits. exact Hs.
Qed.

(** [int] reads back the numeral of a length. *)
Lemma int_str_nat (n : nat) : Py.int (Py.str (Z.of_nat n)) = Return (Z.of_nat n).
Proof.
  destruct (str_nat_digits n) as (u & Hu & -> & Hz).
  unfold Py.int.
  rewrite int_strip_digits by (auto using all_digits_string_of_uint).
  assert (Hd := digits_string_of_uint u Hu).
  destruct u; try congruence; simpl NilEmpty.string_of_uint in *;
    cbv beta iota; rewrite Hd, Hz; reflexivity.
Qed.

Lemma strip_space_digits (s : string) :
  Py.all_digits s = true -> s <> EmptyString ->
  Py.strip (String " " s) = s.
Proof.
  intros Hs Hne. unfold Py.strip.
  change (Py.lstrip (String " " s)) with (Py.lstrip s).
  apply all_digits_no_space; assumption.
Qed.

Lemma read_app (body rest : string) :
  Stream.read (String.length body) (body +:+ rest) = (body, rest).
Proof.
  induction body as [|c body IH]; simpl.
  - destruct rest; reflexivity.
  - rewrite ?sapp_cons, IH. reflexivity.
Qed.

Lemma raw_read_app (body rest : string) :
  Stream.raw_read (Z.of_nat (String.length body)) (body +:+ rest) = (body, rest).
Proof.
  unfold Stream.raw_read.
  destruct (Z.of_nat (String.length body) <? 0) eqn:E; [apply Z.ltb_lt in E; lia|].
  rewrite Nat2Z.id. apply read_app.
Qed.

Lemma buffered_read_app (body rest : string) :
  Stream.buffered_read (Z.of_nat (String.length body)) (body +:+ rest) = (Return body, rest).
Proof.
  unfold Stream.buffered_read.
  destruct (Z.of_nat (String.length body) <? -1) eqn:E; [apply Z.ltb_lt in E; lia|].
  destruct (Z.of_nat (String.length body) =? -1) eqn:E'; [apply Z.eqb_eq in E'; lia|].
  rewrite Nat2Z.id, read_app. reflexivity.
Qed.

(** [header.endswith(b'\r\n\r\n')] after one more byte. *)
Lemma endswith_snoc (h : string) (c : ascii) :
  Py.endswith (h +:+ String c EmptyString) Py.CRLFCRLF =
  Ascii.eqb c Py.LF &&
  String.prefix (String Py.CR (String Py.LF (String Py.CR EmptyString))) (String.rev h).
Proof.
  unfold Py.endswith. rewrite rev_snoc.
  change (String.rev Py.CRLFCRLF)
    with (String Py.LF (String Py.CR (String Py.LF (String Py.CR EmptyString)))).
  cbn [String.prefix].
  destruct (ascii_dec Py.LF c) as [<-|Hne].
  - reflexivity.
  - assert (Ascii.eqb c Py.LF = false) as ->; [|reflexivity].
    apply Ascii.eqb_neq. congruence.
Qed.

Lemma prefix_needs_lf (p r : string) (c : ascii) :
  Py.contains r Py.LF = false ->
  String.prefix (String c (String Py.LF p)) r = false.
Proof.
  intros Hr. destruct r as [|a [|b r]]; cbn [String.prefix]; try reflexivity.
  - destruct (ascii_dec c a); reflexivity.
  - destruct (ascii_dec c a); [|reflexivity].
    destruct (ascii_dec Py.LF b) as [<-|]; [|reflexivity].
    cbn [Py.contains] in Hr. rewrite Ascii.eqb_refl, orb_true_r in Hr. discriminate.
Qed.

(** The header loop of [_read_message] stops at the first blank line. *)
Lemma read_header_line (header line rest : string) :
  Py.contains (header +:+ line) Py.LF = false ->
  Standalone.read_header header (line +:+ Py.CRLFCRLF +:+ rest) =
  Some (header +:+ line +:+ Py.CRLFCRLF, rest).
Proof.
  revert header. induction line as [|c line IH]; intros header Hno.
  - rewrite sapp_nil_r in Hno. rewrite !sapp_nil_l.
    assert (Hrev : Py.contains (String.rev header) Py.LF = false)
      by (rewrite contains_rev; exact Hno).
    change (Py.CRLFCRLF +:+ rest)
      with (String Py.CR (String Py.LF (String Py.CR (String Py.LF rest)))).
    cbn [Standalone.read_header].
    rewrite endswith_snoc. change (Ascii.eqb Py.CR Py.LF) with false. cbn [andb].
    rewrite endswith_snoc, rev_snoc. change (Ascii.eqb Py.LF Py.LF) with true.
    cbn [andb]. cbn [String.prefix].
    destruct (ascii_dec Py.CR Py.CR); [|congruence].
    assert (String.prefix (String Py.LF (String Py.CR EmptyString)) (String.rev header) = false) as ->.
    { destruct (String.rev header) as [|a r]; [reflexivity|].
      cbn [String.prefix]. destruct (ascii_dec Py.LF a) as [<-|]; [|reflexivity].
      cbn [Py.contains] in Hrev. rewrite Ascii.eqb_refl in Hrev. discriminate. }
    rewrite endswith_snoc. change (Ascii.eqb Py.CR Py.LF) with false. cbn [andb].
    rewrite endswith_snoc, !rev_snoc. change (Ascii.eqb Py.LF Py.LF) with true.
    cbn [andb String.prefix].
    destruct (ascii_dec Py.CR Py.CR); [|congruence].
    destruct (ascii_dec Py.LF Py.LF); [|congruence].
    assert (String.prefix EmptyString (String.rev header) = true) as ->
      by (destruct (String.rev header); reflexivity).
    rewrite !sapp_assoc. reflexivity.
  - rewrite sapp_cons. cbn [Standalone.read_header].
    assert (Hc : Ascii.eqb c Py.LF = false).
    { rewrite contains_app in Hno. simpl in Hno.
      destruct (Ascii.eqb c Py.LF); [|reflexivity].
      rewrite orb_true_r in Hno. discriminate. }
    rewrite endswith_snoc, Hc. cbn [andb].
    rewrite IH.
    + rewrite !sapp_assoc. reflexivity.
    + rewrite sapp_assoc. exact Hno.
Qed.

Lemma split_from_cons (sep : string) (k : nat) (s : string) :
  exists h tl, Py.split_from sep k s = h :: tl.
Proof.
  revert k. induction s as [|a s IH]; intros k; [simpl; eauto|].
  cbn [Py.split_from]. destruct k as [|k]; [|apply IH].
  destruct (String.prefix sep (String a s)); [eauto|].
  destruct (IH 0%nat) as (h & tl & ->). eauto.
Qed.

(** A text without the first byte of the separator stays in one piece. *)
Lemma split_from_app (c0 : ascii) (sep' s t : string) :
  Py.contains s c0 = false ->
  Py.split_from (String c0 sep') 0 (s +:+ t) =
  match Py.split_from (String c0 sep') 0 t with
  | h :: tl => (s +:+ h) :: tl
  | [] => [s]
  end.
Proof.
  intros Hs. induction s as [|a s IH].
  - rewrite sapp_nil_l.
    destruct (split_from_cons (String c0 sep') 0 t) as (h & tl & ->). reflexivity.
  - cbn [Py.contains] in Hs. apply orb_false_iff in Hs as [Ha Hs].
    rewrite sapp_cons. cbn [Py.split_from String.prefix].
    destruct (ascii_dec c0 a) as [->|_]; [rewrite Ascii.eqb_refl in Ha; discriminate|].
    rewrite (IH Hs).
    destruct (split_from_cons (String c0 sep') 0 t) as (h & tl & ->). reflexivity.
Qed.

Lemma split_no_sep (c0 : ascii) (sep' s : string) :
  Py.contains s c0 = false -> Py.split s (String c0 sep') = [s].
Proof.
  intros Hs. unfold Py.split. rewrite <- (sapp_nil_r s) at 1.
  rewrite split_from_app by assumption. simpl. rewrite sapp_nil_r. reflexivity.
Qed.

Lemma split_from_at_sep (c : ascii) (r : string) :
  Py.split_from (String c EmptyString) 0 (String c r) =
  EmptyString :: Py.split_from (String c EmptyString) 0 r.
Proof.
  cbn [Py.split_from String.prefix String.length Nat.sub].
  destruct (ascii_dec c c); [|congruence].
  destruct r; reflexivity.
Qed.

Section FrameFacts.
Context `{JsonCodec}.

Lemma frame_eq (body : string) :
  frame body = header_line_of (String.length body) +:+ Py.CRLFCRLF +:+ body.
Proof. unfold frame, header_line_of. rewrite !sapp_assoc. reflexivity. Qed.

Lemma header_line_of_clean (n : nat) (c : ascii) :
  Py.is_digit c = false ->
  Py.contains "Content-Length: " c = false ->
  Py.contains (header_line_of n) c = false.
Proof.
  intros Hc Hp. unfold header_line_of. rewrite contains_app, Hp.
  destruct (str_nat_digits n) as (u & _ & -> & _).
  rewrite all_digits_no; auto using all_digits_string_of_uint.
Qed.

Lemma header_line_of_ascii (n : nat) : Py.is_ascii (header_line_of n) = true.
Proof.
  unfold header_line_of. rewrite is_ascii_app.
  destruct (str_nat_digits n) as (u & _ & -> & _).
  rewrite (all_digits_ascii (NilEmpty.string_of_uint u))
    by apply all_digits_string_of_uint.
  reflexivity.
Qed.

(** What the [for ... else] of [_read_message] finds in the header of a
    frame. *)
Lemma content_length_of_frame (n : nat) (text : string) :
  Standalone.content_length_of text
    (Py.split (header_line_of n +:+ Py.CRLFCRLF) Py.CRLF) = Return (Z.of_nat n).
Proof.
  unfold Py.split, Py.CRLF.
  rewrite split_from_app by (apply header_line_of_clean; reflexivity).
  change (Py.split_from (String Py.CR (String Py.LF EmptyString)) 0 Py.CRLFCRLF)
    with [EmptyString; EmptyString; EmptyString].
  cbv beta iota. rewrite sapp_nil_r. cbn [Standalone.content_length_of].
  assert (Py.startswith (header_line_of n) "Content-Length:" = true) as ->
    by reflexivity.
  assert (Py.split (header_line_of n) ":" =
          ["Content-Length"%string; String " " (Py.str (Z.of_nat n))]) as ->.
  { unfold Py.split, header_line_of.
    change ("Content-Length: " +:+ Py.str (Z.of_nat n))
      with ("Content-Length" +:+ String ":" (String " " (Py.str (Z.of_nat n)))).
    rewrite split_from_app by reflexivity.
    assert (Py.split_from ":" 0 (String ":" (String " " (Py.str (Z.of_nat n)))) =
            [EmptyString; String " " (Py.str (Z.of_nat n))]) as ->.
    { rewrite split_from_at_sep. f_equal.
      change (Py.split_from ":" 0 (String " " (Py.str (Z.of_nat n))))
        with (Py.split (String " " (Py.str (Z.of_nat n))) ":").
      apply split_no_sep. cbn [Py.contains]. change (Ascii.eqb " " ":") with false.
      destruct (str_nat_digits n) as (u & _ & -> & _).
      apply all_digits_no; auto using all_digits_string_of_uint. }
    cbv beta iota. rewrite sapp_nil_r. reflexivity. }
  destruct (str_nat_digits n) as (u & Hu & Hstr & _).
  rewrite strip_space_digits
    by (rewrite Hstr; auto using all_digits_string_of_uint, string_of_uint_nonempty).
  apply int_str_nat.
Qed.

(** [_read_message] on a stream that starts with a frame: the header is
    consumed, the body decoded, [rest] is left. *)
Lemma read_message_frame (body rest : string) :
  Standalone._read_message (frame body +:+ rest) =
  (text ← Py.decode body; message ← json_loads text; mret (Some message), rest).
Proof.
  unfold Standalone._read_message.
  rewrite frame_eq, !sapp_assoc.
  rewrite <- (sapp_nil_l (header_line_of _ +:+ _)) at 1.
  rewrite sapp_nil_l.
  rewrite read_header_line
    by (rewrite sapp_nil_l; apply header_line_of_clean; reflexivity).
  rewrite sapp_nil_l.
  rewrite decode_ascii
    by (rewrite is_ascii_app, header_line_of_ascii; reflexivity).
  change (mbind ?f (Return ?x)) with (f x). cbv beta.
  rewrite content_length_of_frame, raw_read_app. reflexivity.
Qed.

End FrameFacts.

Lemma rstrip_digits_crlf (ds : string) :
  Py.all_digits ds = true -> Py.rstrip (ds +:+ Py.CRLF) = ds.
Proof.
  induction ds as [|a ds IH]; [reflexivity|].
  cbn [Py.all_digits]. intros [Ha Hs]%andb_true_iff.
  rewrite sapp_cons. cbn [Py.rstrip]. rewrite (IH Hs).
  destruct ds; [|reflexivity].
  assert (Py.isspace a = false) as ->; [|reflexivity].
  unfold Py.is_digit in Ha. unfold Py.isspace.
  apply andb_true_iff in Ha as [H1%Nat.leb_le H2%Nat.leb_le].
  destruct (nat_of_ascii a <=? 13)%nat eqn:E1; [apply Nat.leb_le in E1; lia|].
  destruct (nat_of_ascii a <=? 32)%nat eqn:E2; [apply Nat.leb_le in E2; lia|].
  rewrite !andb_false_r. reflexivity.
Qed.

Lemma rstrip_app (s t : string) :
  Py.rstrip t <> EmptyString -> Py.rstrip (s +:+ t) = s +:+ Py.rstrip t.
Proof.
  intros Ht. induction s as [|a s IH]; [reflexivity|].
  rewrite !sapp_cons. cbn [Py.rstrip]. rewrite IH.
  destruct (s +:+ Py.rstrip t) eqn:E; [|reflexivity].
  destruct s; [rewrite sapp_nil_l in E; congruence|discriminate].
Qed.

(** [readline] gathers the bytes up to the line feed; then the loop body
    runs on the whole line. *)
Lemma read_headers_line (line s rest : string) (headers : gmap string string) :
  Py.contains s Py.LF = false ->
  CorrectSequence.read_headers line headers (s +:+ String Py.LF rest) =
  match Py.decode (line +:+ s +:+ String Py.LF EmptyString) with
  | Raise e => (Raise e, rest)
  | Return text =>
      if String.eqb text Py.CRLF || String.eqb text (String Py.LF EmptyString)
      then (Return headers, rest)
      else match CorrectSequence.header_line text headers with
           | Raise e => (Raise e, rest)
           | Return headers => CorrectSequence.read_headers EmptyString headers rest
           end
  end.
Proof.
  revert line. induction s as [|c s IH]; intros line Hs.
  - rewrite !sapp_nil_l. cbn [CorrectSequence.read_headers].
    rewrite Ascii.eqb_refl. reflexivity.
  - cbn [Py.contains] in Hs. apply orb_false_iff in Hs as [Hc Hs].
    rewrite sapp_cons. cbn [CorrectSequence.read_headers]. rewrite Hc.
    rewrite (IH _ Hs), !sapp_assoc. reflexivity.
Qed.

Lemma launch_read_headers_line (line s rest : string) (headers : gmap string string) :
  Py.contains s Py.LF = false ->
  LaunchSequence.read_headers line headers (s +:+ String Py.LF rest) =
  match Py.decode (line +:+ s +:+ String Py.LF EmptyString) with
  | Raise e => (Raise e, rest)
  | Return text =>
      if String.eqb text Py.CRLF || String.eqb text (String Py.LF EmptyString)
      then (Return (Some headers), rest)
      else match CorrectSequence.header_line text headers with
           | Raise e => (Raise e, rest)
           | Return headers => LaunchSequence.read_headers EmptyString headers rest
           end
  end.
Proof.
  revert line. induction s as [|c s IH]; intros line Hs.
  - rewrite !sapp_nil_l. cbn [LaunchSequence.read_headers].
    rewrite Ascii.eqb_refl. reflexivity.
  - cbn [Py.contains] in Hs. apply orb_false_iff in Hs as [Hc Hs].
    rewrite sapp_cons. cbn [LaunchSequence.read_headers]. rewrite Hc.
    rewrite (IH _ Hs), !sapp_assoc. reflexivity.
Qed.

(** The header line of a frame, as the loop of the sequence scripts files
    it. *)
Lemma header_line_frame (n : nat) (headers : gmap string string) :
  CorrectSequence.header_line (header_line_of n +:+ Py.CRLF) headers =
  Return (<["Content-Length"%string := Py.str (Z.of_nat n)]> headers).
Proof.
  destruct (str_nat_digits n) as (u & Hu & Hstr & _).
  assert (Hd : Py.all_digits (Py.str (Z.of_nat n)) = true)
    by (rewrite Hstr; apply all_digits_string_of_uint).
  assert (Hne : Py.str (Z.of_nat n) <> EmptyString)
    by (rewrite Hstr; apply string_of_uint_nonempty, Hu).
  unfold CorrectSequence.header_line.
  assert (Py.contains (header_line_of n +:+ Py.CRLF) ":" = true) as -> by reflexivity.
  assert (Py.strip (header_line_of n +:+ Py.CRLF) = header_line_of n) as ->.
  { unfold Py.strip.
    assert (Py.lstrip (header_line_of n +:+ Py.CRLF) = header_line_of n +:+ Py.CRLF) as ->
      by reflexivity.
    unfold header_line_of. rewrite sapp_assoc, rstrip_app; rewrite rstrip_digits_crlf; auto. }
  assert (Py.split1 (header_line_of n) ":" =
          ["Content-Length"%string; String " " (Py.str (Z.of_nat n))]) as -> by reflexivity.
  rewrite strip_space_digits by assumption.
  reflexivity.
Qed.

Section SequenceFrameFacts.
Context `{JsonCodec}.

Lemma sequence_headers_frame (body rest : string) :
  CorrectSequence.read_headers EmptyString ∅ (frame body +:+ rest) =
  (Return (<["Content-Length"%string := Py.str (Z.of_nat (String.length body))]> ∅),
   body +:+ rest)
  /\ LaunchSequence.read_headers EmptyString ∅ (frame body +:+ rest) =
     (Return (Some (<["Content-Length"%string := Py.str (Z.of_nat (String.length body))]> ∅)),
      body +:+ rest).
Proof.
  set (n := String.length body).
  assert (Hframe : frame body +:+ rest =
                   (header_line_of n +:+ String Py.CR EmptyString) +:+
                   String Py.LF (String Py.CR EmptyString +:+ String Py.LF (body +:+ rest))).
  { rewrite frame_eq, !sapp_assoc. reflexivity. }
  assert (Hno : Py.contains (header_line_of n +:+ String Py.CR EmptyString) Py.LF = false).
  { rewrite contains_app, header_line_of_clean by reflexivity. reflexivity. }
  assert (Hline : EmptyString +:+ ((header_line_of n +:+ String Py.CR EmptyString) +:+
                  String Py.LF EmptyString) = header_line_of n +:+ Py.CRLF).
  { rewrite sapp_nil_l, sapp_assoc. reflexivity. }
  assert (Hdec : Py.decode (header_line_of n +:+ Py.CRLF) = Return (header_line_of n +:+ Py.CRLF)).
  { apply decode_ascii. rewrite is_ascii_app, header_line_of_ascii. reflexivity. }
  assert (Hblank : String.eqb (header_line_of n +:+ Py.CRLF) Py.CRLF
                   || String.eqb (header_line_of n +:+ Py.CRLF) (String Py.LF EmptyString) = false)
    by reflexivity.
  rewrite Hframe. split.
  - rewrite read_headers_line by exact Hno.
    rewrite Hline, Hdec, Hblank, header_line_frame.
    rewrite read_headers_line by reflexivity.
    reflexivity.
  - rewrite launch_read_headers_line by exact Hno.
    rewrite Hline, Hdec, Hblank, header_line_frame.
    rewrite launch_read_headers_line by reflexivity.
    reflexivity.
Qed.

Lemma content_length_frame (n : nat) :
  CorrectSequence.content_length (<["Content-Length"%string := Py.str (Z.of_nat n)]> ∅) =
  Return (Z.of_nat n).
Proof.
  unfold CorrectSequence.content_length. rewrite lookup_insert_eq. apply int_str_nat.
Qed.

(** The [read_message] of test_correct_sequence.py on a stream that starts
    with a frame. *)
Lemma correct_read_frame (body rest : string) :
  CorrectSequence.read_message_try (frame body +:+ rest) =
  (text ← Py.decode body;
   msg ← json_loads text;
   type ← Dict.item msg "type";
   event ← Dict.get_default msg "event" (JStr EmptyString);
   command ← Dict.get_default msg "command" event;
   mret msg, rest).
Proof.
  unfold CorrectSequence.read_message_try.
  destruct (sequence_headers_frame body rest) as [-> _].
  rewrite content_length_frame, buffered_read_app. reflexivity.
Qed.

(** The [read_message] of test_launch_sequence.py on a stream that starts
    with a frame. *)
Lemma launch_read_frame (body rest : string) :
  LaunchSequence.read_message_try (frame body +:+ rest) =
  (text ← Py.decode body;
   msg ← json_loads text;
   type ← Dict.item msg "type";
   _ ← LaunchSequence.upper_of type;
   event ← Dict.get_default msg "event" (JStr EmptyString);
   command ← Dict.get_default msg "command" event;
   mret (Some msg), rest).
Proof.
  unfold LaunchSequence.read_message_try.
  destruct (sequence_headers_frame body rest) as [_ ->].
  rewrite content_length_frame, buffered_read_app. reflexivity.
Qed.

Lemma frame_is_frame (body : string) : is_frame_of body (frame body).
Proof.
  destruct (str_nat_digits (String.length body)) as (u & Hu & Hstr & _).
  exists (Py.str (Z.of_nat (String.length body))). repeat split.
  - rewrite Hstr. apply all_digits_string_of_uint.
  - rewrite Hstr. apply string_of_uint_nonempty, Hu.
  - apply int_str_nat.
Qed.

End SequenceFrameFacts.

(** ** fizzbuzz.py *)

(** C10. For every integer [n], [fizzbuzz n] is "FizzBuzz" when 15 divides
    [n], "Fizz" when 3 divides [n] and 5 does not, "Buzz" when 5 divides [n]
    and 3 does not, and the decimal numeral [str(n)] otherwise. *)
Theorem fizzbuzz_by_divisibility (n : Z) :
  ((15 | n) -> Fizzbuzz.fizzbuzz n = "FizzBuzz"%string)
  /\ ((3 | n) -> ~ (5 | n) -> Fizzbuzz.fizzbuzz n = "Fizz"%string)
  /\ ((5 | n) -> ~ (3 | n) -> Fizzbuzz.fizzbuzz n = "Buzz"%string)
  /\ (~ (3 | n) -> ~ (5 | n) -> Fizzbuzz.fizzbuzz n = Py.str n).
Proof.
  unfold Fizzbuzz.fizzbuzz.
  assert (H15 : (15 | n) <-> (3 | n) /\ (5 | n)).
  { split.
    - intros [k ->]. split; [exists (5 * k)|exists (3 * k)]; lia.
    - intros [[a Ha] [b Hb]]. exists (2 * a - 3 * b). lia. }
  rewrite H15.
  pose proof (Z.mod_divide n 15 ltac:(lia)) as M15.
  pose proof (Z.mod_divide n 3 ltac:(lia)) as M3.
  pose proof (Z.mod_divide n 5 ltac:(lia)) as M5.
  rewrite H15 in M15.
  destruct (Z.eqb_spec (n mod 15) 0) as [E15|E15];
    destruct (Z.eqb_spec (n mod 3) 0) as [E3|E3];
    destruct (Z.eqb_spec (n mod 5) 0) as [E5|E5];
    repeat split; intros; try reflexivity; tauto.
Qed.

Example fizzbuzz_samples :
  map Fizzbuzz.fizzbuzz [1; 3; 5; 15; 0; -3; -7; 98] =
  ["1"; "Fizz"; "Buzz"; "FizzBuzz"; "FizzBuzz"; "Fizz"; "-7"; "98"]%string.
Proof. reflexivity. Qed.

Example int_samples :
  map Py.int [" 12 "; "+12"; "-12"; "1_0"; "1__0"; "_1"; "1_"; "+"; "12a"; "1:2"]%string =
  [Return 12; Return 12; Return (-12); Return 10;
   Raise (ValueError "invalid literal for int()"); Raise (ValueError "invalid literal for int()");
   Raise (ValueError "invalid literal for int()"); Raise (ValueError "invalid literal for int()");
   Raise (ValueError "invalid literal for int()"); Raise (ValueError "invalid literal for int()")].
Proof. reflexivity. Qed.

Example split_samples :
  Py.split "Content-Length: 2:x" ":" = ["Content-Length"; " 2"; "x"]%string
  /\ Py.split ("x" +:+ Py.CRLFCRLF) Py.CRLF = ["x"%string; EmptyString; EmptyString]
  /\ Py.split EmptyString Py.CRLF = [EmptyString]
  /\ Py.split1 "a:b:c" ":" = ["a"; "b:c"]%string.
Proof. repeat split; reflexivity. Qed.

(** ** What one read of the pipe returns *)

Lemma raw_read_arrived_app (arrived : nat) (body rest : string) :
  (String.length body <= arrived)%nat ->
  Stream.raw_read_arrived arrived (Z.of_nat (String.length body)) (body +:+ rest)
  = (body, rest).
Proof.
  intros Hle. unfold Stream.raw_read_arrived.
  destruct (Z.of_nat (String.length body) <? 0) eqn:E; [apply Z.ltb_lt in E; lia|].
  rewrite Nat2Z.id.
  replace (Nat.min (String.length body) (Nat.max 1 arrived)) with (String.length body) by lia.
  apply read_app.
Qed.

Lemma raw_read_arrived_short (arrived : nat) (got more rest : string) :
  String.length got = Nat.max 1 arrived ->
  Stream.raw_read_arrived arrived (Z.of_nat (String.length (got +:+ more)))
    ((got +:+ more) +:+ rest)
  = (got, more +:+ rest).
Proof.
  intros Hgot. unfold Stream.raw_read_arrived.
  destruct (Z.of_nat (String.length (got +:+ more)) <? 0) eqn:E; [apply Z.ltb_lt in E; lia|].
  rewrite Nat2Z.id, slength_app.
  replace (Nat.min (String.length got + String.length more) (Nat.max 1 arrived))
    with (String.length got) by lia.
  rewrite sapp_assoc. apply read_app.
Qed.

Section Arrived.
Context `{JsonCodec}.

(** The header of a frame is read whatever has arrived; of the body,
    [_read_message] gets what one read returns. *)
Lemma read_message_arrived_frame (arrived : nat) (body rest : string) :
  Standalone._read_message_arrived arrived (frame body +:+ rest) =
  let '(got, more) :=
    Stream.raw_read_arrived arrived (Z.of_nat (String.length body)) (body +:+ rest) in
  (text ← Py.decode got; message ← json_loads text; mret (Some message), more).
Proof.
  unfold Standalone._read_message_arrived.
  rewrite frame_eq, !sapp_assoc.
  rewrite <- (sapp_nil_l (header_line_of _ +:+ _)) at 1.
  rewrite sapp_nil_l.
  rewrite read_header_line
    by (rewrite sapp_nil_l; apply header_line_of_clean; reflexivity).
  rewrite sapp_nil_l.
  rewrite decode_ascii
    by (rewrite is_ascii_app, header_line_of_ascii; reflexivity).
  change (mbind ?f (Return ?x)) with (f x). cbv beta.
  rewrite content_length_of_frame. reflexivity.
Qed.

(** When less of the body has arrived than the header announces, the part
    that has arrived is taken for the body and the rest stays in the
    stream. *)
Lemma read_message_arrived_short (arrived : nat) (got more rest : string) :
  String.length got = Nat.max 1 arrived ->
  Standalone._read_message_arrived arrived (frame (got +:+ more) +:+ rest)
  = (text ← Py.decode got; message ← json_loads text; mret (Some message), more +:+ rest).
Proof.
  intros Hgot. rewrite read_message_arrived_frame, raw_read_arrived_short by exact Hgot.
  reflexivity.
Qed.

End Arrived.

(** ** The transport *)

(** Runs the binds whose left side has returned or raised. *)
Ltac run_bind :=
  repeat first
    [ progress change (mbind ?f (Return ?x)) with (f x)
    | progress change (@mbind result _ ?A ?B ?f (Raise ?e)) with (@Raise B e)
    | progress change (mret ?x) with (Return x) ];
  cbv beta.

Section TransportClaims.
Context `{JsonCodec}.

Lemma send_message_dict (fields : list (string * json)) (t : Standalone.DAPTester) :
  Standalone._send_message (JObj fields) t =
  Return (Standalone.mkDAPTester (Standalone.seq t) (Standalone.received_events t)
            (Standalone.received_responses t) (Standalone.running t)
            (Standalone.stdin t +:+ frame (json_dumps (JObj fields)))
            (Standalone.stdout t)
            (Standalone.wire t ++ [Standalone.Sent (JObj fields)])).
Proof.
  unfold Standalone._send_message, Dict.get, Dict.get_default.
  destruct (Dict.lookup fields "type"), (Dict.lookup fields "command"),
    (Dict.lookup fields "seq"); run_bind;
    unfold frame; rewrite !sapp_assoc; reflexivity.
Qed.

Lemma send_message_written (m : json) (t t' : Standalone.DAPTester) :
  Standalone._send_message m t = Return t' ->
  Standalone.stdin t' = Standalone.stdin t +:+ frame (json_dumps m).
Proof.
  destruct m; try discriminate.
  rewrite send_message_dict. intros [= <-]. reflexivity.
Qed.

Lemma sequence_send_written (m : json) (stdin : string) :
  Py.is_ascii (json_dumps m) = true ->
  snd (CorrectSequence.send_message stdin m) = stdin +:+ frame (json_dumps m).
Proof.
  intros Hascii. unfold CorrectSequence.send_message. cbn [snd].
  rewrite len_ascii by assumption. unfold frame. rewrite !sapp_assoc. reflexivity.
Qed.

(** C5. Every message written goes out as one frame: the header line
    [Content-Length: N] with the decimal [N] equal to the number of bytes of
    the serialized body, the blank line, then the [N] bytes of the body and
    nothing after them.  [_send_message] counts the bytes of the body;
    [send_message] of test_correct_sequence.py counts the characters of the
    text, which [json.dumps] keeps within ASCII. *)
Theorem written_frame_has_content_length (m : json) :
  (forall t t', Standalone._send_message m t = Return t' ->
     exists written,
       Standalone.stdin t' = Standalone.stdin t +:+ written
       /\ is_frame_of (json_dumps m) written)
  /\ (Py.is_ascii (json_dumps m) = true ->
      forall stdin, exists written,
        snd (CorrectSequence.send_message stdin m) = stdin +:+ written
        /\ is_frame_of (json_dumps m) written).
Proof.
  split.
  - intros t t' Hsend. exists (frame (json_dumps m)).
    split; [eapply send_message_written; eassumption|apply frame_is_frame].
  - intros Hascii stdin. exists (frame (json_dumps m)).
    split; [apply sequence_send_written; assumption|apply frame_is_frame].
Qed.

End TransportClaims.

Lemma written_frame_has_content_length_witness :
  Py.is_ascii (@json_dumps MiniJson.codec (Standalone.configuration_done_request 3)) = true
  /\ exists written,
       snd (@CorrectSequence.send_message MiniJson.codec EmptyString
              (Standalone.configuration_done_request 3)) = EmptyString +:+ written
       /\ is_frame_of (@json_dumps MiniJson.codec (Standalone.configuration_done_request 3)) written.
Proof.
  split; [reflexivity|].
  apply (proj2 (@written_frame_has_content_length MiniJson.codec
                  (Standalone.configuration_done_request 3))).
  reflexivity.
Defined.


(** C6. A header whose Content-Length value is ["41:x"] is not numeric: [int]
    refuses it and the [read_message] of test_correct_sequence.py, which
    splits the line at its first colon only, returns no message.
    [_read_message] takes [line.split(':')[1]], the text between the first
    two colons, reads 41 and returns the body as a message. *)
Theorem colon_in_content_length_accepted :
  let stream := "Content-Length: 41:x" +:+ Py.CRLFCRLF +:+ MiniJson.dumps initialized_event in
  Py.int "41:x" = Raise (ValueError "invalid literal for int()")
  /\ @CorrectSequence.read_message MiniJson.codec true stream
     = (None, MiniJson.dumps initialized_event)
  /\ @Standalone._read_message MiniJson.codec stream
     = (Return (Some initialized_event), EmptyString).
Proof. repeat split; vm_compute; reflexivity. Qed.

Section StandaloneHeaderFacts.
Context `{JsonCodec}.

(** Without a line that starts with [Content-Length:], the [for ... else]
    raises, and no byte of a body is read. *)
Lemma content_length_of_absent (text : string) (lines : list string) :
  Forall (fun line => Py.startswith line "Content-Length:" = false) lines ->
  Standalone.content_length_of text lines =
  Raise (ValueError ("No Content-Length in header: " +:+ text)).
Proof.
  induction 1 as [|line lines Hline _ IH]; [reflexivity|].
  cbn [Standalone.content_length_of]. rewrite Hline. exact IH.
Qed.

Lemma read_message_absent (stdout header rest : string) :
  Standalone.read_header EmptyString stdout = Some (header, rest) ->
  Py.decode header = Return header ->
  Forall (fun line => Py.startswith line "Content-Length:" = false)
    (Py.split header Py.CRLF) ->
  Standalone._read_message stdout =
  (Raise (ValueError ("No Content-Length in header: " +:+ header)), rest).
Proof.
  intros Hh Hd Hlines. unfold Standalone._read_message.
  rewrite Hh, Hd. run_bind. rewrite content_length_of_absent by assumption.
  reflexivity.
Qed.

End StandaloneHeaderFacts.

(** ** The reader loop *)

Section ReaderFacts.
Context `{JsonCodec} `{PathLib}.

Lemma request_configuration_done_eq (t : Standalone.DAPTester) :
  Standalone.request_configuration_done t =
  Return (Standalone.mkDAPTester (Standalone.seq t + 1) (Standalone.received_events t)
            (Standalone.received_responses t) (Standalone.running t)
            (Standalone.stdin t +:+
               frame (json_dumps (Standalone.configuration_done_request (Standalone.seq t + 1))))
            (Standalone.stdout t)
            (Standalone.wire t ++
               [Standalone.Sent (Standalone.configuration_done_request (Standalone.seq t + 1))])).
Proof.
  unfold Standalone.request_configuration_done, Standalone.configuration_done_request.
  rewrite send_message_dict. reflexivity.
Qed.

Lemma request_initialize_eq (t : Standalone.DAPTester) :
  Standalone.request_initialize t =
  Return (Standalone.mkDAPTester (Standalone.seq t + 1) (Standalone.received_events t)
            (Standalone.received_responses t) (Standalone.running t)
            (Standalone.stdin t +:+
               frame (json_dumps (Standalone.initialize_request (Standalone.seq t + 1))))
            (Standalone.stdout t)
            (Standalone.wire t ++
               [Standalone.Sent (Standalone.initialize_request (Standalone.seq t + 1))])).
Proof.
  unfold Standalone.request_initialize, Standalone.initialize_request.
  rewrite send_message_dict. reflexivity.
Qed.

Lemma request_launch_eq (program_path : string) (t : Standalone.DAPTester) :
  Standalone.request_launch program_path t =
  Return (Standalone.mkDAPTester (Standalone.seq t + 1) (Standalone.received_events t)
            (Standalone.received_responses t) (Standalone.running t)
            (Standalone.stdin t +:+
               frame (json_dumps (Standalone.launch_request (Standalone.seq t + 1) program_path)))
            (Standalone.stdout t)
            (Standalone.wire t ++
               [Standalone.Sent (Standalone.launch_request (Standalone.seq t + 1) program_path)])).
Proof.
  unfold Standalone.request_launch, Standalone.launch_request.
  rewrite send_message_dict. reflexivity.
Qed.

(** A pass of the loop on a stream that starts with the frame of [m]. *)
Lemma pass_frame (t : Standalone.DAPTester) (body rest : string) (m : json) :
  Standalone.running t = true ->
  Standalone.stdout t = frame body +:+ rest ->
  inbound body m ->
  Standalone._read_messages_pass t =
  if Dict.truthy m then
    match Standalone.handle_message m (Standalone.received t m rest) with
    | Return t' => (Standalone.Continue, t')
    | Raise e => (Standalone.Break, Standalone.received t m rest)
    end
  else (Standalone.Continue, Standalone.received t m rest).
Proof.
  intros Hrun Hout [Hdec Hload]. unfold Standalone._read_messages_pass.
  rewrite Hrun, Hout, read_message_frame, Hdec. run_bind. rewrite Hload. run_bind.
  reflexivity.
Qed.

Lemma handle_response (t : Standalone.DAPTester) (m : json) (n : Z) :
  is_response m n ->
  Standalone.handle_message m t =
  Return (Standalone.set_received_responses t
            (<[KInt n := m]> (Standalone.received_responses t))).
Proof.
  intros (fields & -> & Hty & Hseq).
  unfold Standalone.handle_message, Dict.get, Dict.get_default.
  rewrite Hty, Hseq. run_bind. cbn [is_str String.eqb].
  assert (String.eqb "response" "response" = true) as Heq by reflexivity.
  destruct (Dict.lookup fields "command"), (Dict.lookup fields "success");
    run_bind; cbn [Dict.key]; run_bind; reflexivity.
Qed.

Lemma handle_initialized (t : Standalone.DAPTester) (m : json) :
  is_initialized m = true ->
  Standalone.handle_message m t =
  Return (Standalone.mkDAPTester (Standalone.seq t + 1)
            (Standalone.received_events t ++ [m])
            (Standalone.received_responses t) (Standalone.running t)
            (Standalone.stdin t +:+
               frame (json_dumps (Standalone.configuration_done_request (Standalone.seq t + 1))))
            (Standalone.stdout t)
            (Standalone.wire t ++
               [Standalone.Sent (Standalone.configuration_done_request (Standalone.seq t + 1))])).
Proof.
  destruct m as [| | | | |fields]; try discriminate. cbn [is_initialized].
  destruct (Dict.lookup fields "type") as [ty|] eqn:Hty; [|discriminate].
  destruct (Dict.lookup fields "event") as [ev|] eqn:Hev; [|discriminate].
  intros [Hty' Hev']%andb_true_iff.
  unfold Standalone.handle_message, Dict.get, Dict.get_default.
  rewrite Hty, Hev. run_bind.
  assert (is_str ty "response" = false) as ->.
  { destruct ty; try reflexivity. cbn [is_str] in *.
    apply String.eqb_eq in Hty' as ->. reflexivity. }
  rewrite Hty'. destruct (Dict.lookup fields "body"); run_bind; rewrite Hev';
    unfold Standalone.send_configuration_done;
    rewrite request_configuration_done_eq; run_bind; reflexivity.
Qed.

Lemma is_initialized_truthy (m : json) : is_initialized m = true -> Dict.truthy m = true.
Proof.
  destruct m as [| | | | |fields]; try discriminate.
  destruct fields; [discriminate|reflexivity].
Qed.

Lemma is_response_truthy (m : json) (n : Z) : is_response m n -> Dict.truthy m = true.
Proof. intros (fields & -> & Hty & _). destruct fields; [discriminate|reflexivity]. Qed.

(** What a message that is not the ['initialized'] event leaves on the wire:
    the loop writes nothing for it. *)
Lemma handle_other_wire (t t' : Standalone.DAPTester) (m : json) :
  is_initialized m = false ->
  Standalone.handle_message m t = Return t' ->
  Standalone.wire t' = Standalone.wire t /\ Standalone.stdin t' = Standalone.stdin t
  /\ Standalone.stdout t' = Standalone.stdout t.
Proof.
  intros Hm. unfold Standalone.handle_message.
  destruct m as [| | | | |fields]; try discriminate.
  unfold Dict.get, Dict.get_default. cbn [is_initialized] in Hm.
  repeat (run_bind;
          first
            [ discriminate
            | intros [= <-]; repeat split; reflexivity
            | match goal with
              | |- context [Dict.lookup ?f ?k] =>
                  let E := fresh "E" in
                  destruct (Dict.lookup f k) eqn:E; rewrite ?E in Hm
              | |- context [Dict.key ?s] => destruct (Dict.key s)
              | |- context [is_str ?a ?b] =>
                  let E := fresh "E" in
                  destruct (is_str a b) eqn:E; rewrite ?E in Hm; cbn [andb] in Hm
              end ]).
Qed.

(** One pass extends the order of the wire by one chunk. *)
Lemma pass_wire (t : Standalone.DAPTester) :
  exists chunk,
    Standalone.wire (snd (Standalone._read_messages_pass t)) = Standalone.wire t ++ chunk
    /\ pass_chunk chunk.
Proof.
  unfold Standalone._read_messages_pass.
  destruct (Standalone.running t);
    [|exists []; rewrite app_nil_r; split; [reflexivity|left; reflexivity]].
  destruct (Standalone._read_message (Standalone.stdout t)) as [[[m|]|e] rest];
    try (exists []; rewrite app_nil_r; split; [reflexivity|left; reflexivity]).
  destruct (is_initialized m) eqn:Hinit.
  - rewrite (is_initialized_truthy m Hinit), handle_initialized by assumption.
    exists [Standalone.Received m;
            Standalone.Sent (Standalone.configuration_done_request
                               (Standalone.seq (Standalone.received t m rest) + 1))].
    cbn [snd Standalone.wire Standalone.received]. rewrite <- app_assoc.
    split; [reflexivity|]. right. right. eauto.
  - exists [Standalone.Received m]. split; [|right; left; eauto].
    destruct (Dict.truthy m); [|reflexivity].
    destruct (Standalone.handle_message m (Standalone.received t m rest)) as [t'|e] eqn:Hh;
      [|reflexivity].
    apply handle_other_wire in Hh as [Hw _]; [|assumption].
    cbn [snd]. rewrite Hw. reflexivity.
Qed.

(** Every run of the loop extends the order of the wire chunk by chunk. *)
Lemma read_messages_wire (passes : nat) (t : Standalone.DAPTester) :
  exists chunks,
    Standalone.wire (snd (Standalone._read_messages passes t))
    = Standalone.wire t ++ concat chunks
    /\ Forall pass_chunk chunks.
Proof.
  revert t. induction passes as [|n IH]; intros t.
  - exists []. cbn. rewrite app_nil_r. split; [reflexivity|constructor].
  - cbn [Standalone._read_messages].
    destruct (pass_wire t) as (chunk & Hw & Hc).
    destruct (Standalone._read_messages_pass t) as [[|] t'] eqn:Hp; cbn [snd] in Hw.
    + destruct (IH t') as (chunks & Hw' & Hcs).
      exists (chunk :: chunks). rewrite Hw', Hw. cbn [concat]. rewrite <- app_assoc.
      split; [reflexivity|constructor; assumption].
    + exists [chunk]. cbn [snd concat]. rewrite Hw, app_nil_r.
      split; [reflexivity|constructor; [assumption|constructor]].
Qed.

End ReaderFacts.

Section ReaderClaims.
Context `{JsonCodec} `{PathLib}.

Lemma pass_initialized (t : Standalone.DAPTester) (body rest : string) (m : json) :
  Standalone.running t = true ->
  Standalone.stdout t = frame body +:+ rest ->
  inbound body m ->
  is_initialized m = true ->
  Standalone._read_messages_pass t =
  (Standalone.Continue,
   Standalone.mkDAPTester (Standalone.seq t + 1)
     (Standalone.received_events t ++ [m])
     (Standalone.received_responses t) (Standalone.running t)
     (Standalone.stdin t +:+
        frame (json_dumps (Standalone.configuration_done_request (Standalone.seq t + 1))))
     rest
     (Standalone.wire t ++
        [Standalone.Received m;
         Standalone.Sent (Standalone.configuration_done_request (Standalone.seq t + 1))])).
Proof.
  intros Hrun Hout Hin Hinit.
  rewrite (pass_frame t body rest m Hrun Hout Hin).
  rewrite (is_initialized_truthy m Hinit), handle_initialized by assumption.
  cbn [Standalone.received Standalone.seq Standalone.received_events
       Standalone.received_responses Standalone.running Standalone.stdin
       Standalone.stdout Standalone.wire].
  rewrite <- app_assoc. reflexivity.
Qed.

Lemma pass_response (t : Standalone.DAPTester) (body rest : string) (m : json) (n : Z) :
  Standalone.running t = true ->
  Standalone.stdout t = frame body +:+ rest ->
  inbound body m ->
  is_response m n ->
  Standalone._read_messages_pass t =
  (Standalone.Continue,
   Standalone.mkDAPTester (Standalone.seq t) (Standalone.received_events t)
     (<[KInt n := m]> (Standalone.received_responses t)) (Standalone.running t)
     (Standalone.stdin t) rest (Standalone.wire t ++ [Standalone.Received m])).
Proof.
  intros Hrun Hout Hin Hresp.
  rewrite (pass_frame t body rest m Hrun Hout Hin).
  rewrite (is_response_truthy m n Hresp), (handle_response _ m n Hresp).
  reflexivity.
Qed.

(** C2. When the frame at the head of the stream is the ['initialized']
    event, the pass of the reader loop that reads it also sends
    [configurationDone]: the bytes of the request are on [stdin], and the
    send follows the receipt in the order of the wire, while the bytes after
    the frame are all still unread.  In every run of the loop the order of
    the wire grows pass by pass, and a received ['initialized'] event is
    always followed at once by the [configurationDone] request. *)
Theorem initialized_handled_inside_loop
  (t : Standalone.DAPTester) (body rest : string) (m : json) :
  Standalone.running t = true ->
  Standalone.stdout t = frame body +:+ rest ->
  inbound body m ->
  is_initialized m = true ->
  (exists t',
     Standalone._read_messages_pass t = (Standalone.Continue, t')
     /\ Standalone.stdout t' = rest
     /\ Standalone.stdin t' =
        Standalone.stdin t +:+
          frame (json_dumps (Standalone.configuration_done_request (Standalone.seq t + 1)))
     /\ Standalone.wire t' =
        Standalone.wire t ++
          [Standalone.Received m;
           Standalone.Sent (Standalone.configuration_done_request (Standalone.seq t + 1))]
     /\ Standalone.received_events t' = Standalone.received_events t ++ [m])
  /\ (forall passes t0, exists chunks,
        Standalone.wire (snd (Standalone._read_messages passes t0))
        = Standalone.wire t0 ++ concat chunks
        /\ Forall pass_chunk chunks).
Proof.
  intros Hrun Hout Hin Hinit. split.
  - eexists. split; [apply (pass_initialized t body rest m); assumption|].
    repeat split.
  - intros passes t0. apply read_messages_wire.
Qed.

End ReaderClaims.

Lemma initialized_handled_inside_loop_witness :
  let body := MiniJson.dumps initialized_event in
  let t := spawned (frame body +:+ "Content-Length: 7") in
  exists t',
    @Standalone._read_messages_pass MiniJson.codec t = (Standalone.Continue, t')
    /\ Standalone.stdout t' = "Content-Length: 7"%string
    /\ Standalone.stdin t' =
       Standalone.stdin t +:+
         frame (MiniJson.dumps (Standalone.configuration_done_request (Standalone.seq t + 1)))
    /\ Standalone.wire t' =
       Standalone.wire t ++
         [Standalone.Received initialized_event;
          Standalone.Sent (Standalone.configuration_done_request (Standalone.seq t + 1))]
    /\ Standalone.received_events t' = Standalone.received_events t ++ [initialized_event].
Proof.
  intros body t.
  apply (@initialized_handled_inside_loop MiniJson.codec t body "Content-Length: 7"
           initialized_event).
  - reflexivity.
  - reflexivity.
  - split; vm_compute; reflexivity.
  - reflexivity.
Defined.

(** ** Waiting for a response *)

Lemma messages_received_app (w w' : list Standalone.io) :
  messages_received (w ++ w') = messages_received w ++ messages_received w'.
Proof.
  induction w as [|[m|m] w IH]; cbn [messages_received app]; [reflexivity|exact IH|].
  rewrite IH. reflexivity.
Qed.

Lemma requests_sent_app (w w' : list Standalone.io) :
  requests_sent (w ++ w') = requests_sent w ++ requests_sent w'.
Proof.
  induction w as [|[m|m] w IH]; cbn [requests_sent app]; [reflexivity| |exact IH].
  rewrite IH. reflexivity.
Qed.

Lemma wait_none (n : Z) (polls : list Standalone.DAPTester) :
  Forall (fun p => Standalone.received_responses p !! KInt n = None) polls ->
  Standalone.wait_for_response n polls = Raise TimeoutError.
Proof.
  induction 1 as [|p polls Hp _ IH]; [reflexivity|].
  cbn [Standalone.wait_for_response]. rewrite Hp. exact IH.
Qed.

Lemma wait_stored (n : Z) (t : Standalone.DAPTester) (m : json)
  (later : list Standalone.DAPTester) :
  Standalone.received_responses t !! KInt n = Some m ->
  Standalone.wait_for_response n (t :: later) = Return m.
Proof. intros Hm. cbn [Standalone.wait_for_response]. rewrite Hm. reflexivity. Qed.

Section WaitClaims.
Context `{JsonCodec} `{PathLib}.

(** C7, as the code has it.  A wait whose polls never find a response for
    [n] raises [TimeoutError].  The tester keeps no pending entry: a response
    for [n] that arrives later is stored by the reader loop like any other,
    and every wait that polls the tester from then on returns it. *)
Theorem timeout_then_late_response_accepted
  (n : Z) (polls : list Standalone.DAPTester)
  (t : Standalone.DAPTester) (body rest : string) (m : json) :
  Forall (fun p => Standalone.received_responses p !! KInt n = None) polls ->
  Standalone.running t = true ->
  Standalone.stdout t = frame body +:+ rest ->
  inbound body m ->
  is_response m n ->
  Standalone.wait_for_response n polls = Raise TimeoutError
  /\ exists t',
       Standalone._read_messages_pass t = (Standalone.Continue, t')
       /\ Standalone.received_responses t' = <[KInt n := m]> (Standalone.received_responses t)
       /\ forall later, Standalone.wait_for_response n (t' :: later) = Return m.
Proof.
  intros Hpolls Hrun Hout Hin Hresp. split; [apply wait_none; assumption|].
  eexists. split; [apply (pass_response t body rest m n); assumption|].
  split; [reflexivity|].
  intros later. apply wait_stored. cbn [Standalone.received_responses].
  apply lookup_insert_eq.
Qed.

(** C8, as the code has it.  Once the reader loop has stored the response to
    request [n], a wait for [n] returns exactly that response, and so does
    every later wait: the entry stays.  A later response with the same
    [request_seq] replaces it, and the waits that follow return the later
    one. *)
Theorem stored_response_returned_by_every_wait
  (n : Z) (t : Standalone.DAPTester) (body body' rest : string) (m m' : json) :
  Standalone.running t = true ->
  Standalone.stdout t = frame body +:+ frame body' +:+ rest ->
  inbound body m ->
  is_response m n ->
  inbound body' m' ->
  is_response m' n ->
  exists t1 t2,
    Standalone._read_messages_pass t = (Standalone.Continue, t1)
    /\ (forall later, Standalone.wait_for_response n (t1 :: later) = Return m)
    /\ Standalone._read_messages_pass t1 = (Standalone.Continue, t2)
    /\ (forall later, Standalone.wait_for_response n (t2 :: later) = Return m').
Proof.
  intros Hrun Hout Hin Hresp Hin' Hresp'.
  eexists _, _.
  split; [apply (pass_response t body (frame body' +:+ rest) m n); assumption|].
  split; [intros later; apply wait_stored, lookup_insert_eq|].
  split; [apply (pass_response _ body' rest m' n); try assumption; reflexivity|].
  intros later. apply wait_stored, lookup_insert_eq.
Qed.

Lemma handle_event (t : Standalone.DAPTester) (m : json) (name : string) :
  is_event m name ->
  is_initialized m = false ->
  Standalone.handle_message m t =
  Return (Standalone.set_received_events t (Standalone.received_events t ++ [m])).
Proof.
  intros (fields & -> & Hty & Hev) Hinit.
  cbn [is_initialized] in Hinit. rewrite Hty, Hev in Hinit.
  cbn [is_str andb] in Hinit.
  change (String.eqb "event" "event") with true in Hinit. cbn [andb] in Hinit.
  unfold Standalone.handle_message, Dict.get, Dict.get_default.
  rewrite Hty, Hev. run_bind. cbn [is_str].
  change (String.eqb "event" "response") with false.
  change (String.eqb "event" "event") with true. cbv iota.
  rewrite Hinit. destruct (Dict.lookup fields "body"); run_bind; reflexivity.
Qed.

Lemma is_event_truthy (m : json) (name : string) : is_event m name -> Dict.truthy m = true.
Proof. intros (fields & -> & Hty & _). destruct fields; [discriminate|reflexivity]. Qed.

Lemma is_response_not_initialized (m : json) (n : Z) :
  is_response m n -> is_initialized m = false.
Proof.
  intros (fields & -> & Hty & _). cbn [is_initialized]. rewrite Hty.
  destruct (Dict.lookup fields "event"); reflexivity.
Qed.

(** A pass on a well-formed message: the loop goes on, the frame is consumed
    and the message is in the order of the wire. *)
Lemma pass_well_formed (t : Standalone.DAPTester) (body rest : string) (m : json) :
  Standalone.running t = true ->
  Standalone.stdout t = frame body +:+ rest ->
  inbound body m ->
  well_formed m ->
  exists t',
    Standalone._read_messages_pass t = (Standalone.Continue, t')
    /\ Standalone.running t' = true
    /\ Standalone.stdout t' = rest
    /\ messages_received (Standalone.wire t') = messages_received (Standalone.wire t) ++ [m].
Proof.
  intros Hrun Hout Hin Hwf.
  assert (Hrecv : forall w tail,
             messages_received tail = [] ->
             messages_received (w ++ Standalone.Received m :: tail)
             = messages_received w ++ [m]).
  { intros w tail Htail. rewrite messages_received_app.
    cbn [messages_received]. rewrite Htail. reflexivity. }
  destruct (is_initialized m) eqn:Hinit.
  - eexists. split; [apply (pass_initialized t body rest m); assumption|].
    cbn [Standalone.running Standalone.stdout Standalone.wire].
    repeat split; [assumption|]. apply Hrecv. reflexivity.
  - destruct Hwf as [[n Hresp]|[name Hev]].
    + eexists. split; [apply (pass_response t body rest m n); assumption|].
      cbn [Standalone.running Standalone.stdout Standalone.wire].
      repeat split; [assumption|]. apply Hrecv. reflexivity.
    + rewrite (pass_frame t body rest m Hrun Hout Hin).
      rewrite (is_event_truthy m name Hev), (handle_event _ m name Hev Hinit).
      eexists. split; [reflexivity|].
      cbn [Standalone.set_received_events Standalone.received Standalone.running
           Standalone.stdout Standalone.wire].
      repeat split; [assumption|]. apply Hrecv. reflexivity.
Qed.

(** The loop reads a run of well-formed messages to its end. *)
Lemma read_messages_well_formed (msgs : list (string * json))
  (t : Standalone.DAPTester) (rest : string) :
  Standalone.running t = true ->
  Standalone.stdout t = frames (map fst msgs) +:+ rest ->
  Forall (fun bm => inbound (fst bm) (snd bm) /\ well_formed (snd bm)) msgs ->
  exists t',
    Standalone._read_messages (length msgs) t = (Standalone.Continue, t')
    /\ Standalone.running t' = true
    /\ Standalone.stdout t' = rest
    /\ messages_received (Standalone.wire t')
       = messages_received (Standalone.wire t) ++ map snd msgs.
Proof.
  revert t. induction msgs as [|[body m] msgs IH]; intros t Hrun Hout Hall.
  - exists t. cbn. rewrite app_nil_r. repeat split; assumption.
  - apply Forall_cons in Hall as [[Hin Hwf] Hall]. cbn [fst snd] in *.
    cbn [map fst frames foldr] in Hout. rewrite sapp_assoc in Hout.
    destruct (pass_well_formed t body _ m Hrun Hout Hin Hwf) as (t1 & Hp & Hrun1 & Hout1 & Hw1).
    destruct (IH t1 Hrun1 Hout1 Hall) as (t' & Hl & Hrun' & Hout' & Hw').
    exists t'. cbn [length Standalone._read_messages]. rewrite Hp.
    repeat split; try assumption.
    rewrite Hw', Hw1. cbn [map snd]. rewrite <- app_assoc. reflexivity.
Qed.

(** C9, as the code has it.  The reader loop does not ask whether a
    response answers a request that was issued: it stores the response
    under its [request_seq], where a wait for that number finds it, and goes
    on; the well-formed messages that follow are all read, in order, and the
    loop is still running after them. *)
Theorem unrequested_response_stored_loop_continues
  (t : Standalone.DAPTester) (body : string) (m : json) (n : Z)
  (msgs : list (string * json)) (rest : string) :
  Standalone.running t = true ->
  Standalone.stdout t = frame body +:+ frames (map fst msgs) +:+ rest ->
  inbound body m ->
  is_response m n ->
  Forall (fun bm => inbound (fst bm) (snd bm) /\ well_formed (snd bm)) msgs ->
  exists t1 t2,
    Standalone._read_messages_pass t = (Standalone.Continue, t1)
    /\ Standalone.received_responses t1 = <[KInt n := m]> (Standalone.received_responses t)
    /\ (forall later, Standalone.wait_for_response n (t1 :: later) = Return m)
    /\ Standalone._read_messages (length msgs) t1 = (Standalone.Continue, t2)
    /\ Standalone.running t2 = true
    /\ Standalone.stdout t2 = rest
    /\ messages_received (Standalone.wire t2)
       = messages_received (Standalone.wire t) ++ m :: map snd msgs.
Proof.
  intros Hrun Hout Hin Hresp Hall.
  pose proof (pass_response t body _ m n Hrun Hout Hin Hresp) as Hp.
  match type of Hp with
  | _ = (_, ?t1) =>
      destruct (read_messages_well_formed msgs t1 rest Hrun eq_refl Hall)
        as (t2 & Hl & Hrun2 & Hout2 & Hw2)
  end.
  eexists _, t2. split; [exact Hp|]. split; [reflexivity|].
  split; [intros later; apply wait_stored, lookup_insert_eq|].
  split; [exact Hl|]. split; [exact Hrun2|]. split; [exact Hout2|].
  rewrite Hw2. cbn [Standalone.wire]. rewrite messages_received_app.
  cbn [messages_received]. rewrite <- app_assoc. reflexivity.
Qed.

End WaitClaims.

(** ** The claims of the specification about waits, on concrete sessions *)

Lemma response_is_response (n : Z) (command : string) (success : bool) :
  is_response (response_to n command success) n.
Proof. eexists. repeat split. Qed.

Lemma timeout_then_late_response_accepted_witness :
  let r := response_to 1 "initialize" true in
  let t := Session.with_inbound Session.after_initialize [MiniJson.dumps r] in
  Standalone.wait_for_response 1 [Session.after_initialize; Session.after_initialize]
  = Raise TimeoutError
  /\ exists t',
       @Standalone._read_messages_pass MiniJson.codec t = (Standalone.Continue, t')
       /\ Standalone.received_responses t' = <[KInt 1 := r]> (Standalone.received_responses t)
       /\ forall later, Standalone.wait_for_response 1 (t' :: later) = Return r.
Proof.
  intros r t.
  apply (@timeout_then_late_response_accepted MiniJson.codec 1
           [Session.after_initialize; Session.after_initialize]
           t (MiniJson.dumps r) EmptyString r).
  - repeat constructor.
  - reflexivity.
  - vm_compute. reflexivity.
  - split; vm_compute; reflexivity.
  - apply response_is_response.
Defined.

(** C7, as the specification states it, fails: the wait for request 1 times
    out, the response arrives afterwards, and the tester does not diagnose
    it: the next wait for request 1 returns it. *)
Lemma late_response_fulfils_wait :
  let r := response_to 1 "initialize" true in
  let late := Session.pass (Session.with_inbound Session.after_initialize [MiniJson.dumps r]) in
  requests_sent (Standalone.wire Session.after_initialize) = [Standalone.initialize_request 1]
  /\ Standalone.wait_for_response 1 [Session.after_initialize; Session.after_initialize]
     = Raise TimeoutError
  /\ Standalone.wait_for_response 1 [late] = Return r
  /\ ~ diagnosed_as_violation late 1.
Proof.
  intros r late.
  assert (Hwait : Standalone.wait_for_response 1 [late] = Return r)
    by (vm_compute; reflexivity).
  split; [vm_compute; reflexivity|].
  split; [vm_compute; reflexivity|].
  split; [exact Hwait|].
  intros Hdiag. specialize (Hdiag []). rewrite Hwait in Hdiag. discriminate.
Qed.

Lemma stored_response_returned_by_every_wait_witness :
  let r := response_to 1 "initialize" true in
  let r' := response_to 1 "initialize" false in
  let t := Session.with_inbound Session.after_initialize [MiniJson.dumps r; MiniJson.dumps r'] in
  exists t1 t2,
    @Standalone._read_messages_pass MiniJson.codec t = (Standalone.Continue, t1)
    /\ (forall later, Standalone.wait_for_response 1 (t1 :: later) = Return r)
    /\ @Standalone._read_messages_pass MiniJson.codec t1 = (Standalone.Continue, t2)
    /\ (forall later, Standalone.wait_for_response 1 (t2 :: later) = Return r').
Proof.
  intros r r' t.
  apply (@stored_response_returned_by_every_wait MiniJson.codec 1 t
           (MiniJson.dumps r) (MiniJson.dumps r') EmptyString r r').
  - reflexivity.
  - vm_compute. reflexivity.
  - split; vm_compute; reflexivity.
  - apply response_is_response.
  - split; vm_compute; reflexivity.
  - apply response_is_response.
Defined.

(** C8, as the specification states it, fails: the response to request 1 is
    returned by a wait and by the wait after it, since the tester is left as
    it was; and when a second, different response to request 1 has been read,
    the next wait returns that one: both were delivered. *)
Lemma response_delivered_twice :
  let r := response_to 1 "initialize" true in
  let r' := response_to 1 "initialize" false in
  let t := Session.with_inbound Session.after_initialize [MiniJson.dumps r; MiniJson.dumps r'] in
  let once := Session.pass t in
  let twice := Session.pass once in
  Standalone.wait_for_response 1 [once] = Return r
  /\ Standalone.wait_for_response 1 [once; once] = Return r
  /\ ~ diagnosed_as_violation once 1
  /\ r <> r'
  /\ Standalone.wait_for_response 1 [twice] = Return r'.
Proof.
  intros r r' t once twice.
  assert (Hwait : Standalone.wait_for_response 1 [once] = Return r)
    by (vm_compute; reflexivity).
  split; [exact Hwait|].
  split; [vm_compute; reflexivity|].
  split; [intros Hdiag; specialize (Hdiag []); rewrite Hwait in Hdiag; discriminate|].
  split; [discriminate|].
  vm_compute. reflexivity.
Qed.

Lemma unrequested_response_stored_loop_continues_witness :
  let r := response_to 99 "launch" true in
  let t := spawned (frame (MiniJson.dumps r) +:+
                    frames [MiniJson.dumps initialized_event] +:+ EmptyString) in
  exists t1 t2,
    @Standalone._read_messages_pass MiniJson.codec t = (Standalone.Continue, t1)
    /\ Standalone.received_responses t1 = <[KInt 99 := r]> (Standalone.received_responses t)
    /\ (forall later, Standalone.wait_for_response 99 (t1 :: later) = Return r)
    /\ @Standalone._read_messages MiniJson.codec 1 t1 = (Standalone.Continue, t2)
    /\ Standalone.running t2 = true
    /\ Standalone.stdout t2 = EmptyString
    /\ messages_received (Standalone.wire t2)
       = messages_received (Standalone.wire t) ++ [r; initialized_event].
Proof.
  intros r t.
  apply (@unrequested_response_stored_loop_continues MiniJson.codec t
           (MiniJson.dumps r) r 99
           [(MiniJson.dumps initialized_event, initialized_event)] EmptyString).
  - reflexivity.
  - reflexivity.
  - split; vm_compute; reflexivity.
  - apply response_is_response.
  - constructor; [|constructor]. split.
    + split; vm_compute; reflexivity.
    + right. exists "initialized"%string. eexists. repeat split.
Defined.

(** C9, as the specification states it, fails in its first half: no request
    was ever issued, a response to request 99 arrives, and the reader loop
    goes on without diagnosing it: the tester holds it as the response to
    request 99 and a wait for 99 returns it. *)
Lemma unrequested_response_fulfils_wait :
  let r := response_to 99 "launch" true in
  let t := spawned (frames [MiniJson.dumps r]) in
  requests_sent (Standalone.wire t) = []
  /\ @Standalone._read_messages_pass MiniJson.codec t = (Standalone.Continue, Session.pass t)
  /\ Standalone.wait_for_response 99 [Session.pass t] = Return r
  /\ ~ diagnosed_as_violation (Session.pass t) 99.
Proof.
  intros r t.
  assert (Hwait : Standalone.wait_for_response 99 [Session.pass t] = Return r)
    by (vm_compute; reflexivity).
  split; [vm_compute; reflexivity|].
  split; [vm_compute; reflexivity|].
  split; [exact Hwait|].
  intros Hdiag. specialize (Hdiag []). rewrite Hwait in Hdiag. discriminate.
Qed.

Lemma frames_snoc (bodies : list string) (body : string) :
  frames bodies +:+ frame body = frames (bodies ++ [body]).
Proof.
  induction bodies as [|b bodies IH]; cbn [frames foldr app].
  - rewrite sapp_nil_l, sapp_nil_r. reflexivity.
  - rewrite sapp_assoc. f_equal. exact IH.
Qed.

Lemma frame_not_empty (body rest : string) :
  Handshake.is_empty (frame body +:+ rest) = false.
Proof. reflexivity. Qed.


(** ** The handshake with the double *)

Lemma turns_cover (l : Handshake.label) (a a' : Reach.name) :
  Reach.next l a = Some a' -> In l Reach.turns /\ Handshake.is_deadline l = false.
Proof.
  destruct l as [| | |[|[|[|[|c]]]]]; cbn [Reach.next]; try discriminate;
    intros _; (split; [cbn; tauto|reflexivity]).
Qed.

Lemma closure (a a' : Reach.name) (l : Handshake.label) :
  In a Reach.reachable -> Reach.next l a = Some a' -> In a' Reach.reachable.
Proof.
  intros Ha Hnext.
  assert (Hc : Reach.closed_under_turns = true) by (vm_compute; reflexivity).
  unfold Reach.closed_under_turns in Hc. rewrite forallb_forall in Hc.
  specialize (Hc a Ha). rewrite forallb_forall in Hc.
  destruct (turns_cover l a a' Hnext) as [Hl _].
  specialize (Hc l Hl). rewrite Hnext in Hc.
  apply bool_decide_eq_true_1 in Hc. apply list_elem_of_In. exact Hc.
Qed.

Lemma follow_reachable (schedule : list Handshake.label) (a a' : Reach.name) :
  In a Reach.reachable -> Reach.follow schedule a = Some a' -> In a' Reach.reachable.
Proof.
  revert a. induction schedule as [|l later IH]; intros a Ha; cbn [Reach.follow].
  - intros [= <-]. exact Ha.
  - destruct (Reach.next l a) as [a1|] eqn:Hnext; [|discriminate].
    apply IH. eapply closure; eassumption.
Qed.

Lemma checked_all (a : Reach.name) :
  In a Reach.reachable ->
  Reach.completes a = true /\ Reach.moves_on a = true /\ Reach.steps_by_one a = true
  /\ Reach.read_in_order a = true /\ (Reach.measure a <= 14)%nat.
Proof.
  intros Ha.
  assert (Hc : Reach.checked = true) by (vm_compute; reflexivity).
  unfold Reach.checked in Hc. rewrite forallb_forall in Hc. specialize (Hc a Ha).
  rewrite !andb_true_iff in Hc. destruct Hc as [[[[? ?] ?] ?] Hm].
  apply Nat.leb_le in Hm. tauto.
Qed.

Lemma comes_before_nil (x : Standalone.io) (P : json -> Prop) : comes_before x P [].
Proof. intros [|? pre] m post Hw; discriminate. Qed.

Lemma comes_before_here (x : Standalone.io) (P : json -> Prop) (w : list Standalone.io)
  (q : json) :
  x = Standalone.Sent q -> comes_before x P (x :: w).
Proof.
  intros -> [|y pre] m post Hw _; [discriminate|].
  injection Hw as <- _. left. reflexivity.
Qed.

Lemma comes_before_sent (x : Standalone.io) (P : json -> Prop) (w : list Standalone.io)
  (q : json) :
  comes_before x P w -> comes_before x P (Standalone.Sent q :: w).
Proof.
  intros Hw [|y pre] m post Heq Hm; [discriminate|].
  injection Heq as <- Heq. right. eapply Hw; eassumption.
Qed.

Lemma comes_before_received (x : Standalone.io) (P : json -> Prop) (w : list Standalone.io)
  (m0 : json) :
  ~ P m0 -> comes_before x P w -> comes_before x P (Standalone.Received m0 :: w).
Proof.
  intros Hm0 Hw [|y pre] m post Heq Hm.
  - injection Heq as <- _. contradiction.
  - injection Heq as <- Heq. right. eapply Hw; eassumption.
Qed.

Lemma is_response_number (m : json) (n n' : Z) :
  is_response m n -> is_response m n' -> n = n'.
Proof.
  intros (fields & -> & _ & Hn) (fields' & [= <-] & _ & Hn'). congruence.
Qed.

(** The capabilities line of [main] passes on a successful response whose
    body is absent or a [dict], and raises on any other body. *)
Lemma initialize_succeeded_capable (m : json) :
  succeeded m -> capable m -> Handshake.initialize_succeeded m = Return true.
Proof.
  intros (fields & -> & Hs) (capabilities & Hc).
  unfold Handshake.initialize_succeeded.
  assert (Hg : Dict.get (JObj fields) "success" = Return (JBool true))
    by (unfold Dict.get, Dict.get_default; rewrite Hs; reflexivity).
  rewrite Hg. cbn [mbind result_bind Dict.truthy]. rewrite Hc.
  cbn [mbind result_bind]. unfold Dict.get, Dict.get_default.
  destruct (Dict.lookup capabilities "supportsConfigurationDoneRequest"); reflexivity.
Qed.

Lemma initialize_succeeded_body (m : json) :
  succeeded m -> ~ capable m -> Handshake.initialize_succeeded m = Raise AttributeError.
Proof.
  intros (fields & -> & Hs) Hc.
  unfold Handshake.initialize_succeeded.
  assert (Hg : Dict.get (JObj fields) "success" = Return (JBool true))
    by (unfold Dict.get, Dict.get_default; rewrite Hs; reflexivity).
  rewrite Hg. cbn [mbind result_bind Dict.truthy].
  destruct (Dict.get_default (JObj fields) "body" (JObj [])) as [body|e] eqn:Hb.
  - destruct body; try reflexivity. destruct Hc. eexists. exact Hb.
  - unfold Dict.get_default in Hb. destruct (Dict.lookup fields "body"); discriminate.
Qed.

Section DoubleFacts.
Context `{JsonCodec} `{PathLib}.
Variable program_path : string.
Variables bI bE bL bD : string.
Variables mI mE mL mD : json.
Hypothesis HI : inbound bI mI.
Hypothesis HE : inbound bE mE.
Hypothesis HL : inbound bL mL.
Hypothesis HD : inbound bD mD.
Hypothesis RI : is_response mI 1.
Hypothesis RL : is_response mL 2.
Hypothesis RD : is_response mD 3.
Hypothesis EE : is_initialized mE = true.
Hypothesis SI : succeeded mI.
Hypothesis SL : succeeded mL.
Hypothesis SD : succeeded mD.
Hypothesis CI : capable mI.

Local Abbreviation D := (Handshake.double bI bE bL bD).
Local Abbreviation conc := (Reach.concrete program_path bI bE bL bD mI mE mL mD).
Local Abbreviation step := (Handshake.step program_path D).

Lemma poll_hit_initialize (s : Handshake.system D) (q : Z) (m : json)
  (next : Handshake.main_pc) :
  Standalone.received_responses (Handshake.tester s) !! KInt q = Some m ->
  succeeded m -> capable m ->
  Handshake.poll s q Handshake.initialize_succeeded next
  = Handshake.goto s (Handshake.tester s) next.
Proof.
  intros Hm Hs Hc. unfold Handshake.poll.
  cbn [Standalone.wait_for_response]. rewrite Hm.
  rewrite (initialize_succeeded_capable m Hs Hc). reflexivity.
Qed.

Lemma poll_hit_launch (s : Handshake.system D) (q : Z) (m : json) (next : Handshake.main_pc) :
  Standalone.received_responses (Handshake.tester s) !! KInt q = Some m ->
  succeeded m ->
  Handshake.poll s q Handshake.launch_succeeded next
  = Handshake.goto s (Handshake.tester s) next.
Proof.
  intros Hm (fields & -> & Hs). unfold Handshake.poll.
  cbn [Standalone.wait_for_response]. rewrite Hm.
  unfold Handshake.launch_succeeded, Dict.get, Dict.get_default. rewrite Hs. reflexivity.
Qed.

Lemma poll_miss (s : Handshake.system D) (q : Z) (check : json -> result bool)
  (next : Handshake.main_pc) :
  Standalone.received_responses (Handshake.tester s) !! KInt q = None ->
  Handshake.poll s q check next = s.
Proof.
  intros Hm. unfold Handshake.poll.
  cbn [Standalone.wait_for_response]. rewrite Hm. reflexivity.
Qed.

Lemma step_reader_response (s : Handshake.system D) (b rest : string) (m : json) (n : Z) :
  Handshake.reader s = Standalone.Continue ->
  Standalone.running (Handshake.tester s) = true ->
  Standalone.stdout (Handshake.tester s) = frame b +:+ rest ->
  inbound b m ->
  is_response m n ->
  step Handshake.Reader s =
  Some (Handshake.mkSystem
          (Standalone.mkDAPTester
             (Standalone.seq (Handshake.tester s))
             (Standalone.received_events (Handshake.tester s))
             (<[KInt n := m]> (Standalone.received_responses (Handshake.tester s)))
             (Standalone.running (Handshake.tester s))
             (Standalone.stdin (Handshake.tester s)) rest
             (Standalone.wire (Handshake.tester s) ++ [Standalone.Received m]))
          (Handshake.pc s) Standalone.Continue (Handshake.adapter_state s)).
Proof.
  intros Hr Hrun Hout Hin Hresp. cbn [Handshake.step]. rewrite Hr, Hout, frame_not_empty.
  cbn [negb orb].
  rewrite (pass_response _ b rest m n Hrun Hout Hin Hresp). reflexivity.
Qed.

Lemma step_reader_initialized (s : Handshake.system D) (b rest : string) (m : json) :
  Handshake.reader s = Standalone.Continue ->
  Standalone.running (Handshake.tester s) = true ->
  Standalone.stdout (Handshake.tester s) = frame b +:+ rest ->
  inbound b m ->
  is_initialized m = true ->
  step Handshake.Reader s =
  Some (Handshake.mkSystem
          (Standalone.mkDAPTester
             (Standalone.seq (Handshake.tester s) + 1)
             (Standalone.received_events (Handshake.tester s) ++ [m])
             (Standalone.received_responses (Handshake.tester s))
             (Standalone.running (Handshake.tester s))
             (Standalone.stdin (Handshake.tester s) +:+
                frame (json_dumps (Standalone.configuration_done_request
                                     (Standalone.seq (Handshake.tester s) + 1))))
             rest
             (Standalone.wire (Handshake.tester s) ++
                [Standalone.Received m;
                 Standalone.Sent (Standalone.configuration_done_request
                                    (Standalone.seq (Handshake.tester s) + 1))]))
          (Handshake.pc s) Standalone.Continue (Handshake.adapter_state s)).
Proof.
  intros Hr Hrun Hout Hin Hinit. cbn [Handshake.step]. rewrite Hr, Hout, frame_not_empty.
  cbn [negb orb].
  rewrite (pass_initialized _ b rest m Hrun Hout Hin Hinit). reflexivity.
Qed.

Ltac unfold_concrete :=
  cbv [Reach.concrete Reach.requests_of Reach.stdin_of Reach.responses_of Reach.events_of
       Reach.wire_of Reach.pc_of Reach.main_at Reach.read Reach.pending Reach.index
       Reach.has Reach.same Reach.message_of Reach.body_of Reach.next
       existsb orb andb negb fold_left flat_map app length map Nat.leb option_map].

Ltac solve_lookup :=
  cbn [Handshake.tester Standalone.received_responses];
  repeat first
    [ apply lookup_insert_eq
    | apply lookup_empty
    | rewrite lookup_insert_ne by discriminate ].

Ltac sim_main :=
  cbn [Handshake.step Handshake.main_step Handshake.pc Handshake.tester];
  first
    [ reflexivity
    | rewrite request_initialize_eq; reflexivity
    | rewrite request_launch_eq; reflexivity
    | erewrite poll_hit_initialize; [reflexivity|solve_lookup|assumption|assumption]
    | erewrite poll_hit_launch; [reflexivity|solve_lookup|assumption]
    | rewrite poll_miss; [reflexivity|solve_lookup] ].

Ltac sim_reader :=
  first
    [ reflexivity
    | cbn [frames foldr];
      first
        [ erewrite step_reader_initialized;
          [reflexivity|reflexivity|reflexivity|reflexivity|eassumption|assumption]
        | erewrite step_reader_response;
          [reflexivity|reflexivity|reflexivity|reflexivity|eassumption|eassumption] ] ].

Ltac sim_adapter :=
  cbn [Handshake.step Handshake.tester Standalone.running Handshake.areact Handshake.double
       Handshake.adapter_state Handshake.initialize_answered Handshake.initialized_emitted
       Handshake.launch_answered Handshake.done_answered Standalone.wire requests_sent
       negb andb orb];
  repeat match goal with
         | |- context [Handshake.has_command ?r ?c] =>
             let v := eval vm_compute in (Handshake.has_command r c) in
             change (Handshake.has_command r c) with v
         end;
  cbn [negb andb orb Standalone.set_stdout Standalone.stdout Standalone.seq
       Standalone.received_events Standalone.received_responses Standalone.running
       Standalone.stdin Standalone.wire Handshake.pc Handshake.reader];
  first [ reflexivity | rewrite frames_snoc; reflexivity ].

Lemma simulation (a : Reach.name) (l : Handshake.label) :
  In a Reach.reachable ->
  Handshake.is_deadline l = false ->
  step l (conc a) = option_map conc (Reach.next l a).
Proof.
  intros Ha Hl. unfold Reach.reachable in Ha. cbn [In] in Ha.
  destruct l as [| | |[|[|[|[|c]]]]]; try discriminate Hl; clear Hl.
  - repeat (destruct Ha as [<-|Ha]; [unfold_concrete; sim_main|]); destruct Ha.
  - repeat (destruct Ha as [<-|Ha]; [unfold_concrete; sim_reader|]); destruct Ha.
  - repeat (destruct Ha as [<-|Ha]; [unfold_concrete; sim_adapter|]); destruct Ha.
  - repeat (destruct Ha as [<-|Ha]; [unfold_concrete; sim_adapter|]); destruct Ha.
  - repeat (destruct Ha as [<-|Ha]; [unfold_concrete; sim_adapter|]); destruct Ha.
  - repeat (destruct Ha as [<-|Ha]; [unfold_concrete; sim_adapter|]); destruct Ha.
  - repeat (destruct Ha as [<-|Ha]; [unfold_concrete; sim_adapter|]); destruct Ha.
Qed.

Lemma concrete_start : conc Reach.start = Handshake.init D.
Proof. reflexivity. Qed.

Lemma run_follow (schedule : list Handshake.label) (a : Reach.name) :
  In a Reach.reachable ->
  Handshake.in_time schedule ->
  Handshake.run program_path D schedule (conc a)
  = option_map conc (Reach.follow schedule a).
Proof.
  revert a. induction schedule as [|l later IH]; intros a Ha Htime; [reflexivity|].
  apply Forall_cons in Htime as [Hl Htime].
  cbn [Handshake.run Reach.follow]. rewrite (simulation a l Ha Hl).
  destruct (Reach.next l a) as [a'|] eqn:Hnext; [|reflexivity].
  cbn [option_map]. apply IH; [eapply closure; eassumption|assumption].
Qed.

(** Every state that a schedule without a deadline reaches has a name. *)
Lemma reached_has_name (schedule : list Handshake.label) (s : Handshake.system D) :
  Handshake.in_time schedule ->
  Handshake.run program_path D schedule (Handshake.init D) = Some s ->
  exists a, In a Reach.reachable /\ s = conc a.
Proof.
  intros Htime Hrun. rewrite <- concrete_start in Hrun.
  assert (Hstart : In Reach.start Reach.reachable) by (vm_compute; tauto).
  rewrite (run_follow schedule Reach.start Hstart Htime) in Hrun.
  destruct (Reach.follow schedule Reach.start) as [a|] eqn:Hf; [|discriminate].
  injection Hrun as <-. exists a. split; [|reflexivity].
  eapply follow_reachable; eassumption.
Qed.

Lemma progress_measure (a : Reach.name) :
  In a Reach.reachable -> Handshake.progress (conc a) = Reach.measure a.
Proof.
  intros Ha. unfold Reach.reachable in Ha. cbn [In] in Ha.
  repeat (destruct Ha as [<-|Ha]; [reflexivity|]). destruct Ha.
Qed.

Lemma concrete_pc (a : Reach.name) :
  Handshake.pc (conc a) <> Handshake.Exit1
  /\ (Handshake.pc (conc a) = Handshake.LaunchOk <-> Reach.main_at a = Reach.PLaunchOk).
Proof. destruct a as [[] r p]; cbn; split; try discriminate; split; congruence. Qed.

Lemma concrete_completes (a : Reach.name) :
  In a Reach.reachable ->
  exists more s',
    Handshake.in_time more
    /\ Handshake.run program_path D more (conc a) = Some s'
    /\ Handshake.pc s' = Handshake.LaunchOk.
Proof.
  intros Ha. destruct (checked_all a Ha) as (Hc & _).
  unfold Reach.completes in Hc. destruct (Reach.complete 8 a) as [more a0].
  apply andb_true_iff in Hc as [Htime Hf].
  destruct (Reach.follow more a) as [a'|] eqn:Hfollow; [|discriminate].
  apply bool_decide_eq_true_1 in Hf.
  assert (Hin : Handshake.in_time more).
  { apply Forall_forall. intros l Hl. rewrite forallb_forall in Htime.
    apply list_elem_of_In in Hl. specialize (Htime l Hl).
    destruct (Handshake.is_deadline l); [discriminate|reflexivity]. }
  exists more, (conc a'). split; [exact Hin|].
  rewrite (run_follow more a Ha Hin), Hfollow. split; [reflexivity|].
  apply concrete_pc. exact Hf.
Qed.

Lemma concrete_quiescent (a : Reach.name) :
  In a Reach.reachable ->
  Handshake.quiescent program_path (conc a) ->
  Handshake.pc (conc a) = Handshake.LaunchOk.
Proof.
  intros Ha Hq. destruct (checked_all a Ha) as (_ & Hm & _).
  unfold Reach.moves_on in Hm. apply orb_true_iff in Hm as [Hm|Hm].
  - apply concrete_pc. apply bool_decide_eq_true_1 in Hm. exact Hm.
  - apply existsb_exists in Hm as (l & Hl & Hnext).
    destruct (Reach.next l a) as [a'|] eqn:Hn; [|discriminate].
    apply Nat.eqb_eq in Hnext.
    destruct (turns_cover l a a' Hn) as [_ Hd].
    pose proof (simulation a l Ha Hd) as Hsim. rewrite Hn in Hsim. cbn [option_map] in Hsim.
    destruct (Hq l Hd) as [Hnone|Hsame]; [congruence|].
    rewrite Hsim in Hsame.
    assert (Ha' : In a' Reach.reachable) by (eapply closure; eassumption).
    pose proof (progress_measure a Ha) as P1.
    pose proof (progress_measure a' Ha') as P2.
    assert (Hp : Handshake.progress (conc a') = Handshake.progress (conc a))
      by congruence.
    lia.
Qed.

Lemma concrete_steps_by_one (a : Reach.name) (l : Handshake.label)
  (s' : Handshake.system D) :
  In a Reach.reachable ->
  Handshake.is_deadline l = false ->
  step l (conc a) = Some s' ->
  s' = conc a \/ Handshake.progress s' = S (Handshake.progress (conc a)).
Proof.
  intros Ha Hd Hstep. rewrite (simulation a l Ha Hd) in Hstep.
  destruct (Reach.next l a) as [a'|] eqn:Hn; [|discriminate].
  injection Hstep as <-.
  destruct (checked_all a Ha) as (_ & _ & Hs & _).
  unfold Reach.steps_by_one in Hs. rewrite forallb_forall in Hs.
  destruct (turns_cover l a a' Hn) as [Hl _].
  specialize (Hs l Hl). rewrite Hn in Hs.
  apply orb_true_iff in Hs as [Hs|Hs].
  - left. apply bool_decide_eq_true_1 in Hs. rewrite Hs. reflexivity.
  - right. apply Nat.eqb_eq in Hs.
    rewrite (progress_measure a Ha), (progress_measure a'); [exact Hs|].
    eapply closure; eassumption.
Qed.

Lemma not_response_2_init : ~ is_response mI 2.
Proof. intros Hr. pose proof (is_response_number _ _ _ RI Hr). discriminate. Qed.

Lemma not_response_2_event : ~ is_response mE 2.
Proof.
  intros Hr. rewrite (is_response_not_initialized _ _ Hr) in EE. discriminate.
Qed.

Lemma not_response_2_done : ~ is_response mD 2.
Proof. intros Hr. pose proof (is_response_number _ _ _ RD Hr). discriminate. Qed.

(** In every reachable state, [configurationDone] is on the wire before any
    response to the launch request has been read. *)
Lemma concrete_wire (a : Reach.name) :
  In a Reach.reachable ->
  comes_before (Standalone.Sent (Standalone.configuration_done_request 3))
    (fun m => is_response m 2) (Standalone.wire (Handshake.tester (conc a))).
Proof.
  intros Ha. destruct (checked_all a Ha) as (_ & _ & _ & Hr & _).
  unfold Reach.read_in_order in Hr.
  cbn [Reach.concrete Handshake.tester Standalone.wire]. unfold Reach.wire_of.
  destruct (Reach.read a) as [|[] [|[] others]]; try discriminate;
    destruct (1 <=? Reach.index (Reach.main_at a))%nat,
             (4 <=? Reach.index (Reach.main_at a))%nat;
    cbn [app Reach.message_of];
    repeat first
      [ apply comes_before_nil
      | eapply comes_before_here; reflexivity
      | apply comes_before_sent
      | apply comes_before_received;
        [first [exact not_response_2_init | exact not_response_2_event]|] ].
Qed.


End DoubleFacts.

Lemma succeeded_response (n : Z) (command : string) : succeeded (response_to n command true).
Proof. eexists. split; reflexivity. Qed.

Lemma inbound_dumps (m : json) :
  Py.decode (MiniJson.dumps m) = Return (MiniJson.dumps m) ->
  MiniJson.loads (MiniJson.dumps m) = Return m ->
  @inbound MiniJson.codec (MiniJson.dumps m) m.
Proof. intros Hd Hl. split; assumption. Qed.


Lemma exit1_stays `{JsonCodec} `{PathLib} (program_path : string) (A : Handshake.adapter)
  (schedule : list Handshake.label) (s s' : Handshake.system A) :
  Handshake.pc s = Handshake.Exit1 ->
  Handshake.run program_path A schedule s = Some s' ->
  Handshake.pc s' = Handshake.Exit1.
Proof.
  revert s. induction schedule as [|l later IH]; intros s Hpc; cbn [Handshake.run].
  - intros [= <-]. exact Hpc.
  - destruct (Handshake.step program_path A l s) as [s1|] eqn:Hstep; [|discriminate].
    apply IH.
    destruct l as [| | |c]; unfold Handshake.step, Handshake.main_step in Hstep.
    + rewrite Hpc in Hstep. discriminate.
    + rewrite Hpc in Hstep. discriminate.
    + destruct (Handshake.reader s); [|discriminate].
      destruct (negb (Handshake.is_empty (Standalone.stdout (Handshake.tester s)))
                || negb (Standalone.running (Handshake.tester s))); [|discriminate].
      destruct (Standalone._read_messages_pass (Handshake.tester s)).
      injection Hstep as <-. exact Hpc.
    + destruct (Standalone.running (Handshake.tester s)); [|discriminate].
      destruct (Handshake.areact A _ _ c) as [[a body]|]; [|discriminate].
      injection Hstep as <-. exact Hpc.
Qed.


(** ** The launch request and the ['initialized'] event *)

Lemma has_command_app (requests more : list json) (command : string) :
  Handshake.has_command (requests ++ more) command
  = Handshake.has_command requests command || Handshake.has_command more command.
Proof. unfold Handshake.has_command. apply existsb_app. Qed.

Lemma launch_written_app (w w' : list Standalone.io) :
  launch_written (w ++ w') = launch_written w || launch_written w'.
Proof. unfold launch_written. rewrite requests_sent_app. apply has_command_app. Qed.

Lemma launch_comes_first_nil : launch_comes_first [].
Proof. intros [|? pre] x post Hw; discriminate. Qed.

Lemma launch_comes_first_snoc (w : list Standalone.io) (x : Standalone.io) :
  launch_comes_first w ->
  (follows_initialized x -> launch_written w = true) ->
  launch_comes_first (w ++ [x]).
Proof.
  intros Hw Hx pre y post Heq Hy.
  destruct post as [|z post _] using rev_ind.
  - apply app_inj_tail in Heq as [-> ->]. auto.
  - change (pre ++ y :: post ++ [z]) with (pre ++ (y :: post) ++ [z]) in Heq.
    rewrite app_assoc in Heq. apply app_inj_tail in Heq as [-> _].
    eapply Hw; [reflexivity|exact Hy].
Qed.

Lemma launch_comes_first_app (w chunk : list Standalone.io) :
  launch_comes_first w ->
  launch_written w = true ->
  launch_comes_first (w ++ chunk).
Proof.
  revert w. induction chunk as [|x chunk IH]; intros w Hw Hl.
  - rewrite app_nil_r. exact Hw.
  - change (w ++ x :: chunk) with (w ++ [x] ++ chunk). rewrite app_assoc. apply IH.
    + apply launch_comes_first_snoc; auto.
    + rewrite launch_written_app, Hl. reflexivity.
Qed.

Section LaunchFirst.
Context `{JsonCodec} `{PathLib}.
Variable program_path : string.
Variable A : Handshake.adapter.
Hypothesis adapter_on_launch : initialized_on_launch A.

Lemma invariant_same (t t' : Standalone.DAPTester) :
  Standalone.wire t' = Standalone.wire t ->
  Standalone.stdout t' = Standalone.stdout t ->
  launch_invariant t -> launch_invariant t'.
Proof. unfold launch_invariant. intros -> ->. auto. Qed.

Lemma invariant_sent (t t' : Standalone.DAPTester) (q : json) :
  Standalone.wire t' = Standalone.wire t ++ [Standalone.Sent q] ->
  Standalone.stdout t' = Standalone.stdout t ->
  (forall n, q <> Standalone.configuration_done_request n) ->
  launch_invariant t -> launch_invariant t'.
Proof.
  unfold launch_invariant. intros -> -> Hq [Hw Hp]. split.
  - apply launch_comes_first_snoc; [exact Hw|]. intros [n Hn]. destruct (Hq n Hn).
  - rewrite launch_written_app. intros [Hl _]%orb_false_iff. auto.
Qed.

Lemma poll_tester (s : Handshake.system A) (q : Z) (check : json -> result bool)
  (next : Handshake.main_pc) :
  Standalone.wire (Handshake.tester (Handshake.poll s q check next))
  = Standalone.wire (Handshake.tester s)
  /\ Standalone.stdout (Handshake.tester (Handshake.poll s q check next))
     = Standalone.stdout (Handshake.tester s).
Proof.
  unfold Handshake.poll.
  destruct (Standalone.wait_for_response q [Handshake.tester s]) as [response|e];
    [|split; reflexivity].
  destruct (check response) as [[|]|e]; split; reflexivity.
Qed.

Lemma invariant_main (s s' : Handshake.system A) :
  Handshake.main_step program_path A s = Some s' ->
  launch_invariant (Handshake.tester s) ->
  launch_invariant (Handshake.tester s').
Proof.
  unfold Handshake.main_step.
  destruct (Handshake.pc s).
  - rewrite request_initialize_eq. intros [= <-].
    apply invariant_sent with (q := Standalone.initialize_request
                                      (Standalone.seq (Handshake.tester s) + 1));
      [reflexivity|reflexivity|discriminate].
  - intros [= <-]. apply invariant_same; reflexivity.
  - intros [= <-]. apply invariant_same; apply poll_tester.
  - rewrite request_launch_eq. intros [= <-].
    apply invariant_sent with (q := Standalone.launch_request
                                      (Standalone.seq (Handshake.tester s) + 1) program_path);
      [reflexivity|reflexivity|discriminate].
  - intros [= <-]. apply invariant_same; reflexivity.
  - intros [= <-]. apply invariant_same; apply poll_tester.
  - discriminate.
  - discriminate.
Qed.

Lemma read_nothing : Standalone._read_message EmptyString = (Return None, EmptyString).
Proof. reflexivity. Qed.

(** A pass of the reader while the pipe holds no ['initialized'] event. *)
Lemma pass_before_launch (t : Standalone.DAPTester) (bodies : list string) :
  Standalone.stdout t = frames bodies ->
  Forall not_initialized bodies ->
  exists chunk bodies',
    Standalone.wire (snd (Standalone._read_messages_pass t)) = Standalone.wire t ++ chunk
    /\ (chunk = [] \/ exists m, chunk = [Standalone.Received m] /\ is_initialized m = false)
    /\ Standalone.stdout (snd (Standalone._read_messages_pass t)) = frames bodies'
    /\ Forall not_initialized bodies'.
Proof.
  intros Hout Hall.
  destruct (Standalone.running t) eqn:Hrun;
    [|unfold Standalone._read_messages_pass; rewrite Hrun;
      exists [], bodies; rewrite app_nil_r; auto].
  destruct Hall as [|body bodies (m & Hin & Hm) Hall].
  - unfold Standalone._read_messages_pass. rewrite Hrun, Hout.
    cbn [frames foldr]. rewrite read_nothing.
    exists [], []. rewrite app_nil_r. cbn [snd Standalone.set_stdout Standalone.wire
                                            Standalone.stdout frames foldr].
    auto.
  - change (frames (body :: bodies)) with (frame body +:+ frames bodies) in Hout.
    rewrite (pass_frame t body _ m Hrun Hout Hin).
    exists [Standalone.Received m], bodies.
    assert (Hmid : [Standalone.Received m] = []
                   \/ exists m0, [Standalone.Received m] = [Standalone.Received m0]
                                 /\ is_initialized m0 = false)
      by (right; eauto).
    destruct (Dict.truthy m);
      [|cbn [snd]; split; [reflexivity|]; split; [exact Hmid|];
        split; [reflexivity|assumption]].
    destruct (Standalone.handle_message m (Standalone.received t m (frames bodies)))
      as [t'|e] eqn:Hh;
      [|cbn [snd]; split; [reflexivity|]; split; [exact Hmid|];
        split; [reflexivity|assumption]].
    apply handle_other_wire in Hh as (Hw & _ & Ho); [|exact Hm].
    cbn [snd]. rewrite Hw, Ho. cbn [Standalone.received Standalone.wire Standalone.stdout].
    split; [reflexivity|]. split; [exact Hmid|]. split; [reflexivity|assumption].
Qed.

Lemma chunk_launch_written (chunk : list Standalone.io) :
  pass_chunk chunk -> launch_written chunk = false.
Proof. intros [->|[(m & -> & _)|(m & n & -> & _)]]; reflexivity. Qed.

Lemma invariant_pass (t : Standalone.DAPTester) :
  launch_invariant t -> launch_invariant (snd (Standalone._read_messages_pass t)).
Proof.
  intros [Hw Hp]. destruct (launch_written (Standalone.wire t)) eqn:Hl.
  - destruct (pass_wire t) as (chunk & Heq & Hc). split.
    + rewrite Heq. apply launch_comes_first_app; assumption.
    + rewrite Heq, launch_written_app, Hl. discriminate.
  - destruct (Hp eq_refl) as (bodies & Hout & Hall).
    destruct (pass_before_launch t bodies Hout Hall)
      as (chunk & bodies' & Heq & Hc & Hout' & Hall').
    split.
    + rewrite Heq. destruct Hc as [->|(m & -> & Hm)]; [rewrite app_nil_r; exact Hw|].
      apply launch_comes_first_snoc; [exact Hw|]. cbn [follows_initialized]. congruence.
    + intros _. eauto.
Qed.

Lemma invariant_step (l : Handshake.label) (s s' : Handshake.system A) :
  Handshake.step program_path A l s = Some s' ->
  launch_invariant (Handshake.tester s) ->
  launch_invariant (Handshake.tester s').
Proof.
  destruct l as [| | |choice]; cbn [Handshake.step].
  - apply invariant_main.
  - destruct (Handshake.pc s); try discriminate;
      intros [= <-]; apply invariant_same; reflexivity.
  - destruct (Handshake.reader s); [|discriminate].
    destruct (negb (Handshake.is_empty (Standalone.stdout (Handshake.tester s)))
              || negb (Standalone.running (Handshake.tester s))); [|discriminate].
    pose proof (invariant_pass (Handshake.tester s)) as Hpass.
    destruct (Standalone._read_messages_pass (Handshake.tester s)) as [lp t'].
    intros [= <-]. exact Hpass.
  - destruct (Standalone.running (Handshake.tester s)); [|discriminate].
    destruct (Handshake.areact A (Handshake.adapter_state s)
                (requests_sent (Standalone.wire (Handshake.tester s))) choice)
      as [[a body]|] eqn:Hreact; [|discriminate].
    intros [= <-] [Hw Hp]. split; [exact Hw|].
    cbn [Handshake.tester Standalone.set_stdout Standalone.wire Standalone.stdout].
    intros Hl. destruct (Hp Hl) as (bodies & -> & Hall).
    destruct (adapter_on_launch _ _ _ _ _ Hreact) as (m & Hin & Hm).
    exists (bodies ++ [body]). split; [apply frames_snoc|].
    apply Forall_app. split; [exact Hall|]. constructor; [|constructor].
    exists m. split; [exact Hin|].
    destruct (is_initialized m); [|reflexivity].
    unfold launch_written in Hl. rewrite Hm in Hl by reflexivity. discriminate.
Qed.

Lemma invariant_run (schedule : list Handshake.label) (s s' : Handshake.system A) :
  Handshake.run program_path A schedule s = Some s' ->
  launch_invariant (Handshake.tester s) ->
  launch_invariant (Handshake.tester s').
Proof.
  revert s. induction schedule as [|l later IH]; intros s; cbn [Handshake.run].
  - intros [= <-]. auto.
  - destruct (Handshake.step program_path A l s) as [s1|] eqn:Hstep; [|discriminate].
    intros Hrun Hinv. apply (IH s1 Hrun). eapply invariant_step; eassumption.
Qed.

End LaunchFirst.


Lemma plain_double_on_launch (launched : bool) :
  @initialized_on_launch MiniJson.codec (Handshake.plain_double launched).
Proof.
  intros a requests choice a' body.
  destruct choice as [|[|[|[|choice]]]]; cbn [Handshake.areact Handshake.plain_double
                                                Handshake.double]; try discriminate.
  - destruct (negb _ && _); [|discriminate]. intros [= _ <-].
    exists (response_to 1 "initialize" true).
    split; [split; vm_compute; reflexivity|discriminate].
  - destruct (Handshake.has_command requests "launch"); [|rewrite andb_false_r; discriminate].
    destruct (negb _ && _); [|discriminate]. intros [= _ <-].
    exists initialized_event. split; [split; vm_compute; reflexivity|reflexivity].
  - destruct (_ && negb _); [|discriminate]. intros [= _ <-].
    exists (response_to 2 "launch" launched).
    split; [split; destruct launched; vm_compute; reflexivity|discriminate].
  - destruct (negb _ && _); [|discriminate]. intros [= _ <-].
    exists (response_to 3 "configurationDone" true).
    split; [split; vm_compute; reflexivity|discriminate].
Qed.



(** * Properties of the code beyond the handshake *)

(** ** More about strings *)

Lemma string_snoc (s : string) :
  s <> EmptyString -> exists s0 d, s = s0 +:+ String d EmptyString.
Proof.
  induction s as [|c s IH]; [congruence|]. intros _.
  destruct s as [|c' s'].
  - exists EmptyString, c. reflexivity.
  - destruct IH as (s0 & d & Heq); [discriminate|].
    exists (String c s0), d. rewrite sapp_cons, <- Heq. reflexivity.
Qed.

Lemma contains_snoc_last (s0 : string) (d c : ascii) :
  Py.contains (s0 +:+ String d EmptyString) c = false -> d <> c.
Proof.
  rewrite contains_app. cbn [Py.contains]. intros [_ Hd]%orb_false_iff.
  rewrite orb_false_r in Hd. apply Ascii.eqb_neq. exact Hd.
Qed.

(** Bytes other than LF never end the header loop of [_read_message]. *)
Lemma read_header_no_lf (h p s : string) :
  Py.contains p Py.LF = false ->
  Standalone.read_header h (p +:+ s) = Standalone.read_header (h +:+ p) s.
Proof.
  revert h. induction p as [|c p IH]; intros h Hp.
  - rewrite sapp_nil_l, sapp_nil_r. reflexivity.
  - cbn [Py.contains] in Hp. apply orb_false_iff in Hp as [Hc Hp].
    rewrite sapp_cons. cbn [Standalone.read_header].
    rewrite endswith_snoc, Hc. cbn [andb]. rewrite IH by exact Hp.
    rewrite sapp_assoc. reflexivity.
Qed.

(** A line that is not empty and its CR LF do not end the header loop. *)
Lemma read_header_over_line (h line s : string) :
  line <> EmptyString ->
  Py.contains line Py.LF = false ->
  Standalone.read_header h (line +:+ Py.CRLF +:+ s)
  = Standalone.read_header (h +:+ line +:+ Py.CRLF) s.
Proof.
  intros Hne Hno.
  rewrite read_header_no_lf by exact Hno.
  destruct (string_snoc line Hne) as (l0 & d & ->).
  pose proof (contains_snoc_last l0 d Py.LF Hno) as Hd.
  change (Py.CRLF +:+ s) with (String Py.CR (String Py.LF s)).
  cbn [Standalone.read_header].
  rewrite endswith_snoc. change (Ascii.eqb Py.CR Py.LF) with false. cbn [andb].
  rewrite endswith_snoc. rewrite rev_snoc.
  rewrite <- sapp_assoc, rev_snoc.
  change (Ascii.eqb Py.LF Py.LF) with true. cbn [andb String.prefix].
  destruct (ascii_dec Py.CR Py.CR); [|congruence].
  destruct (ascii_dec Py.LF d) as [<-|_]; [congruence|].
  rewrite !sapp_assoc. reflexivity.
Qed.

(** The blank line after a line ends the header loop. *)
Lemma read_header_blank (h rest : string) :
  Standalone.read_header (h +:+ Py.CRLF) (Py.CRLF +:+ rest)
  = Some (h +:+ Py.CRLF +:+ Py.CRLF, rest).
Proof.
  change (Py.CRLF +:+ rest) with (String Py.CR (String Py.LF rest)).
  cbn [Standalone.read_header].
  rewrite endswith_snoc. change (Ascii.eqb Py.CR Py.LF) with false. cbn [andb].
  rewrite endswith_snoc. change (Ascii.eqb Py.LF Py.LF) with true. cbn [andb].
  change (h +:+ Py.CRLF) with (h +:+ String Py.CR (String Py.LF EmptyString)).
  replace ((h +:+ String Py.CR (String Py.LF EmptyString)) +:+ String Py.CR EmptyString)
    with (((h +:+ String Py.CR EmptyString) +:+ String Py.LF EmptyString)
            +:+ String Py.CR EmptyString)
    by (rewrite !sapp_assoc; reflexivity).
  rewrite !rev_snoc. cbn [String.prefix].
  destruct (ascii_dec Py.CR Py.CR); [|congruence].
  destruct (ascii_dec Py.LF Py.LF); [|congruence].
  destruct (String.rev h); rewrite !sapp_assoc; reflexivity.
Qed.

Lemma header_block_cons (line : string) (lines : list string) :
  header_block (line :: lines) = line +:+ Py.CRLF +:+ header_block lines.
Proof. reflexivity. Qed.

(** The header loop of [_read_message] reads a block of plain lines to the
    end of its blank line. *)
Lemma read_header_block (h : string) (lines : list string) (rest : string) :
  lines <> [] ->
  Forall plain_line lines ->
  Standalone.read_header h (header_block lines +:+ rest)
  = Some (h +:+ header_block lines, rest).
Proof.
  intros Hne Hall. revert h. induction Hall as [|line lines (Hl & _ & _ & Hlf) Hall IH];
    intros h; [congruence|].
  rewrite header_block_cons, !sapp_assoc.
  rewrite read_header_over_line by assumption.
  destruct lines as [|line' lines'].
  - cbn [header_block foldr]. rewrite <- sapp_assoc, read_header_blank.
    rewrite !sapp_assoc. reflexivity.
  - rewrite IH by discriminate. rewrite !sapp_assoc. reflexivity.
Qed.

Lemma split_crlf_at (t : string) :
  Py.split_from Py.CRLF 0 (Py.CRLF +:+ t) = EmptyString :: Py.split_from Py.CRLF 0 t.
Proof.
  change (Py.CRLF +:+ t) with (String Py.CR (String Py.LF t)).
  unfold Py.CRLF. cbn [Py.split_from String.prefix String.length Nat.sub].
  destruct (ascii_dec Py.CR Py.CR); [|congruence].
  destruct (ascii_dec Py.LF Py.LF); [|congruence].
  destruct t; reflexivity.
Qed.

Lemma split_line_crlf (line t : string) :
  Py.contains line Py.CR = false ->
  Py.split_from Py.CRLF 0 (line +:+ Py.CRLF +:+ t) = line :: Py.split_from Py.CRLF 0 t.
Proof.
  intros Hno. unfold Py.CRLF at 1.
  rewrite split_from_app by exact Hno.
  change (String Py.CR (String Py.LF EmptyString)) with Py.CRLF.
  rewrite split_crlf_at, sapp_nil_r. reflexivity.
Qed.

(** [header_str.split('\r\n')] on a block of plain lines: the lines, and two
    empty texts for the blank line. *)
Lemma split_header_block (lines : list string) :
  Forall plain_line lines ->
  Py.split (header_block lines) Py.CRLF = lines ++ [EmptyString; EmptyString].
Proof.
  unfold Py.split. induction 1 as [|line lines (_ & _ & Hcr & _) _ IH]; [reflexivity|].
  rewrite header_block_cons, split_line_crlf by exact Hcr. rewrite IH. reflexivity.
Qed.

Lemma header_block_ascii (lines : list string) :
  Forall plain_line lines -> Py.is_ascii (header_block lines) = true.
Proof.
  induction 1 as [|line lines (_ & Ha & _) _ IH]; [reflexivity|].
  rewrite header_block_cons, !is_ascii_app, Ha, IH. reflexivity.
Qed.

(** The line [Content-Length: n], as the [for ... else] of [_read_message]
    reads it. *)
Lemma content_length_of_line (n : nat) (text : string) (more : list string) :
  Standalone.content_length_of text (header_line_of n :: more) = Return (Z.of_nat n).
Proof.
  cbn [Standalone.content_length_of].
  assert (Py.startswith (header_line_of n) "Content-Length:" = true) as ->
    by reflexivity.
  assert (Py.split (header_line_of n) ":" =
          ["Content-Length"%string; String " " (Py.str (Z.of_nat n))]) as ->.
  { unfold Py.split, header_line_of.
    change ("Content-Length: " +:+ Py.str (Z.of_nat n))
      with ("Content-Length" +:+ String ":" (String " " (Py.str (Z.of_nat n)))).
    rewrite split_from_app by reflexivity.
    assert (Py.split_from ":" 0 (String ":" (String " " (Py.str (Z.of_nat n)))) =
            [EmptyString; String " " (Py.str (Z.of_nat n))]) as ->.
    { rewrite split_from_at_sep. f_equal.
      change (Py.split_from ":" 0 (String " " (Py.str (Z.of_nat n))))
        with (Py.split (String " " (Py.str (Z.of_nat n))) ":").
      apply split_no_sep. cbn [Py.contains]. change (Ascii.eqb " " ":") with false.
      destruct (str_nat_digits n) as (u & _ & -> & _).
      apply all_digits_no; auto using all_digits_string_of_uint. }
    cbv beta iota. rewrite sapp_nil_r. reflexivity. }
  destruct (str_nat_digits n) as (u & Hu & Hstr & _).
  rewrite strip_space_digits
    by (rewrite Hstr; auto using all_digits_string_of_uint, string_of_uint_nonempty).
  apply int_str_nat.
Qed.

Lemma content_length_of_skip (text : string) (before more : list string) :
  Forall (fun line => Py.startswith line "Content-Length:" = false) before ->
  Standalone.content_length_of text (before ++ more)
  = Standalone.content_length_of text more.
Proof.
  induction 1 as [|line lines Hline _ IH]; [reflexivity|].
  cbn [app Standalone.content_length_of]. rewrite Hline. exact IH.
Qed.

Lemma header_line_of_plain (n : nat) : plain_line (header_line_of n).
Proof.
  split; [|split; [|split]].
  - unfold header_line_of. discriminate.
  - apply header_line_of_ascii.
  - apply header_line_of_clean; reflexivity.
  - apply header_line_of_clean; reflexivity.
Qed.

Section HeaderBlocks.
Context `{JsonCodec} `{PathLib}.

(** X1. A header may hold other lines: [_read_message] skips the lines before
    the first [Content-Length:] line and ignores those after it, then reads
    the body that this line announces, when that body has arrived: the pipe
    holds at least as many bytes as the line announces when the body is
    read. *)
Theorem first_content_length_line_decides
  (before after : list string) (body rest : string) (arrived : nat) :
  Forall plain_line before ->
  Forall plain_line after ->
  Forall (fun line => Py.startswith line "Content-Length:" = false) before ->
  (String.length body <= arrived)%nat ->
  Standalone._read_message_arrived arrived
    (header_block (before ++ header_line_of (String.length body) :: after) +:+ body +:+ rest)
  = (text ← Py.decode body; message ← json_loads text; mret (Some message), rest).
Proof.
  intros Hb Ha Hskip Harrived.
  assert (Hall : Forall plain_line (before ++ header_line_of (String.length body) :: after)).
  { apply Forall_app. split; [exact Hb|]. constructor; [apply header_line_of_plain|exact Ha]. }
  unfold Standalone._read_message_arrived.
  rewrite read_header_block; [|destruct before; discriminate|exact Hall].
  rewrite sapp_nil_l.
  rewrite decode_ascii by (apply header_block_ascii; exact Hall).
  run_bind. rewrite split_header_block by exact Hall.
  rewrite <- app_assoc, content_length_of_skip by exact Hskip.
  cbn [app]. rewrite content_length_of_line, raw_read_arrived_app by exact Harrived.
  reflexivity.
Qed.

(** X2. A header block without a [Content-Length:] line: [_read_message]
    raises [ValueError] once the blank line is read, no byte after it is
    consumed, and the reader loop ends there: however many passes it is
    given, what the adapter wrote after the block stays unread and the
    tester keeps the events and responses it had. *)
Theorem header_without_content_length_ends_reader
  (t : Standalone.DAPTester) (lines : list string) (rest : string) (passes : nat) :
  lines <> [] ->
  Forall plain_line lines ->
  Forall (fun line => Py.startswith line "Content-Length:" = false) lines ->
  Standalone.running t = true ->
  Standalone.stdout t = header_block lines +:+ rest ->
  Standalone._read_message (Standalone.stdout t)
  = (Raise (ValueError ("No Content-Length in header: " +:+ header_block lines)), rest)
  /\ Standalone._read_messages (S passes) t
     = (Standalone.Break, Standalone.set_stdout t rest).
Proof.
  intros Hne Hall Hskip Hrun Hout.
  assert (Hread : Standalone._read_message (Standalone.stdout t)
                  = (Raise (ValueError ("No Content-Length in header: "
                                          +:+ header_block lines)), rest)).
  { rewrite Hout. apply read_message_absent.
    - rewrite read_header_block by assumption. reflexivity.
    - apply decode_ascii, header_block_ascii. exact Hall.
    - rewrite split_header_block by exact Hall.
      apply Forall_app. split; [exact Hskip|]. repeat constructor. }
  split; [exact Hread|].
  cbn [Standalone._read_messages]. unfold Standalone._read_messages_pass.
  rewrite Hrun, Hread. reflexivity.
Qed.

End HeaderBlocks.

Lemma string_snoc_or (s : string) :
  s = EmptyString \/ exists s0 d, s = s0 +:+ String d EmptyString.
Proof.
  destruct s as [|c s]; [left; reflexivity|right].
  apply string_snoc. discriminate.
Qed.

Lemma prefix_cons_inv (c : ascii) (p s : string) :
  String.prefix (String c p) s = true -> exists s', s = String c s' /\ String.prefix p s' = true.
Proof.
  destruct s as [|a s]; cbn [String.prefix]; [discriminate|].
  destruct (ascii_dec c a) as [<-|]; [|discriminate]. eauto.
Qed.

Lemma rev_cons_inv (s : string) (c : ascii) (r : string) :
  String.rev s = String c r -> exists s0, s = s0 +:+ String c EmptyString /\ String.rev s0 = r.
Proof.
  destruct (string_snoc_or s) as [->|(s0 & d & ->)]; [discriminate|].
  rewrite rev_snoc. intros [= -> <-]. eauto.
Qed.

(** [header.endswith(b'\r\n\r\n')] holds of the texts that end with the
    blank line only. *)
Lemma endswith_blank (x : string) :
  Py.endswith x Py.CRLFCRLF = true -> exists pre, x = pre +:+ Py.CRLFCRLF.
Proof.
  unfold Py.endswith.
  change (String.rev Py.CRLFCRLF)
    with (String Py.LF (String Py.CR (String Py.LF (String Py.CR EmptyString)))).
  intros (r1 & H1 & (r2 & -> & (r3 & -> & (r4 & -> & _)%prefix_cons_inv)%prefix_cons_inv)%prefix_cons_inv)%prefix_cons_inv.
  apply rev_cons_inv in H1 as (x1 & -> & H1).
  apply rev_cons_inv in H1 as (x2 & -> & H1).
  apply rev_cons_inv in H1 as (x3 & -> & H1).
  apply rev_cons_inv in H1 as (x4 & -> & H1).
  exists x4. rewrite !sapp_assoc. reflexivity.
Qed.

Lemma read_header_some (h s h' rest : string) :
  Standalone.read_header h s = Some (h', rest) ->
  exists p, s = p +:+ rest /\ h' = h +:+ p /\ Py.endswith h' Py.CRLFCRLF = true.
Proof.
  revert h. induction s as [|c s IH]; intros h; cbn [Standalone.read_header]; [discriminate|].
  destruct (Py.endswith (h +:+ String c EmptyString) Py.CRLFCRLF) eqn:He.
  - intros [= <- <-]. exists (String c EmptyString). repeat split. exact He.
  - intros (p & -> & -> & Hend)%IH. exists (String c p).
    rewrite sapp_assoc in *. repeat split. exact Hend.
Qed.

Lemma prefix_app (p s : string) : String.prefix p (p +:+ s) = true.
Proof.
  induction p as [|c p IH]; [destruct s; reflexivity|].
  rewrite sapp_cons. cbn [String.prefix]. destruct (ascii_dec c c); [exact IH|congruence].
Qed.

Lemma contains_str_app (pre sub post : string) :
  Py.contains_str (pre +:+ sub +:+ post) sub = true.
Proof.
  induction pre as [|c pre IH].
  - rewrite sapp_nil_l. destruct (sub +:+ post) eqn:E; cbn [Py.contains_str];
      rewrite <- E, prefix_app; reflexivity.
  - rewrite sapp_cons. cbn [Py.contains_str]. rewrite IH. apply orb_true_r.
Qed.

(** The test [Py.contains_str], run on a stream, settles [no_blank_line]. *)
Lemma no_blank_line_by_search (stream : string) :
  Py.contains_str stream Py.CRLFCRLF = false -> no_blank_line stream.
Proof. intros Hs pre post ->. rewrite contains_str_app in Hs. discriminate. Qed.

Section StreamEnds.
Context `{JsonCodec} `{PathLib}.

(** X3. When the stream ends before a blank line has come, [_read_message]
    raises nothing: it returns [None] and the bytes it read are gone.  The
    pass of the reader loop that made the call goes on to the next test of
    the loop. *)
Theorem header_cut_short_is_dropped (t : Standalone.DAPTester) :
  no_blank_line (Standalone.stdout t) ->
  Standalone._read_message (Standalone.stdout t) = (Return None, EmptyString)
  /\ (Standalone.running t = true ->
      Standalone._read_messages_pass t
      = (Standalone.Continue, Standalone.set_stdout t EmptyString)).
Proof.
  intros Hno.
  assert (Hread : Standalone._read_message (Standalone.stdout t) = (Return None, EmptyString)).
  { unfold Standalone._read_message.
    destruct (Standalone.read_header EmptyString (Standalone.stdout t)) as [[h' rest]|] eqn:Hh;
      [|reflexivity].
    apply read_header_some in Hh as (p & Hs & -> & Hend).
    rewrite sapp_nil_l in Hend. apply endswith_blank in Hend as (pre & ->).
    destruct (Hno pre rest). rewrite Hs, !sapp_assoc. reflexivity. }
  split; [exact Hread|].
  intros Hrun. unfold Standalone._read_messages_pass. rewrite Hrun, Hread. reflexivity.
Qed.

Lemma set_stdout_same (t : Standalone.DAPTester) :
  Standalone.set_stdout t (Standalone.stdout t) = t.
Proof. destruct t. reflexivity. Qed.

(** X4. At the end of the stream the reader loop does not leave: as long as
    [running] holds, every pass finds nothing and changes nothing.  It leaves
    at the first test of the loop after [shutdown], without reading. *)
Theorem reader_loop_at_end_of_stream (t : Standalone.DAPTester) (passes : nat) :
  Standalone.stdout t = EmptyString ->
  (Standalone.running t = true ->
   Standalone._read_messages passes t = (Standalone.Continue, t))
  /\ Standalone._read_messages (S passes) (Standalone.shutdown t)
     = (Standalone.Break, Standalone.shutdown t).
Proof.
  intros Hout. split; [|reflexivity].
  intros Hrun. induction passes as [|n IH]; [reflexivity|].
  cbn [Standalone._read_messages]. unfold Standalone._read_messages_pass.
  rewrite Hrun, Hout. cbn [Standalone._read_message Standalone.read_header].
  rewrite <- Hout, set_stdout_same. exact IH.
Qed.

End StreamEnds.

(** ** [strip] *)

Lemma rstrip_cons_nonspace (c : ascii) (s : string) :
  Py.isspace c = false -> Py.rstrip (String c s) = String c (Py.rstrip s).
Proof. intros Hc. cbn [Py.rstrip]. rewrite Hc. destruct (Py.rstrip s); reflexivity. Qed.

Lemma lstrip_idem (s : string) : Py.lstrip (Py.lstrip s) = Py.lstrip s.
Proof.
  induction s as [|c s IH]; [reflexivity|].
  cbn [Py.lstrip]. destruct (Py.isspace c) eqn:Hc; [exact IH|].
  cbn [Py.lstrip]. rewrite Hc. reflexivity.
Qed.

Lemma rstrip_all_space (w : string) : all_space w = true -> Py.rstrip w = EmptyString.
Proof.
  induction w as [|c w IH]; [reflexivity|].
  cbn [all_space]. intros [Hc Hw]%andb_true_iff.
  cbn [Py.rstrip]. rewrite (IH Hw), Hc. reflexivity.
Qed.

Lemma lstrip_all_space (w : string) : all_space w = true -> Py.lstrip w = EmptyString.
Proof.
  induction w as [|c w IH]; [reflexivity|].
  cbn [all_space]. intros [Hc Hw]%andb_true_iff.
  cbn [Py.lstrip]. rewrite Hc. exact (IH Hw).
Qed.

Lemma rstrip_app_space (s w : string) :
  all_space w = true -> Py.rstrip (s +:+ w) = Py.rstrip s.
Proof.
  intros Hw. induction s as [|c s IH].
  - rewrite sapp_nil_l. apply rstrip_all_space. exact Hw.
  - rewrite sapp_cons. cbn [Py.rstrip]. rewrite IH. reflexivity.
Qed.

Lemma rstrip_empty_all_space (s : string) :
  Py.rstrip s = EmptyString -> all_space s = true.
Proof.
  induction s as [|c s IH]; [reflexivity|].
  cbn [Py.rstrip all_space].
  destruct (Py.rstrip s); [|discriminate].
  destruct (Py.isspace c); [|discriminate]. intros _. apply IH. reflexivity.
Qed.

Lemma rstrip_idem (s : string) : Py.rstrip (Py.rstrip s) = Py.rstrip s.
Proof.
  induction s as [|c s IH]; [reflexivity|].
  cbn [Py.rstrip]. destruct (Py.rstrip s) as [|d r] eqn:Hr.
  - destruct (Py.isspace c) eqn:Hc; [reflexivity|].
    cbn [Py.rstrip]. rewrite Hc. reflexivity.
  - cbn [Py.rstrip]. cbn [Py.rstrip] in IH. rewrite IH. reflexivity.
Qed.

Lemma lstrip_rstrip (s : string) : Py.lstrip (Py.rstrip s) = Py.rstrip (Py.lstrip s).
Proof.
  induction s as [|c s IH]; [reflexivity|].
  destruct (Py.isspace c) eqn:Hc.
  - cbn [Py.lstrip]. rewrite Hc, <- IH. cbn [Py.rstrip]. rewrite Hc.
    destruct (Py.rstrip s); [reflexivity|].
    cbn [Py.lstrip]. rewrite Hc. reflexivity.
  - cbn [Py.lstrip]. rewrite Hc. rewrite rstrip_cons_nonspace by exact Hc.
    cbn [Py.lstrip]. rewrite Hc. reflexivity.
Qed.

Lemma lstrip_app_nonspace (k : string) (c : ascii) (v : string) :
  Py.isspace c = false ->
  Py.lstrip (k +:+ String c v) = Py.lstrip k +:+ String c v.
Proof.
  intros Hc. induction k as [|a k IH].
  - rewrite !sapp_nil_l. cbn [Py.lstrip]. rewrite Hc. reflexivity.
  - rewrite sapp_cons. cbn [Py.lstrip]. destruct (Py.isspace a); [exact IH|reflexivity].
Qed.

Lemma rstrip_app_nonspace (k : string) (c : ascii) (v : string) :
  Py.isspace c = false ->
  Py.rstrip (k +:+ String c v) = k +:+ String c (Py.rstrip v).
Proof.
  intros Hc. rewrite rstrip_app; rewrite rstrip_cons_nonspace by exact Hc;
    [reflexivity|discriminate].
Qed.

Lemma contains_lstrip (k : string) (c : ascii) :
  Py.contains k c = false -> Py.contains (Py.lstrip k) c = false.
Proof.
  induction k as [|a k IH]; [reflexivity|].
  cbn [Py.contains Py.lstrip]. intros [Ha Hk]%orb_false_iff.
  destruct (Py.isspace a); [exact (IH Hk)|].
  cbn [Py.contains]. rewrite Ha, Hk. reflexivity.
Qed.

Lemma split1_at (k v : string) (c : ascii) :
  Py.contains k c = false ->
  Py.split1 (k +:+ String c v) c = [k; v].
Proof.
  induction k as [|a k IH].
  - intros _. rewrite sapp_nil_l. cbn [Py.split1]. rewrite Ascii.eqb_refl. reflexivity.
  - cbn [Py.contains]. intros [Ha Hk]%orb_false_iff.
    rewrite sapp_cons. cbn [Py.split1]. rewrite Ha, (IH Hk). reflexivity.
Qed.

Lemma strip_lstrip (s : string) : Py.strip (Py.lstrip s) = Py.strip s.
Proof. unfold Py.strip. rewrite lstrip_idem. reflexivity. Qed.

Lemma strip_rstrip (s : string) : Py.strip (Py.rstrip s) = Py.strip s.
Proof. unfold Py.strip. rewrite lstrip_rstrip, rstrip_idem. reflexivity. Qed.

Lemma strip_app_space (s w : string) :
  all_space w = true -> Py.strip (s +:+ w) = Py.strip s.
Proof.
  intros Hw. rewrite <- strip_rstrip, rstrip_app_space by exact Hw.
  apply strip_rstrip.
Qed.

(** The first colon of a text that has one. *)
Lemma contains_split (s : string) (c : ascii) :
  Py.contains s c = true ->
  exists k v, s = k +:+ String c v /\ Py.contains k c = false.
Proof.
  induction s as [|a s IH]; [discriminate|].
  cbn [Py.contains]. destruct (Ascii.eqb a c) eqn:Ha.
  - intros _. apply Ascii.eqb_eq in Ha as ->. exists EmptyString, s. split; reflexivity.
  - intros (k & v & -> & Hk)%IH. exists (String a k), v. split; [reflexivity|].
    cbn [Py.contains]. rewrite Ha, Hk. reflexivity.
Qed.

(** The loop body of the header loops on a line [key: value]. *)
Lemma header_line_field (k v : string) (headers : gmap string string) :
  Py.contains k ":" = false ->
  CorrectSequence.header_line (k +:+ String ":" v) headers
  = Return (<[Py.strip k := Py.strip v]> headers).
Proof.
  intros Hk. unfold CorrectSequence.header_line.
  rewrite contains_app. cbn [Py.contains]. change (Ascii.eqb ":" ":") with true.
  rewrite orb_true_r. cbn [orb].
  unfold Py.strip at 1.
  rewrite lstrip_app_nonspace, rstrip_app_nonspace by reflexivity.
  rewrite split1_at by (apply contains_lstrip; exact Hk).
  rewrite strip_lstrip, strip_rstrip. reflexivity.
Qed.

(** X5. The loop body of the header loops never raises: a line with a colon is
    split at its first colon into exactly a key and a value, both filed
    stripped, so that the value may hold colons; a line without a colon
    leaves the headers as they are. *)
Theorem header_line_files_key_and_value (line : string) (headers : gmap string string) :
  (exists headers', CorrectSequence.header_line line headers = Return headers')
  /\ (Py.contains line ":" = false ->
      CorrectSequence.header_line line headers = Return headers)
  /\ (forall k v,
        line = k +:+ String ":" v ->
        Py.contains k ":" = false ->
        Py.is_ascii line = true ->
        CorrectSequence.header_line line headers
        = Return (<[Py.strip k := Py.strip v]> headers)).
Proof.
  split; [|split].
  - destruct (Py.contains line ":") eqn:Hc.
    + apply contains_split in Hc as (k & v & -> & Hk).
      rewrite header_line_field by exact Hk. eauto.
    + unfold CorrectSequence.header_line. rewrite Hc. eauto.
  - intros Hc. unfold CorrectSequence.header_line. rewrite Hc. reflexivity.
  - intros k v -> Hk _. apply header_line_field. exact Hk.
Qed.

(** ** The header loops of the sequence scripts *)

Lemma all_space_crlf : all_space Py.CRLF = true.
Proof. reflexivity. Qed.

Lemma field_line_text (kv : string * string) :
  plain_field kv ->
  let text := field_line kv +:+ Py.CRLF in
  Py.decode text = Return text
  /\ String.eqb text Py.CRLF || String.eqb text (String Py.LF EmptyString) = false
  /\ Py.contains (field_line kv +:+ String Py.CR EmptyString) Py.LF = false
  /\ forall headers,
       CorrectSequence.header_line text headers
       = Return (<[Py.strip (fst kv) := Py.strip (snd kv)]> headers).
Proof.
  destruct kv as [k v]. intros (Hka & Hva & Hkc & Hkl & Hvl). cbn [fst snd] in *.
  cbn zeta. unfold field_line. cbn [fst snd].
  split; [|split; [|split]].
  - apply decode_ascii. rewrite !is_ascii_app. cbn [Py.is_ascii]. rewrite Hka, Hva. reflexivity.
  - assert (Hc : Py.contains ((k +:+ String ":" v) +:+ Py.CRLF) ":" = true).
    { rewrite !contains_app. cbn [Py.contains]. change (Ascii.eqb ":" ":") with true.
      rewrite orb_true_r. reflexivity. }
    apply orb_false_iff. split; apply String.eqb_neq; intros Heq; rewrite Heq in Hc;
      discriminate.
  - rewrite !contains_app. cbn [Py.contains]. rewrite Hkl, Hvl. reflexivity.
  - intros headers. rewrite sapp_assoc, sapp_cons.
    rewrite header_line_field by exact Hkc.
    rewrite strip_app_space by reflexivity. reflexivity.
Qed.

Lemma fields_block_cons (kv : string * string) (fields : list (string * string)) (rest : string) :
  header_block (map field_line (kv :: fields)) +:+ rest
  = (field_line kv +:+ String Py.CR EmptyString)
      +:+ String Py.LF (header_block (map field_line fields) +:+ rest).
Proof. cbn [map]. rewrite header_block_cons, !sapp_assoc. reflexivity. Qed.

Lemma readline_line (s rest : string) :
  Py.contains s Py.LF = false ->
  Stream.readline (s +:+ String Py.LF rest) = (s +:+ String Py.LF EmptyString, rest).
Proof.
  induction s as [|c s IH].
  - intros _. reflexivity.
  - cbn [Py.contains]. intros [Hc Hs]%orb_false_iff.
    rewrite !sapp_cons. cbn [Stream.readline]. rewrite Hc, (IH Hs). reflexivity.
Qed.

Lemma header_loops_fields
  (fields : list (string * string)) (headers : gmap string string) (rest : string) :
  Forall plain_field fields ->
  let stream := header_block (map field_line fields) +:+ rest in
  CorrectSequence.read_headers EmptyString headers stream
  = (Return (headers_of fields headers), rest)
  /\ LaunchSequence.read_headers EmptyString headers stream
     = (Return (Some (headers_of fields headers)), rest)
  /\ forall passes, (length fields < passes)%nat ->
       DebugpyManual.read_headers passes headers stream
       = Some (Return (headers_of fields headers), rest).
Proof.
  intros Hall. cbn zeta. revert headers.
  induction Hall as [|kv fields Hkv Hall IH]; intros headers.
  - cbn [map header_block foldr headers_of fold_left length].
    split; [reflexivity|]. split; [reflexivity|].
    intros [|n] Hn; [lia|]. reflexivity.
  - destruct (field_line_text kv Hkv) as (Hdec & Hblank & Hno & Hfile).
    cbn zeta in *.
    assert (Htext : EmptyString +:+ (field_line kv +:+ String Py.CR EmptyString)
                    +:+ String Py.LF EmptyString = field_line kv +:+ Py.CRLF).
    { rewrite sapp_nil_l, sapp_assoc. reflexivity. }
    assert (Htext' : (field_line kv +:+ String Py.CR EmptyString)
                     +:+ String Py.LF EmptyString = field_line kv +:+ Py.CRLF).
    { rewrite sapp_assoc. reflexivity. }
    rewrite fields_block_cons.
    destruct (IH (<[Py.strip (fst kv) := Py.strip (snd kv)]> headers)) as (IH1 & IH2 & IH3).
    split; [|split].
    + rewrite read_headers_line by exact Hno.
      rewrite Htext, Hdec, Hblank, Hfile. exact IH1.
    + rewrite launch_read_headers_line by exact Hno.
      rewrite Htext, Hdec, Hblank, Hfile. exact IH2.
    + intros [|n] Hn; [cbn in Hn; lia|].
      cbn [DebugpyManual.read_headers]. rewrite readline_line by exact Hno.
      rewrite Htext', Hdec.
      apply orb_false_iff in Hblank as [-> _]. rewrite Hfile.
      apply IH3. cbn [length] in Hn. lia.
Qed.

(** X6. The header loops of the three scripts that read line by line file a
    block of plain [key: value] lines as a [dict]: each field under its
    stripped key with its stripped value, a later field replacing an earlier
    one with the same key; the loop stops after the blank line.  The loop of
    test_debugpy_manual.py needs one pass for each line and one for the blank
    line. *)
Theorem header_loops_file_the_fields
  (fields : list (string * string)) (headers : gmap string string) (rest : string) :
  Forall plain_field fields ->
  let stream := header_block (map field_line fields) +:+ rest in
  CorrectSequence.read_headers EmptyString headers stream
  = (Return (headers_of fields headers), rest)
  /\ LaunchSequence.read_headers EmptyString headers stream
     = (Return (Some (headers_of fields headers)), rest)
  /\ forall passes, (length fields < passes)%nat ->
       DebugpyManual.read_headers passes headers stream
       = Some (Return (headers_of fields headers), rest).
Proof. apply header_loops_fields. Qed.

Lemma headers_of_snoc (fields : list (string * string)) (kv : string * string)
  (headers : gmap string string) :
  headers_of (fields ++ [kv]) headers
  = <[Py.strip (fst kv) := Py.strip (snd kv)]> (headers_of fields headers).
Proof. unfold headers_of. rewrite fold_left_app. reflexivity. Qed.

Lemma headers_of_other (fields : list (string * string)) (key : string)
  (headers : gmap string string) :
  Forall (fun kv => Py.strip (fst kv) <> key) fields ->
  headers_of fields headers !! key = headers !! key.
Proof.
  intros Hall. revert headers. induction Hall as [|kv fields Hkv _ IH]; intros headers;
    [reflexivity|].
  cbn [headers_of fold_left]. change (fold_left _ fields ?h) with (headers_of fields h).
  rewrite IH. apply lookup_insert_ne. exact Hkv.
Qed.

Lemma content_length_field (n : nat) :
  plain_field ("Content-Length"%string, String " " (Py.str (Z.of_nat n)))
  /\ field_line ("Content-Length"%string, String " " (Py.str (Z.of_nat n))) = header_line_of n
  /\ Py.strip (String " " (Py.str (Z.of_nat n))) = Py.str (Z.of_nat n).
Proof.
  destruct (str_nat_digits n) as (u & Hu & Hstr & _).
  assert (Hd : Py.all_digits (Py.str (Z.of_nat n)) = true)
    by (rewrite Hstr; apply all_digits_string_of_uint).
  assert (Hne : Py.str (Z.of_nat n) <> EmptyString)
    by (rewrite Hstr; apply string_of_uint_nonempty, Hu).
  split; [|split; [reflexivity|apply strip_space_digits; assumption]].
  unfold plain_field. cbn [fst snd Py.is_ascii Py.contains].
  rewrite all_digits_ascii by exact Hd.
  rewrite all_digits_no by (exact Hd || reflexivity).
  repeat split.
Qed.

Section SequenceHeaders.
Context `{JsonCodec}.

(** [read_message] of test_debugpy_manual.py on a stream that starts with a
    frame: two passes of the header loop are enough. *)
Lemma manual_read_frame (passes : nat) (body rest : string) :
  (1 < passes)%nat ->
  DebugpyManual.read_message passes (frame body +:+ rest)
  = Some (text ← Py.decode body; msg ← json_loads text; mret msg, rest).
Proof.
  intros Hp. unfold DebugpyManual.read_message.
  destruct (content_length_field (String.length body)) as (Hplain & Hline & Hstrip).
  pose proof (header_loops_fields
                [("Content-Length"%string, String " " (Py.str (Z.of_nat (String.length body))))]
                ∅ (body +:+ rest) ltac:(constructor; [exact Hplain|constructor])) as (_ & _ & Hm).
  cbn zeta in Hm. cbn [map] in Hm. rewrite Hline in Hm.
  change (header_block [header_line_of (String.length body)])
    with (header_line_of (String.length body) +:+ Py.CRLF +:+ Py.CRLF) in Hm.
  rewrite frame_eq, !sapp_assoc. rewrite !sapp_assoc in Hm.
  change (Py.CRLFCRLF +:+ body +:+ rest) with (Py.CRLF +:+ Py.CRLF +:+ body +:+ rest).
  rewrite Hm by (cbn [length]; lia).
  cbn [headers_of fold_left fst snd]. rewrite Hstrip.
  change (Py.strip "Content-Length") with "Content-Length"%string.
  rewrite content_length_frame, buffered_read_app. reflexivity.
Qed.

(** X7. Header fields before the [Content-Length] line change nothing for
    the [read_message] of the three scripts that read line by line: the
    stream is read as the plain frame is, whatever the earlier fields hold,
    an earlier [Content-Length] included: the last one is the one that
    counts. *)
Theorem last_content_length_field_decides
  (fields : list (string * string)) (body rest : string) :
  Forall plain_field fields ->
  let stream :=
    header_block (map field_line fields ++ [header_line_of (String.length body)])
      +:+ body +:+ rest in
  CorrectSequence.read_message_try stream
  = CorrectSequence.read_message_try (frame body +:+ rest)
  /\ LaunchSequence.read_message_try stream
     = LaunchSequence.read_message_try (frame body +:+ rest)
  /\ DebugpyManual.read_message (2 + length fields) stream
     = DebugpyManual.read_message 2 (frame body +:+ rest).
Proof.
  intros Hall. cbn zeta.
  destruct (content_length_field (String.length body)) as (Hplain & Hline & Hstrip).
  set (cl := ("Content-Length"%string, String " " (Py.str (Z.of_nat (String.length body))))) in *.
  assert (Hall' : Forall plain_field (fields ++ [cl]))
    by (apply Forall_app; split; [exact Hall|constructor; [exact Hplain|constructor]]).
  pose proof (header_loops_fields (fields ++ [cl]) ∅ (body +:+ rest) Hall')
    as (H1 & H2 & H3).
  cbn zeta in H1, H2, H3. rewrite map_app in H1, H2, H3. cbn [map] in H1, H2, H3.
  rewrite Hline in H1, H2, H3.
  rewrite headers_of_snoc in H1, H2, H3. subst cl. cbn [fst snd] in H1, H2, H3.
  rewrite Hstrip in H1, H2, H3.
  change (Py.strip "Content-Length") with "Content-Length"%string in H1, H2, H3.
  assert (Hlen : forall h : gmap string string,
             CorrectSequence.content_length
               (<["Content-Length"%string := Py.str (Z.of_nat (String.length body))]> h)
             = Return (Z.of_nat (String.length body))).
  { intros h. unfold CorrectSequence.content_length. rewrite lookup_insert_eq.
    apply int_str_nat. }
  split; [|split].
  - rewrite correct_read_frame. unfold CorrectSequence.read_message_try.
    rewrite H1, Hlen, buffered_read_app. reflexivity.
  - rewrite launch_read_frame. unfold LaunchSequence.read_message_try.
    rewrite H2, Hlen, buffered_read_app. reflexivity.
  - rewrite manual_read_frame by lia. unfold DebugpyManual.read_message.
    rewrite H3 by (rewrite length_app; cbn [length]; lia).
    rewrite Hlen, buffered_read_app. reflexivity.
Qed.

(** X8. A header block in which no field is filed under [Content-Length]:
    the three scripts take the length to be 0, read no byte after the blank
    line and hand the empty text to [json.loads].  When [json.loads] refuses
    it, [read_message] of test_correct_sequence.py and of
    test_launch_sequence.py return [None], the exception leaves the one of
    test_debugpy_manual.py, and the body is still in the stream. *)
Theorem no_content_length_field_reads_no_body
  (fields : list (string * string)) (rest : string) (e : exn) :
  Forall plain_field fields ->
  Forall (fun kv => Py.strip (fst kv) <> "Content-Length"%string) fields ->
  json_loads EmptyString = Raise e ->
  let stream := header_block (map field_line fields) +:+ rest in
  CorrectSequence.read_message true stream = (None, rest)
  /\ LaunchSequence.read_message true stream = (None, rest)
  /\ DebugpyManual.read_message (1 + length fields) stream = Some (Raise e, rest).
Proof.
  intros Hall Hkeys Hloads. cbn zeta.
  pose proof (header_loops_fields fields ∅ rest Hall) as (H1 & H2 & H3).
  cbn zeta in H1, H2, H3.
  assert (Hlen : CorrectSequence.content_length (headers_of fields ∅) = Return 0).
  { unfold CorrectSequence.content_length.
    rewrite headers_of_other by exact Hkeys. rewrite lookup_empty. reflexivity. }
  assert (Hread : Stream.buffered_read 0 rest = (Return EmptyString, rest))
    by (destruct rest; reflexivity).
  split; [|split].
  - unfold CorrectSequence.read_message, CorrectSequence.read_message_try.
    rewrite H1, Hlen, Hread.
    change (Py.decode EmptyString) with (Return EmptyString). run_bind.
    rewrite Hloads. reflexivity.
  - unfold LaunchSequence.read_message, LaunchSequence.read_message_try.
    rewrite H2, Hlen, Hread.
    change (Py.decode EmptyString) with (Return EmptyString). run_bind.
    rewrite Hloads. reflexivity.
  - unfold DebugpyManual.read_message. rewrite H3 by lia.
    rewrite Hlen, Hread.
    change (Py.decode EmptyString) with (Return EmptyString). run_bind.
    rewrite Hloads. reflexivity.
Qed.

Lemma sequence_read_typed (ready : bool) (stdout rest : string) (msg : json) :
  (CorrectSequence.read_message ready stdout = (Some msg, rest) ->
   exists fields type, msg = JObj fields /\ Dict.lookup fields "type" = Some type)
  /\ (LaunchSequence.read_message ready stdout = (Some msg, rest) -> dap_message msg).
Proof.
  split.
  - unfold CorrectSequence.read_message, CorrectSequence.read_message_try.
    destruct ready; [|discriminate].
    destruct (CorrectSequence.read_headers _ _ _) as [[headers|?] r0]; [|discriminate].
    destruct (CorrectSequence.content_length headers); [|discriminate].
    destruct (Stream.buffered_read _ _) as [[content|?] r1]; [|discriminate].
    destruct (Py.decode content) as [text|?]; [|discriminate]. run_bind.
    destruct (json_loads text) as [m|?]; [|discriminate]. run_bind.
    unfold Dict.item, Dict.get_default.
    destruct m as [| | | | |fields]; try discriminate.
    destruct (Dict.lookup fields "type") as [ty|] eqn:Hty; [|discriminate]. run_bind.
    destruct (Dict.lookup fields "event"), (Dict.lookup fields "command");
      run_bind; intros [= <- <-]; eauto.
  - unfold LaunchSequence.read_message, LaunchSequence.read_message_try.
    destruct ready; [|discriminate].
    destruct (LaunchSequence.read_headers _ _ _) as [[[headers|]|?] r0]; try discriminate.
    destruct (CorrectSequence.content_length headers); [|discriminate].
    destruct (Stream.buffered_read _ _) as [[content|?] r1]; [|discriminate].
    destruct (Py.decode content) as [text|?]; [|discriminate]. run_bind.
    destruct (json_loads text) as [m|?]; [|discriminate]. run_bind.
    unfold Dict.item, Dict.get_default.
    destruct m as [| | | | |fields]; try discriminate.
    destruct (Dict.lookup fields "type") as [ty|] eqn:Hty; [|discriminate]. run_bind.
    destruct ty; try discriminate. run_bind.
    destruct (Dict.lookup fields "event"), (Dict.lookup fields "command");
      run_bind; intros [= <- <-]; eexists _, _; (split; [reflexivity|exact Hty]).
Qed.

(** X9. What [read_message] of the two sequence scripts returns is always a
    [dict] with a ['type'] key (a [str] for test_launch_sequence.py): the
    [msg.get] calls of the loops that follow cannot fail. *)
Theorem read_message_returns_typed_dict (ready : bool) (stdout rest : string) (msg : json) :
  (CorrectSequence.read_message ready stdout = (Some msg, rest) ->
   exists fields type, msg = JObj fields /\ Dict.lookup fields "type" = Some type)
  /\ (LaunchSequence.read_message ready stdout = (Some msg, rest) -> dap_message msg).
Proof. apply sequence_read_typed. Qed.

End SequenceHeaders.

(** ** Numerals of negative numbers *)

Lemma rstrip_digits (ds : string) : Py.all_digits ds = true -> Py.rstrip ds = ds.
Proof.
  intros Hd. pose proof (rstrip_digits_crlf ds Hd) as Hr.
  rewrite rstrip_app_space in Hr by reflexivity. exact Hr.
Qed.

(** The numeral of an integer: digits, after a minus sign when it is
    negative. *)
Lemma str_shape (n : Z) :
  exists u, u <> Nil
    /\ Py.all_digits (NilEmpty.string_of_uint u) = true
    /\ Py.digits (NilEmpty.string_of_uint u) = Some u
    /\ ((0 <= n /\ Py.str n = NilEmpty.string_of_uint u /\ Z.of_uint u = n)
        \/ (n < 0 /\ Py.str n = String "-" (NilEmpty.string_of_uint u) /\ Z.of_uint u = - n)).
Proof.
  assert (Hpos : forall p, Pos.to_uint p <> Nil
                           /\ NilZero.string_of_uint (Pos.to_uint p)
                              = NilEmpty.string_of_uint (Pos.to_uint p)
                           /\ Z.of_uint (Pos.to_uint p) = Z.pos p).
  { intros p. pose proof (DecimalPos.Unsigned.of_to p) as Hp.
    assert (Hnil : Pos.to_uint p <> Nil) by (intros Heq; rewrite Heq in Hp; discriminate).
    split; [exact Hnil|]. split.
    - unfold NilZero.string_of_uint. destruct (Pos.to_uint p); congruence.
    - unfold Z.of_uint. rewrite Hp. reflexivity. }
  destruct n as [|p|p].
  - exists (D0 Nil). split; [discriminate|]. split; [reflexivity|]. split; [reflexivity|].
    left. repeat split; lia.
  - destruct (Hpos p) as (Hnil & Hs & Hz). exists (Pos.to_uint p).
    split; [exact Hnil|]. split; [apply all_digits_string_of_uint|].
    split; [apply digits_string_of_uint; exact Hnil|].
    left. split; [lia|]. split; [exact Hs|exact Hz].
  - destruct (Hpos p) as (Hnil & Hs & Hz). exists (Pos.to_uint p).
    split; [exact Hnil|]. split; [apply all_digits_string_of_uint|].
    split; [apply digits_string_of_uint; exact Hnil|].
    right. split; [lia|]. split; [|rewrite Hz; reflexivity].
    unfold Py.str. cbn [Z.to_int NilZero.string_of_int]. rewrite Hs. reflexivity.
Qed.

Lemma digits_first (ds : string) :
  Py.all_digits ds = true -> ds <> EmptyString ->
  exists c r, ds = String c r /\ Py.is_digit c = true.
Proof.
  destruct ds as [|c r]; [congruence|]. cbn [Py.all_digits].
  intros [Hc _]%andb_true_iff _. eauto.
Qed.

Lemma digit_not_space (c : ascii) : Py.is_digit c = true -> Py.isspace c = false.
Proof.
  unfold Py.is_digit, Py.isspace.
  intros [H1%Nat.leb_le H2%Nat.leb_le]%andb_true_iff.
  destruct (nat_of_ascii c <=? 13)%nat eqn:E1; [apply Nat.leb_le in E1; lia|].
  destruct (nat_of_ascii c <=? 32)%nat eqn:E2; [apply Nat.leb_le in E2; lia|].
  rewrite !andb_false_r. reflexivity.
Qed.

(** [int(str(n))] is [n], for every integer. *)
Lemma int_str (n : Z) : Py.int (Py.str n) = Return n.
Proof.
  destruct (str_shape n) as (u & Hu & Hd & Hdig & [(Hn & Hs & Hz)|(Hn & Hs & Hz)]).
  - rewrite Hs. unfold Py.int.
    rewrite int_strip_digits by exact Hd.
    destruct (digits_first _ Hd (string_of_uint_nonempty u Hu)) as (c & r & Heq & Hc).
    rewrite Heq in *.
    assert (c <> "-"%char /\ c <> "+"%char) as [H1 H2]
      by (split; intros ->; discriminate).
    destruct (ascii_dec c "-") as [->|_]; [congruence|].
    destruct (ascii_dec c "+") as [->|_]; [congruence|].
    assert (Hm : (let '(neg, d) :=
                    match String c r with
                    | String "-" r0 => (true, r0)
                    | String "+" r0 => (false, r0)
                    | _ => (false, String c r)
                    end in
                  match Py.digits d with
                  | Some u0 => Return (if neg : bool then - Z.of_uint u0 else Z.of_uint u0)
                  | None => Raise (ValueError "invalid literal for int()")
                  end) = Return n).
    { destruct c as [[] [] [] [] [] [] [] []]; try congruence;
        cbv beta iota zeta; rewrite Hdig, Hz; reflexivity. }
    exact Hm.
  - rewrite Hs. unfold Py.int.
    assert (Py.int_rstrip (Py.int_lstrip (String "-" (NilEmpty.string_of_uint u)))
            = String "-" (NilEmpty.string_of_uint u)) as ->.
    { cbn [Py.int_lstrip]. change (Py.int_space "-") with false. cbv iota.
      cbn [Py.int_rstrip]. rewrite int_rstrip_digits by exact Hd.
      change (Py.int_space "-") with false.
      destruct (NilEmpty.string_of_uint u); reflexivity. }
    cbv beta iota zeta. rewrite Hdig. f_equal. lia.
Qed.

Lemma str_no_space (n : Z) (c : ascii) :
  Py.is_digit c = false -> c <> "-"%char -> Py.contains (Py.str n) c = false.
Proof.
  intros Hc Hm.
  destruct (str_shape n) as (u & Hu & Hd & _ & [(_ & -> & _)|(_ & -> & _)]).
  - apply all_digits_no; assumption.
  - cbn [Py.contains]. rewrite all_digits_no by assumption.
    rewrite orb_false_r. apply Ascii.eqb_neq. congruence.
Qed.

Lemma str_ascii (n : Z) : Py.is_ascii (Py.str n) = true.
Proof.
  destruct (str_shape n) as (u & Hu & Hd & _ & [(_ & -> & _)|(_ & -> & _)]).
  - apply all_digits_ascii. exact Hd.
  - cbn [Py.is_ascii]. rewrite all_digits_ascii by exact Hd. reflexivity.
Qed.

Lemma strip_space_str (n : Z) : Py.strip (String " " (Py.str n)) = Py.str n.
Proof.
  unfold Py.strip. change (Py.lstrip (String " " (Py.str n))) with (Py.lstrip (Py.str n)).
  destruct (str_shape n) as (u & Hu & Hd & _ & [(_ & -> & _)|(_ & -> & _)]).
  - apply all_digits_no_space; [exact Hd|apply string_of_uint_nonempty, Hu].
  - cbn [Py.lstrip]. change (Py.isspace "-") with false. cbv iota.
    rewrite rstrip_cons_nonspace by reflexivity. rewrite rstrip_digits by exact Hd.
    reflexivity.
Qed.

(** ** A negative [Content-Length] *)

Lemma length_line_clean (n : Z) (c : ascii) :
  Py.is_digit c = false -> c <> "-"%char ->
  Py.contains "Content-Length: " c = false ->
  Py.contains ("Content-Length: " +:+ Py.str n) c = false.
Proof.
  intros Hc Hm Hp. rewrite contains_app, Hp. apply str_no_space; assumption.
Qed.

Lemma length_line_ascii (n : Z) : Py.is_ascii ("Content-Length: " +:+ Py.str n) = true.
Proof. rewrite is_ascii_app, str_ascii. reflexivity. Qed.

Lemma content_length_of_number (n : Z) (text : string) (more : list string) :
  Standalone.content_length_of text (("Content-Length: " +:+ Py.str n) :: more) = Return n.
Proof.
  cbn [Standalone.content_length_of].
  assert (Py.startswith ("Content-Length: " +:+ Py.str n) "Content-Length:" = true) as ->
    by reflexivity.
  assert (Py.split ("Content-Length: " +:+ Py.str n) ":" =
          ["Content-Length"%string; String " " (Py.str n)]) as ->.
  { unfold Py.split.
    change ("Content-Length: " +:+ Py.str n)
      with ("Content-Length" +:+ String ":" (String " " (Py.str n))).
    rewrite split_from_app by reflexivity.
    assert (Py.split_from ":" 0 (String ":" (String " " (Py.str n))) =
            [EmptyString; String " " (Py.str n)]) as ->.
    { rewrite split_from_at_sep. f_equal.
      change (Py.split_from ":" 0 (String " " (Py.str n)))
        with (Py.split (String " " (Py.str n)) ":").
      apply split_no_sep. cbn [Py.contains]. change (Ascii.eqb " " ":") with false.
      apply str_no_space; [reflexivity|discriminate]. }
    cbv beta iota. rewrite sapp_nil_r. reflexivity. }
  rewrite strip_space_str. apply int_str.
Qed.

Lemma length_field (n : Z) :
  plain_field ("Content-Length"%string, String " " (Py.str n))
  /\ field_line ("Content-Length"%string, String " " (Py.str n))
     = "Content-Length: " +:+ Py.str n.
Proof.
  split; [|reflexivity].
  unfold plain_field. cbn [fst snd Py.is_ascii Py.contains].
  rewrite str_ascii, str_no_space by (reflexivity || discriminate).
  repeat split.
Qed.

Section NegativeLength.
Context `{JsonCodec}.

(** X10. A negative [Content-Length].  [_read_message] reads from an
    unbuffered pipe, where a negative size reads to the end: all that the
    adapter writes until it closes its output is taken for one body.  The
    scripts that read line by line read from a buffered pipe, which reads to
    the end for -1 and refuses a size below -1 with [ValueError]: their
    [read_message] then returns [None] (the exception leaves the one of
    test_debugpy_manual.py), and the bytes after the blank line are still in
    the stream. *)
Theorem negative_content_length (n : Z) (rest : string) :
  n < 0 ->
  let stream := "Content-Length: " +:+ Py.str n +:+ Py.CRLFCRLF +:+ rest in
  Standalone._read_message stream
  = (text ← Py.decode rest; message ← json_loads text; mret (Some message), EmptyString)
  /\ (n < -1 ->
      CorrectSequence.read_message true stream = (None, rest)
      /\ LaunchSequence.read_message true stream = (None, rest)
      /\ DebugpyManual.read_message 2 stream
         = Some (Raise (ValueError "read length must be non-negative or -1"), rest)).
Proof.
  intros Hn. cbn zeta. split.
  - unfold Standalone._read_message.
    rewrite <- (sapp_assoc "Content-Length: " (Py.str n)).
    rewrite (read_header_line EmptyString ("Content-Length: " +:+ Py.str n) rest)
      by (rewrite sapp_nil_l; apply length_line_clean; reflexivity || discriminate).
    rewrite sapp_nil_l.
    rewrite decode_ascii by (rewrite is_ascii_app, length_line_ascii; reflexivity).
    run_bind.
    assert (Py.split (("Content-Length: " +:+ Py.str n) +:+ Py.CRLFCRLF) Py.CRLF
            = [("Content-Length: " +:+ Py.str n); EmptyString; EmptyString]) as ->.
    { unfold Py.split, Py.CRLF.
      rewrite split_from_app by (apply length_line_clean; reflexivity || discriminate).
      change (Py.split_from (String Py.CR (String Py.LF EmptyString)) 0 Py.CRLFCRLF)
        with [EmptyString; EmptyString; EmptyString].
      cbv beta iota. rewrite sapp_nil_r. reflexivity. }
    rewrite content_length_of_number.
    unfold Stream.raw_read. destruct (Z.ltb_spec n 0) as [_|]; [reflexivity|lia].
  - intros Hn1.
    destruct (length_field n) as (Hplain & Hline).
    pose proof (header_loops_fields [("Content-Length"%string, String " " (Py.str n))]
                  ∅ rest ltac:(constructor; [exact Hplain|constructor])) as (H1 & H2 & H3).
    cbn zeta in H1, H2, H3. cbn [map] in H1, H2, H3. rewrite Hline in H1, H2, H3.
    change (header_block ["Content-Length: " +:+ Py.str n])
      with (("Content-Length: " +:+ Py.str n) +:+ Py.CRLFCRLF) in H1, H2, H3.
    rewrite !sapp_assoc in H1, H2, H3.
    cbn [headers_of fold_left fst snd] in H1, H2, H3.
    rewrite strip_space_str in H1, H2, H3.
    change (Py.strip "Content-Length") with "Content-Length"%string in H1, H2, H3.
    assert (Hlen : CorrectSequence.content_length (<["Content-Length"%string := Py.str n]> ∅)
                   = Return n).
    { unfold CorrectSequence.content_length. rewrite lookup_insert_eq. apply int_str. }
    assert (Hread : Stream.buffered_read n rest
                    = (Raise (ValueError "read length must be non-negative or -1"), rest)).
    { unfold Stream.buffered_read. destruct (Z.ltb_spec n (-1)); [reflexivity|lia]. }
    split; [|split].
    + unfold CorrectSequence.read_message, CorrectSequence.read_message_try.
      rewrite H1, Hlen, Hread. reflexivity.
    + unfold LaunchSequence.read_message, LaunchSequence.read_message_try.
      rewrite H2, Hlen, Hread. reflexivity.
    + unfold DebugpyManual.read_message. rewrite H3 by (cbn [length]; lia).
      rewrite Hlen, Hread. reflexivity.
Qed.

End NegativeLength.

(** ** Write, then read, when the body has arrived *)

Section RoundTrip.
Context `{JsonCodec}.

(** X28. A DAP message that the codec carries faithfully comes back
    unchanged.  What [_send_message] has written for it, put in front of any
    [rest], is read by [_read_message] as the same message, leaving [rest],
    when the pipe holds the whole body by the time the body is read.  What
    [send_message] of test_correct_sequence.py has written is read back by
    its [read_message], whose pipe is buffered, however the bytes
    arrive. *)
Theorem roundtrip_when_body_arrived (m : json) (rest : string) :
  dap_message m -> json_faithful m ->
  (forall t t' arrived,
     Standalone._send_message m t = Return t' ->
     (String.length (json_dumps m) <= arrived)%nat ->
     exists written,
       Standalone.stdin t' = Standalone.stdin t +:+ written
       /\ Standalone._read_message_arrived arrived (written +:+ rest)
          = (Return (Some m), rest))
  /\ (forall stdin stdin',
        CorrectSequence.send_message stdin m = (Return tt, stdin') ->
        exists written,
          stdin' = stdin +:+ written
          /\ CorrectSequence.read_message true (written +:+ rest) = (Some m, rest)).
Proof.
  intros (fields & ty & -> & Hty) [Hascii Hloads]. split.
  - intros t t' arrived Hsend Harrived. exists (frame (json_dumps (JObj fields))).
    split; [apply send_message_written; exact Hsend|].
    rewrite read_message_arrived_frame, raw_read_arrived_app by exact Harrived.
    rewrite decode_ascii by assumption. run_bind.
    rewrite Hloads. reflexivity.
  - intros stdin stdin' Hsend. exists (frame (json_dumps (JObj fields))). split.
    + pose proof (sequence_send_written (JObj fields) stdin Hascii) as Hw.
      rewrite Hsend in Hw. exact Hw.
    + unfold CorrectSequence.read_message.
      rewrite correct_read_frame, decode_ascii by assumption.
      run_bind. rewrite Hloads. run_bind.
      unfold Dict.item, Dict.get_default. rewrite Hty.
      destruct (Dict.lookup fields "event"), (Dict.lookup fields "command"); reflexivity.
Qed.

End RoundTrip.

(** ** test_launch_sequence.py and test_debugpy_manual.py: write, then read *)

Section OtherRoundTrips.
Context `{JsonCodec}.

Lemma launch_send_message_cases (stdin : string) (msg : json) :
  (dap_message msg /\
   LaunchSequence.send_message stdin msg
   = (Return tt,
      stdin +:+ ("Content-Length: " +:+ Py.str (Z.of_nat (Py.len (json_dumps msg)))
                   +:+ Py.CRLFCRLF) +:+ json_dumps msg))
  \/ (~ dap_message msg /\
      exists e, LaunchSequence.send_message stdin msg = (Raise e, stdin)).
Proof.
  unfold LaunchSequence.send_message, Dict.item, Dict.get_default.
  destruct msg as [| | | | |fields];
    try (right; split; [intros (f & t & [=] & _)|eexists; reflexivity]).
  destruct (Dict.lookup fields "type") as [ty|] eqn:Hty;
    [|right; split; [intros (f & t & [= <-] & Ht); congruence|eexists; reflexivity]].
  destruct ty as [| | |t| |];
    try (right; split; [intros (f & t' & [= <-] & Ht); congruence|eexists; reflexivity]).
  left. split; [eexists _, _; split; [reflexivity|exact Hty]|].
  run_bind. cbn [LaunchSequence.upper_of]. run_bind.
  destruct (Dict.lookup fields "event"), (Dict.lookup fields "command"); run_bind;
    rewrite !sapp_assoc; reflexivity.
Qed.

(** X11. [send_message] of test_launch_sequence.py prints before it writes:
    for a message that is not a [dict] with a [str] under ['type'] it raises
    and nothing is written; for any other it writes the header with the
    length of the text and the text, and nothing else. *)
Theorem launch_send_message_all_or_nothing (stdin : string) (msg : json) :
  (dap_message msg /\
   LaunchSequence.send_message stdin msg
   = (Return tt,
      stdin +:+ ("Content-Length: " +:+ Py.str (Z.of_nat (Py.len (json_dumps msg)))
                   +:+ Py.CRLFCRLF) +:+ json_dumps msg))
  \/ (~ dap_message msg /\
      exists e, LaunchSequence.send_message stdin msg = (Raise e, stdin)).
Proof. apply launch_send_message_cases. Qed.

(** X12. A DAP message that the codec carries faithfully comes back unchanged
    through test_launch_sequence.py and through test_debugpy_manual.py as
    well: what [send_message] writes, put in front of any [rest], is read by
    [read_message] as the same message, and [rest] is left in the stream.
    The header loop of test_debugpy_manual.py makes two passes. *)
Theorem other_scripts_roundtrip (m : json) (rest : string) :
  dap_message m -> json_faithful m ->
  (forall stdin, exists written,
     LaunchSequence.send_message stdin m = (Return tt, stdin +:+ written)
     /\ LaunchSequence.read_message true (written +:+ rest) = (Some m, rest))
  /\ (forall stdin, exists written,
        DebugpyManual.send_message stdin m = stdin +:+ written
        /\ DebugpyManual.read_message 2 (written +:+ rest) = Some (Return m, rest)).
Proof.
  intros Hdap [Hascii Hloads]. split.
  - intros stdin. exists (frame (json_dumps m)). split.
    + destruct (launch_send_message_cases stdin m) as [[_ ->]|[Hn _]];
        [|contradiction].
      rewrite len_ascii by exact Hascii. unfold frame. rewrite !sapp_assoc. reflexivity.
    + destruct Hdap as (fields & ty & -> & Hty).
      unfold LaunchSequence.read_message.
      rewrite launch_read_frame, decode_ascii by assumption. run_bind.
      rewrite Hloads. run_bind.
      unfold Dict.item, Dict.get_default. rewrite Hty. run_bind.
      cbn [LaunchSequence.upper_of]. run_bind.
      destruct (Dict.lookup fields "event"), (Dict.lookup fields "command"); reflexivity.
  - intros stdin. exists (frame (json_dumps m)). split.
    + unfold DebugpyManual.send_message. rewrite len_ascii by exact Hascii.
      unfold frame. rewrite !sapp_assoc. reflexivity.
    + rewrite manual_read_frame by lia. rewrite decode_ascii by exact Hascii. run_bind.
      rewrite Hloads. reflexivity.
Qed.

End OtherRoundTrips.

(** ** test_debugpy_manual.py: the header loop without a CR LF blank line *)

Lemma readline_parts (s line rest : string) :
  Stream.readline s = (line, rest) -> s = line +:+ rest.
Proof.
  revert line rest. induction s as [|c s IH]; intros line rest; cbn [Stream.readline].
  - intros [= <- <-]. reflexivity.
  - destruct (Ascii.eqb c Py.LF).
    + intros [= <- <-]. reflexivity.
    + destruct (Stream.readline s) as [l r]. intros [= <- <-].
      rewrite sapp_cons, <- (IH l r eq_refl). reflexivity.
Qed.

Lemma header_line_returns (line : string) (headers : gmap string string) :
  exists headers', CorrectSequence.header_line line headers = Return headers'.
Proof.
  destruct (Py.contains line ":") eqn:Hc.
  - apply contains_split in Hc as (k & v & -> & Hk).
    rewrite header_line_field by exact Hk. eauto.
  - unfold CorrectSequence.header_line. rewrite Hc. eauto.
Qed.

Lemma manual_headers_never_end (passes : nat) (headers : gmap string string) (stream : string) :
  Py.is_ascii stream = true ->
  Py.contains stream Py.CR = false ->
  DebugpyManual.read_headers passes headers stream = None.
Proof.
  revert headers stream. induction passes as [|n IH]; intros headers stream Ha Hcr;
    [reflexivity|].
  cbn [DebugpyManual.read_headers].
  destruct (Stream.readline stream) as [line rest] eqn:Hr.
  apply readline_parts in Hr as ->.
  rewrite is_ascii_app in Ha. apply andb_true_iff in Ha as [Hal Har].
  rewrite contains_app in Hcr. apply orb_false_iff in Hcr as [Hcl Hcrr].
  rewrite decode_ascii by exact Hal.
  assert (String.eqb line Py.CRLF = false) as ->.
  { apply String.eqb_neq. intros ->. discriminate. }
  destruct (header_line_returns line headers) as (headers' & ->).
  apply IH; assumption.
Qed.

Section ManualHangs.
Context `{JsonCodec}.

(** X13. [read_message] of test_debugpy_manual.py leaves its header loop at
    the line CR LF only, not at the end of the stream and not at a bare LF.
    On an ASCII stream without a CR (the empty stream of an adapter that
    has gone, or headers ended by bare line feeds) the loop never ends,
    however many passes it is given: [read_message] does not return. *)
Theorem manual_read_message_needs_crlf (stream : string) (passes : nat) :
  Py.is_ascii stream = true ->
  Py.contains stream Py.CR = false ->
  DebugpyManual.read_message passes stream = None.
Proof.
  intros Ha Hcr. unfold DebugpyManual.read_message.
  rewrite manual_headers_never_end by assumption. reflexivity.
Qed.

End ManualHangs.

(** ** fizzbuzz.py *)

Lemma fizzbuzz_cases (n : Z) :
  (~ (3 | n) /\ ~ (5 | n) /\ Fizzbuzz.fizzbuzz n = Py.str n)
  \/ (((3 | n) \/ (5 | n))
      /\ (Fizzbuzz.fizzbuzz n = "FizzBuzz"%string \/ Fizzbuzz.fizzbuzz n = "Fizz"%string
          \/ Fizzbuzz.fizzbuzz n = "Buzz"%string)).
Proof.
  unfold Fizzbuzz.fizzbuzz.
  pose proof (Z.mod_divide n 15 ltac:(lia)) as M15.
  pose proof (Z.mod_divide n 3 ltac:(lia)) as M3.
  pose proof (Z.mod_divide n 5 ltac:(lia)) as M5.
  assert (H15 : (15 | n) -> (3 | n)) by (intros [k ->]; exists (5 * k); lia).
  destruct (Z.eqb_spec (n mod 15) 0) as [E15|E15];
    [right; split; [left; tauto|left; reflexivity]|].
  destruct (Z.eqb_spec (n mod 3) 0) as [E3|E3];
    [right; split; [left; tauto|right; left; reflexivity]|].
  destruct (Z.eqb_spec (n mod 5) 0) as [E5|E5];
    [right; split; [right; tauto|right; right; reflexivity]|].
  left. tauto.
Qed.

(** X14. For a number that 3 and 5 do not divide, what [fizzbuzz] returns
    reads back as the number ([int] of it is [n]), so no other number has
    the same output. *)
Theorem fizzbuzz_numeral_reads_back (n : Z) :
  ~ (3 | n) -> ~ (5 | n) ->
  Py.int (Fizzbuzz.fizzbuzz n) = Return n
  /\ forall m, Fizzbuzz.fizzbuzz m = Fizzbuzz.fizzbuzz n -> m = n.
Proof.
  intros H3 H5.
  destruct (fizzbuzz_cases n) as [(_ & _ & Hn)|([?|?] & _)]; try contradiction.
  assert (Hint : Py.int (Fizzbuzz.fizzbuzz n) = Return n) by (rewrite Hn; apply int_str).
  split; [exact Hint|].
  intros m Hm. rewrite <- Hm in Hint.
  destruct (fizzbuzz_cases m) as [(_ & _ & Hs)|(_ & [Hw|[Hw|Hw]])].
  - rewrite Hs, int_str in Hint. congruence.
  - rewrite Hw in Hint. discriminate.
  - rewrite Hw in Hint. discriminate.
  - rewrite Hw in Hint. discriminate.
Qed.

Lemma fizzbuzz_main_fold (l : list Z) (results printed : list string) :
  fold_left (fun '(results, printed) i =>
               let result := Fizzbuzz.fizzbuzz i in (results ++ [result], printed ++ [result]))
    l (results, printed)
  = (results ++ map Fizzbuzz.fizzbuzz l, printed ++ map Fizzbuzz.fizzbuzz l).
Proof.
  revert results printed. induction l as [|i l IH]; intros results printed.
  - rewrite !app_nil_r. reflexivity.
  - cbn [fold_left map]. rewrite IH, <- !app_assoc. reflexivity.
Qed.

(** X15. [main] of fizzbuzz.py returns 100 results, the [i]-th being
    [fizzbuzz(i)] for [i] from 1 to 100, and prints them in the same
    order. *)
Theorem fizzbuzz_main_results :
  let '(results, printed) := Fizzbuzz.main in
  printed = results
  /\ length results = 100%nat
  /\ forall i, 1 <= i <= 100 ->
       results !! Z.to_nat (i - 1) = Some (Fizzbuzz.fizzbuzz i).
Proof.
  unfold Fizzbuzz.main. rewrite fizzbuzz_main_fold. cbn [app].
  split; [reflexivity|]. split; [reflexivity|].
  intros i Hi. unfold Py.range. rewrite list_lookup_fmap.
  rewrite lookup_seqZ_lt by lia. cbn [fmap option_fmap option_map]. f_equal. f_equal. lia.
Qed.

(** ** What a pass of the reader loop changes *)

Section PassEffect.
Context `{JsonCodec} `{PathLib}.

(** A message other than the ['initialized'] event: the loop body changes
    the responses (by one entry) or the events, and nothing else. *)
Lemma handle_other_state (t t' : Standalone.DAPTester) (m : json) :
  is_initialized m = false ->
  Standalone.handle_message m t = Return t' ->
  Standalone.seq t' = Standalone.seq t
  /\ Standalone.running t' = Standalone.running t
  /\ Standalone.stdin t' = Standalone.stdin t
  /\ Standalone.stdout t' = Standalone.stdout t
  /\ Standalone.wire t' = Standalone.wire t
  /\ Standalone.received_responses t' = store (Standalone.received_responses t) m
  /\ Standalone.received_events t'
     = Standalone.received_events t ++ (if type_is m "event" then [m] else []).
Proof.
  intros Hm. unfold Standalone.handle_message, store, type_is.
  destruct m as [| | | | |fields]; try discriminate.
  unfold Dict.get, Dict.get_default. cbn [is_initialized] in Hm.
  destruct (Dict.lookup fields "type") as [ty|] eqn:Hty; run_bind.
  - destruct (is_str ty "response") eqn:Hr.
    + assert (is_str ty "event" = false) as ->.
      { destruct ty; try discriminate. cbn [is_str] in *.
        apply String.eqb_eq in Hr as ->. reflexivity. }
      destruct (Dict.lookup fields "request_seq") as [v|]; run_bind;
        destruct (Dict.lookup fields "command"); run_bind.
      all: try (destruct (Dict.key v) as [k|e]; run_bind; [|discriminate]).
      all: try (cbn [Dict.key]; run_bind).
      all: destruct (Dict.lookup fields "success"); run_bind; intros [= <-];
        cbn [Standalone.set_received_responses Standalone.seq Standalone.running
             Standalone.stdin Standalone.stdout Standalone.wire
             Standalone.received_responses Standalone.received_events];
        rewrite app_nil_r; repeat split.
    + destruct (is_str ty "event") eqn:He.
      * destruct (Dict.lookup fields "event") as [ev|] eqn:Hev; run_bind;
          try rewrite He in Hm; cbn [andb] in Hm;
          destruct (Dict.lookup fields "body"); run_bind;
          try rewrite Hm; cbn [is_str]; run_bind; intros [= <-];
          cbn [Standalone.set_received_events Standalone.seq Standalone.running
               Standalone.stdin Standalone.stdout Standalone.wire
               Standalone.received_responses Standalone.received_events];
          repeat split.
      * intros [= <-]. rewrite app_nil_r. repeat split.
  - cbn [is_str]. intros [= <-]. rewrite app_nil_r. repeat split.
Qed.

End PassEffect.

Section PassCases.
Context `{JsonCodec} `{PathLib}.

(** What a pass of the reader loop leaves, in all cases: nothing new on the
    wire; or one message received and filed; or the ['initialized'] event
    received and [configurationDone] sent. *)
Lemma pass_cases (t : Standalone.DAPTester) :
  let t' := snd (Standalone._read_messages_pass t) in
  Standalone.running t' = Standalone.running t
  /\ ((Standalone.wire t' = Standalone.wire t
       /\ Standalone.seq t' = Standalone.seq t
       /\ Standalone.stdin t' = Standalone.stdin t
       /\ Standalone.received_responses t' = Standalone.received_responses t
       /\ Standalone.received_events t' = Standalone.received_events t)
      \/ (exists m,
            is_initialized m = false
            /\ Standalone.wire t' = Standalone.wire t ++ [Standalone.Received m]
            /\ Standalone.seq t' = Standalone.seq t
            /\ Standalone.stdin t' = Standalone.stdin t
            /\ (Standalone.received_responses t' = Standalone.received_responses t
                \/ Standalone.received_responses t'
                   = store (Standalone.received_responses t) m))
      \/ (exists m,
            is_initialized m = true
            /\ Standalone.wire t'
               = Standalone.wire t
                 ++ [Standalone.Received m;
                     Standalone.Sent (Standalone.configuration_done_request
                                        (Standalone.seq t + 1))]
            /\ Standalone.seq t' = Standalone.seq t + 1
            /\ Standalone.stdin t'
               = Standalone.stdin t
                 +:+ frame (json_dumps (Standalone.configuration_done_request
                                          (Standalone.seq t + 1)))
            /\ Standalone.received_responses t' = Standalone.received_responses t
            /\ Standalone.received_events t' = Standalone.received_events t ++ [m])).
Proof.
  cbn zeta. unfold Standalone._read_messages_pass.
  destruct (Standalone.running t) eqn:Hrun;
    [|cbn [snd]; split; [exact Hrun|left; repeat split]].
  destruct (Standalone._read_message (Standalone.stdout t)) as [[[m|]|e] rest];
    try (cbn [snd]; split; [exact Hrun|left; repeat split]).
  destruct (is_initialized m) eqn:Hinit.
  - rewrite (is_initialized_truthy m Hinit), handle_initialized by assumption.
    cbn [snd Standalone.received Standalone.seq Standalone.running Standalone.stdin
         Standalone.stdout Standalone.wire Standalone.received_responses
         Standalone.received_events].
    split; [exact Hrun|]. right. right. exists m. rewrite <- app_assoc.
    repeat split. exact Hinit.
  - assert (Hplain : Standalone.running (Standalone.received t m rest) = Standalone.running t
                     /\ exists m0,
                          is_initialized m0 = false
                          /\ Standalone.wire (Standalone.received t m rest)
                             = Standalone.wire t ++ [Standalone.Received m0]
                          /\ Standalone.seq (Standalone.received t m rest) = Standalone.seq t
                          /\ Standalone.stdin (Standalone.received t m rest) = Standalone.stdin t
                          /\ (Standalone.received_responses (Standalone.received t m rest)
                              = Standalone.received_responses t
                              \/ Standalone.received_responses (Standalone.received t m rest)
                                 = store (Standalone.received_responses t) m0)).
    { split; [reflexivity|]. exists m. repeat split; [exact Hinit|]. left. reflexivity. }
    destruct (Dict.truthy m);
      [|cbn [snd]; destruct Hplain as [Hr Hp]; split; [rewrite Hr; exact Hrun|right; left; exact Hp]].
    destruct (Standalone.handle_message m (Standalone.received t m rest)) as [t'|e] eqn:Hh;
      [|cbn [snd]; destruct Hplain as [Hr Hp]; split; [rewrite Hr; exact Hrun|right; left; exact Hp]].
    apply handle_other_state in Hh as (Hs & Hr & Hi & Ho & Hw & Hresp & Hev); [|exact Hinit].
    cbn [snd]. split; [rewrite Hr; exact Hrun|]. right. left. exists m.
    rewrite Hw, Hs, Hi, Hresp. repeat split; [exact Hinit|]. right. reflexivity.
Qed.

End PassCases.

Lemma store_lookup (responses : gmap pykey json) (m m' : json) (k : pykey) :
  store responses m !! k = Some m' -> responses !! k = Some m' \/ m' = m.
Proof.
  unfold store. destruct (type_is m "response"); [|auto].
  destruct (v ← Dict.get m "request_seq"; Dict.key v) as [k0|e]; [|auto].
  destruct (decide (k0 = k)) as [->|Hne].
  - rewrite lookup_insert_eq. intros [= <-]. auto.
  - rewrite lookup_insert_ne by exact Hne. auto.
Qed.

(** ** The numbering of the requests *)

Section Numbering.
Context `{JsonCodec} `{PathLib}.

Lemma request_disconnect_eq (t : Standalone.DAPTester) :
  Standalone.request_disconnect t =
  Return (Standalone.mkDAPTester (Standalone.seq t + 1) (Standalone.received_events t)
            (Standalone.received_responses t) (Standalone.running t)
            (Standalone.stdin t +:+
               frame (json_dumps (Standalone.disconnect_request (Standalone.seq t + 1))))
            (Standalone.stdout t)
            (Standalone.wire t ++
               [Standalone.Sent (Standalone.disconnect_request (Standalone.seq t + 1))])).
Proof.
  unfold Standalone.request_disconnect, Standalone.disconnect_request.
  rewrite send_message_dict. reflexivity.
Qed.

Lemma numbered_same (t t' : Standalone.DAPTester) :
  Standalone.seq t' = Standalone.seq t ->
  Standalone.stdin t' = Standalone.stdin t ->
  requests_sent (Standalone.wire t') = requests_sent (Standalone.wire t) ->
  numbered t -> numbered t'.
Proof. unfold numbered. intros -> -> ->. auto. Qed.

Lemma numbered_sent (t t' : Standalone.DAPTester) (q : json) :
  Standalone.seq t' = Standalone.seq t + 1 ->
  Standalone.stdin t' = Standalone.stdin t +:+ frame (json_dumps q) ->
  requests_sent (Standalone.wire t') = requests_sent (Standalone.wire t) ++ [q] ->
  Dict.get q "seq" = Return (JInt (Standalone.seq t + 1)) ->
  numbered t -> numbered t'.
Proof.
  unfold numbered. intros -> -> -> Hq (Hseq & Hnum & Hin). split; [|split].
  - rewrite length_app. cbn [length]. lia.
  - intros i q' Hi. apply lookup_app_Some in Hi as [Hi|[Hlen Hi]]; [auto|].
    apply list_lookup_singleton_Some in Hi as [Hi <-].
    rewrite Hq, Hseq. do 2 f_equal. lia.
  - rewrite Hin, map_app. cbn [map]. rewrite <- frames_snoc. reflexivity.
Qed.

Lemma numbered_pass (t : Standalone.DAPTester) :
  numbered t -> numbered (snd (Standalone._read_messages_pass t)).
Proof.
  intros Hn. destruct (pass_cases t) as (_ & [Hsame|[Hrecv|Hinit]]).
  - destruct Hsame as (Hw & Hs & Hi & _). eapply numbered_same; eauto. rewrite Hw. reflexivity.
  - destruct Hrecv as (m & _ & Hw & Hs & Hi & _). eapply numbered_same; eauto.
    rewrite Hw, requests_sent_app. cbn [requests_sent]. apply app_nil_r.
  - destruct Hinit as (m & _ & Hw & Hs & Hi & _).
    eapply numbered_sent; eauto.
    rewrite Hw, requests_sent_app. reflexivity.
Qed.

Lemma numbered_call (c : Calls.call) (t : Standalone.DAPTester) :
  numbered t -> exists t', Calls.do_call c t = Return t' /\ numbered t'.
Proof.
  intros Hn. destruct c; cbn [Calls.do_call].
  - unfold Standalone.send_initialize. rewrite request_initialize_eq. run_bind.
    eexists. split; [reflexivity|]. eapply numbered_sent; eauto; try reflexivity.
    cbn [Standalone.wire]. apply requests_sent_app.
  - unfold Standalone.send_launch. rewrite request_launch_eq. run_bind.
    eexists. split; [reflexivity|]. eapply numbered_sent; eauto; try reflexivity.
    cbn [Standalone.wire]. apply requests_sent_app.
  - unfold Standalone.send_configuration_done. rewrite request_configuration_done_eq. run_bind.
    eexists. split; [reflexivity|]. eapply numbered_sent; eauto; try reflexivity.
    cbn [Standalone.wire]. apply requests_sent_app.
  - unfold Standalone.send_disconnect. rewrite request_disconnect_eq. run_bind.
    eexists. split; [reflexivity|]. eapply numbered_sent; eauto; try reflexivity.
    cbn [Standalone.wire]. apply requests_sent_app.
  - eexists. split; [reflexivity|]. apply numbered_pass. exact Hn.
  - eexists. split; [reflexivity|]. eapply numbered_same; eauto; reflexivity.
Qed.

Lemma numbered_run (calls : list Calls.call) (t : Standalone.DAPTester) :
  numbered t -> exists t', Calls.run calls t = Return t' /\ numbered t'.
Proof.
  revert t. induction calls as [|c calls IH]; intros t Hn; cbn [Calls.run].
  - exists t. split; [reflexivity|exact Hn].
  - destruct (numbered_call c t Hn) as (t1 & -> & Hn1). run_bind. apply IH. exact Hn1.
Qed.

(** X16. The requests of a tester are numbered in the order they are written,
    as long as the adapter runs and reads its input.  Whatever calls are
    made on a freshly spawned tester before [shutdown] (the [send_*]
    methods, passes of the reader loop, which sends [configurationDone] on
    its own, and the adapter writing to its output), each taken as a whole
    and one after the other, no call raises, and afterwards the counter
    [seq] is the number of requests written, the [i]-th request written
    carries ["seq": i], and the bytes written to the adapter are the frames
    of these requests, one after the other. *)
Theorem requests_numbered_in_order (calls : list Calls.call) (pending : string) :
  exists t,
    Calls.run calls (Standalone.start_adapter pending Standalone.init) = Return t
    /\ numbered t.
Proof.
  apply numbered_run. split; [reflexivity|]. split; [|reflexivity].
  intros i q Hi. discriminate.
Qed.

End Numbering.

(** ** The messages that end the reader loop, and the keys of the responses *)

Section ReaderEnds.
Context `{JsonCodec} `{PathLib}.

(** On these messages, and on no other, [handle_message] raises. *)
Lemma handle_raises (m : json) (t : Standalone.DAPTester) :
  Dict.truthy m = true ->
  (exists e, Standalone.handle_message m t = Raise e) <-> ends_reader m = true.
Proof.
  intros Htruthy. unfold ends_reader. rewrite Htruthy. cbn [andb].
  assert (Hno : forall t' : Standalone.DAPTester,
             (exists e, Return t' = @Raise Standalone.DAPTester e) <-> false = true)
    by (intros t'; split; [intros [e [=]]|discriminate]).
  assert (Hyes : forall e0, (exists e, @Raise Standalone.DAPTester e0 = Raise e) <-> true = true)
    by (intros e0; split; [reflexivity|eauto]).
  destruct m as [| | | | |fields]; try apply Hyes.
  unfold Standalone.handle_message, type_is, Dict.get, Dict.get_default.
  destruct (Dict.lookup fields "type") as [ty|]; run_bind; [|cbn [is_str]; apply Hno].
  destruct (is_str ty "response"); cbn [andb].
  - destruct (Dict.lookup fields "request_seq") as [v|]; run_bind;
      destruct (Dict.lookup fields "command"); run_bind;
      try destruct v; cbn [Dict.key unhashable]; run_bind;
      try apply Hyes;
      destruct (Dict.lookup fields "success"); run_bind; apply Hno.
  - destruct (is_str ty "event"); [|apply Hno].
    destruct (Dict.lookup fields "event") as [ev|]; run_bind;
      destruct (Dict.lookup fields "body"); run_bind;
      try destruct (is_str ev "initialized"); cbn [is_str];
      unfold Standalone.send_configuration_done;
      rewrite ?request_configuration_done_eq; run_bind; apply Hno.
Qed.

(** X17. Messages that end the reader thread.  When the message of a
    frame is a truthy value that is not a [dict], or a response whose
    [request_seq] is a list or a [dict], the body of the loop raises and the
    loop is left ([break]): the message is consumed, nothing is stored, and
    what follows in the stream is never read. *)
Theorem messages_that_end_the_reader
  (t : Standalone.DAPTester) (body rest : string) (m : json) :
  Standalone.running t = true ->
  Standalone.stdout t = frame body +:+ rest ->
  inbound body m ->
  ends_reader m = true ->
  forall passes,
    Standalone._read_messages (S passes) t
    = (Standalone.Break, Standalone.received t m rest).
Proof.
  intros Hrun Hout Hin Hends passes.
  pose proof (pass_frame t body rest m Hrun Hout Hin) as Hpass.
  cbn [Standalone._read_messages]. rewrite Hpass.
  assert (Htruthy : Dict.truthy m = true)
    by (unfold ends_reader in Hends; apply andb_true_iff in Hends as [? _]; assumption).
  rewrite Htruthy.
  apply (handle_raises m (Standalone.received t m rest) Htruthy) in Hends as [e ->].
  reflexivity.
Qed.

(** X18. A response is filed under the key that its [request_seq] makes in a
    [dict], whatever that value is, and a wait finds it there: under the
    number itself for a number, under 1 for [true] and 0 for [false] (equal
    keys in Python), under [None] when the field is missing, where no wait
    for a number finds it.  The entries under other keys stay: a wait for
    another number is not disturbed. *)
Theorem response_filed_under_key
  (t : Standalone.DAPTester) (body rest : string) (fields : list (string * json))
  (v : json) (k : pykey) :
  Standalone.running t = true ->
  Standalone.stdout t = frame body +:+ rest ->
  inbound body (JObj fields) ->
  Dict.lookup fields "type" = Some (JStr "response") ->
  Dict.get (JObj fields) "request_seq" = Return v ->
  Dict.key v = Return k ->
  exists t',
    Standalone._read_messages_pass t = (Standalone.Continue, t')
    /\ Standalone.received_responses t' = <[k := JObj fields]> (Standalone.received_responses t)
    /\ forall n later,
         (k = KInt n -> Standalone.wait_for_response n (t' :: later) = Return (JObj fields))
         /\ (k <> KInt n ->
             Standalone.wait_for_response n (t' :: later)
             = Standalone.wait_for_response n (t :: later)).
Proof.
  intros Hrun Hout Hin Hty Hseq Hkey.
  rewrite (pass_frame t body rest _ Hrun Hout Hin).
  assert (Dict.truthy (JObj fields) = true) as ->
    by (destruct fields; [discriminate|reflexivity]).
  assert (Hh : Standalone.handle_message (JObj fields) (Standalone.received t (JObj fields) rest)
               = Return (Standalone.set_received_responses
                           (Standalone.received t (JObj fields) rest)
                           (<[k := JObj fields]> (Standalone.received_responses t)))).
  { assert (Hget : forall key, exists x, Dict.get (JObj fields) key = Return x).
    { intros key. unfold Dict.get, Dict.get_default.
      destruct (Dict.lookup fields key); eauto. }
    assert (Hty' : Dict.get (JObj fields) "type" = Return (JStr "response"))
      by (unfold Dict.get, Dict.get_default; rewrite Hty; reflexivity).
    unfold Standalone.handle_message. rewrite Hty'. run_bind. cbn [is_str].
    change (String.eqb "response" "response") with true. cbv iota.
    rewrite Hseq. run_bind.
    destruct (Hget "command"%string) as (c & ->). run_bind. rewrite Hkey. run_bind.
    destruct (Hget "success"%string) as (b & ->). reflexivity. }
  rewrite Hh. eexists. split; [reflexivity|]. split; [reflexivity|].
  intros n later. cbn [Standalone.wait_for_response Standalone.set_received_responses
                       Standalone.received_responses].
  split.
  - intros ->. rewrite lookup_insert_eq. reflexivity.
  - intros Hne. rewrite lookup_insert_ne by exact Hne. reflexivity.
Qed.

End ReaderEnds.

(** ** The books of the reader loop *)

Section Books.
Context `{JsonCodec} `{PathLib}.

Lemma is_initialized_type (m : json) : is_initialized m = true -> type_is m "event" = true.
Proof.
  destruct m as [| | | | |fields]; try discriminate. cbn [is_initialized].
  unfold type_is, Dict.get, Dict.get_default.
  destruct (Dict.lookup fields "type") as [ty|]; [|discriminate].
  destruct (Dict.lookup fields "event"); [|discriminate].
  intros [Hty _]%andb_true_iff. exact Hty.
Qed.

Lemma store_not_response (responses : gmap pykey json) (m : json) :
  type_is m "event" = true -> store responses m = responses.
Proof.
  unfold store, type_is.
  destruct (Dict.get m "type") as [ty|]; [|discriminate].
  destruct ty; try discriminate. cbn [is_str].
  intros ->%String.eqb_eq. reflexivity.
Qed.

(** A pass on a well-formed message, field by field. *)
Lemma pass_books (t : Standalone.DAPTester) (body rest : string) (m : json) :
  Standalone.running t = true ->
  Standalone.stdout t = frame body +:+ rest ->
  inbound body m ->
  well_formed m ->
  exists t',
    Standalone._read_messages_pass t = (Standalone.Continue, t')
    /\ Standalone.running t' = true
    /\ Standalone.stdout t' = rest
    /\ Standalone.received_events t'
       = Standalone.received_events t ++ (if type_is m "event" then [m] else [])
    /\ Standalone.received_responses t' = store (Standalone.received_responses t) m
    /\ Standalone.seq t' = Standalone.seq t + (if is_initialized m then 1 else 0)
    /\ requests_sent (Standalone.wire t')
       = requests_sent (Standalone.wire t)
         ++ (if is_initialized m
             then [Standalone.configuration_done_request (Standalone.seq t + 1)] else []).
Proof.
  intros Hrun Hout Hin Hwf.
  destruct (is_initialized m) eqn:Hinit.
  - eexists. split; [apply (pass_initialized t body rest m); assumption|].
    cbn [Standalone.running Standalone.stdout Standalone.received_events
         Standalone.received_responses Standalone.seq Standalone.wire].
    rewrite (is_initialized_type m Hinit), store_not_response
      by (apply is_initialized_type; exact Hinit).
    rewrite requests_sent_app. repeat split. exact Hrun.
  - rewrite (pass_frame t body rest m Hrun Hout Hin).
    assert (Htruthy : Dict.truthy m = true).
    { destruct Hwf as [[n Hr]|[name He]];
        [eapply is_response_truthy|eapply is_event_truthy]; eassumption. }
    rewrite Htruthy.
    assert (Hret : exists t', Standalone.handle_message m (Standalone.received t m rest)
                              = Return t').
    { destruct Hwf as [[n Hr]|[name He]].
      - rewrite (handle_response _ m n Hr). eauto.
      - rewrite (handle_event _ m name He Hinit). eauto. }
    destruct Hret as (t' & Hh). rewrite Hh.
    apply handle_other_state in Hh as (Hs & Hr & Hi & Ho & Hw & Hresp & Hev); [|exact Hinit].
    exists t'. split; [reflexivity|].
    rewrite Hr, Ho, Hev, Hresp, Hs, Hw.
    cbn [Standalone.received Standalone.running Standalone.stdout Standalone.received_events
         Standalone.received_responses Standalone.seq Standalone.wire].
    rewrite requests_sent_app. cbn [requests_sent]. rewrite Z.add_0_r.
    repeat split. exact Hrun.
Qed.

(** X19. The books of the reader loop over a run of well-formed messages:
    every event is appended to [received_events], in the order of arrival;
    every response is filed under its number, a later one replacing an
    earlier one with the same number; and each ['initialized'] event, not the
    first only, makes the loop send a [configurationDone] request, with the
    next numbers of the counter. *)
Theorem reader_loop_books (msgs : list (string * json))
  (t : Standalone.DAPTester) (rest : string) :
  Standalone.running t = true ->
  Standalone.stdout t = frames (map fst msgs) +:+ rest ->
  Forall (fun bm => inbound (fst bm) (snd bm) /\ well_formed (snd bm)) msgs ->
  exists t',
    Standalone._read_messages (length msgs) t = (Standalone.Continue, t')
    /\ Standalone.stdout t' = rest
    /\ Standalone.received_events t'
       = Standalone.received_events t
         ++ List.filter (fun m => type_is m "event") (map snd msgs)
    /\ Standalone.received_responses t'
       = fold_left store (map snd msgs) (Standalone.received_responses t)
    /\ Standalone.seq t'
       = Standalone.seq t + Z.of_nat (length (List.filter is_initialized (map snd msgs)))
    /\ requests_sent (Standalone.wire t')
       = requests_sent (Standalone.wire t)
         ++ map Standalone.configuration_done_request
              (seqZ (Standalone.seq t + 1)
                 (Z.of_nat (length (List.filter is_initialized (map snd msgs))))).
Proof.
  revert t. induction msgs as [|[body m] msgs IH]; intros t Hrun Hout Hall.
  - exists t. cbn. rewrite !app_nil_r, Z.add_0_r. repeat split. exact Hout.
  - apply Forall_cons in Hall as [[Hin Hwf] Hall]. cbn [fst snd] in *.
    cbn [map fst frames foldr] in Hout. rewrite sapp_assoc in Hout.
    destruct (pass_books t body _ m Hrun Hout Hin Hwf)
      as (t1 & Hp & Hrun1 & Hout1 & Hev1 & Hresp1 & Hseq1 & Hsent1).
    destruct (IH t1 Hrun1 Hout1 Hall) as (t' & Hl & Hout' & Hev' & Hresp' & Hseq' & Hsent').
    exists t'. cbn [length Standalone._read_messages]. rewrite Hp.
    split; [exact Hl|]. split; [exact Hout'|].
    cbn [map snd List.filter fold_left].
    rewrite Hev', Hev1, Hresp', Hresp1, Hseq', Hsent', Hsent1, !Hseq1.
    destruct (is_initialized m) eqn:Hinit.
    + rewrite (is_initialized_type m Hinit). cbn [length].
      rewrite <- !app_assoc. repeat split; [lia|]. f_equal. cbn [app].
      rewrite (seqZ_cons (Standalone.seq t + 1)) by lia. cbn [map]. do 3 f_equal; lia.
    + rewrite Z.add_0_r, app_nil_r.
      destruct (type_is m "event"); rewrite <- ?app_assoc, ?app_nil_r; repeat split.
Qed.

End Books.

(** ** [main]: no launch before a success *)

Lemma launch_follows_success_nil : launch_follows_success [].
Proof. intros [|? pre] q post Hw; discriminate. Qed.

Lemma launch_follows_success_snoc (w : list Standalone.io) (x : Standalone.io) :
  launch_follows_success w ->
  (forall q, x = Standalone.Sent q -> Handshake.has_command [q] "launch" = true ->
             exists m, In (Standalone.Received m) w /\ reports_success m) ->
  launch_follows_success (w ++ [x]).
Proof.
  intros Hw Hx pre q post Heq Hq.
  destruct post as [|z post _] using rev_ind.
  - apply app_inj_tail in Heq as [-> ->]. apply (Hx q eq_refl Hq).
  - change (pre ++ Standalone.Sent q :: post ++ [z])
      with (pre ++ (Standalone.Sent q :: post) ++ [z]) in Heq.
    rewrite app_assoc in Heq. apply app_inj_tail in Heq as [-> _].
    eapply Hw; [reflexivity|exact Hq].
Qed.

Lemma launch_follows_success_received (w : list Standalone.io) (m : json) :
  launch_follows_success w -> launch_follows_success (w ++ [Standalone.Received m]).
Proof. intros Hw. apply launch_follows_success_snoc; [exact Hw|]. discriminate. Qed.

Lemma launch_follows_success_other (w : list Standalone.io) (q : json) :
  Handshake.has_command [q] "launch" = false ->
  launch_follows_success w -> launch_follows_success (w ++ [Standalone.Sent q]).
Proof.
  intros Hq Hw. apply launch_follows_success_snoc; [exact Hw|].
  intros q' [= <-] Hl. congruence.
Qed.

Lemma initialize_succeeded_reports (m : json) :
  Handshake.initialize_succeeded m = Return true -> reports_success m.
Proof.
  unfold Handshake.initialize_succeeded.
  destruct (Dict.get m "success") as [success|e] eqn:Hs; [|discriminate].
  cbn [mbind result_bind]. destruct (Dict.truthy success) eqn:Ht.
  - intros _. exists success. split; [exact Hs|exact Ht].
  - destruct (Dict.get m "message"); discriminate.
Qed.

Lemma launch_succeeded_reports (m : json) :
  Handshake.launch_succeeded m = Return true -> reports_success m.
Proof.
  unfold Handshake.launch_succeeded.
  destruct (Dict.get m "success") as [success|e] eqn:Hs; [|discriminate].
  cbn [mbind result_bind]. destruct (Dict.truthy success) eqn:Ht.
  - intros _. exists success. split; [exact Hs|exact Ht].
  - destruct (Dict.get m "message"); discriminate.
Qed.

Section MainSafety.
Context `{JsonCodec} `{PathLib}.
Variable program_path : string.
Variable A : Handshake.adapter.

Lemma success_poll (s : Handshake.system A) (q : Z) (check : json -> result bool)
  (next : Handshake.main_pc) :
  (forall m, check m = Return true -> reports_success m) ->
  let s' := Handshake.poll s q check next in
  Standalone.wire (Handshake.tester s') = Standalone.wire (Handshake.tester s)
  /\ Standalone.received_responses (Handshake.tester s')
     = Standalone.received_responses (Handshake.tester s)
  /\ ((s' = s)
      \/ (Handshake.pc s' = Handshake.Exit1
          /\ Standalone.running (Handshake.tester s') = false)
      \/ (Handshake.pc s' = next
          /\ Handshake.tester s' = Handshake.tester s
          /\ exists m, Standalone.received_responses (Handshake.tester s) !! KInt q = Some m
                       /\ reports_success m)).
Proof.
  intros Hcheck. cbn zeta. unfold Handshake.poll. cbn [Standalone.wait_for_response].
  destruct (Standalone.received_responses (Handshake.tester s) !! KInt q) as [m|] eqn:Hm;
    [|repeat split; left; reflexivity].
  destruct (check m) as [[|]|e] eqn:Hs;
    [|repeat split; right; left; split; reflexivity
     |repeat split; right; left; split; reflexivity].
  repeat split. right. right. repeat split. exists m. split; [reflexivity|].
  apply Hcheck. exact Hs.
Qed.

Lemma success_invariant_step (l : Handshake.label) (s s' : Handshake.system A) :
  Handshake.step program_path A l s = Some s' ->
  success_invariant s -> success_invariant s'.
Proof.
  intros Hstep (Hw & Hr & Hok & Hexit).
  destruct l as [| | |choice]; cbn [Handshake.step] in Hstep.
  - unfold Handshake.main_step in Hstep.
    destruct (Handshake.pc s) eqn:Hpc.
    + rewrite request_initialize_eq in Hstep. injection Hstep as <-.
      split; [|split; [|split]]; cbn [Handshake.goto Handshake.tester Handshake.pc
                                       Standalone.wire Standalone.received_responses].
      * apply launch_follows_success_other; [reflexivity|exact Hw].
      * intros k m Hk. apply in_or_app. left. eauto.
      * discriminate.
      * discriminate.
    + injection Hstep as <-. split; [exact Hw|]. split; [exact Hr|].
      split; cbn [Handshake.goto Handshake.pc]; discriminate.
    + injection Hstep as <-.
      destruct (success_poll s init_seq _ Handshake.InitializeOk initialize_succeeded_reports)
        as (Hw' & Hr' & Hcase).
      cbn zeta in *.
      split; [rewrite Hw'; exact Hw|]. split; [rewrite Hw', Hr'; exact Hr|].
      destruct Hcase as [->|[[Hpc' Hrun']|(Hpc' & Ht' & m & Hm & Hsucc)]].
      * split; [rewrite Hpc; discriminate|rewrite Hpc; discriminate].
      * split; [rewrite Hpc'; discriminate|intros _; exact Hrun'].
      * split; [|rewrite Hpc'; discriminate].
        intros _. exists m. rewrite Hw'. split; [eauto|exact Hsucc].
    + rewrite request_launch_eq in Hstep. injection Hstep as <-.
      split; [|split; [|split]]; cbn [Handshake.goto Handshake.tester Handshake.pc
                                       Standalone.wire Standalone.received_responses].
      * apply launch_follows_success_snoc; [exact Hw|]. intros q _ _. apply Hok. reflexivity.
      * intros k m Hk. apply in_or_app. left. eauto.
      * discriminate.
      * discriminate.
    + injection Hstep as <-. split; [exact Hw|]. split; [exact Hr|].
      split; cbn [Handshake.goto Handshake.pc]; discriminate.
    + injection Hstep as <-.
      destruct (success_poll s launch_seq _ Handshake.LaunchOk launch_succeeded_reports)
        as (Hw' & Hr' & Hcase).
      cbn zeta in *.
      split; [rewrite Hw'; exact Hw|]. split; [rewrite Hw', Hr'; exact Hr|].
      destruct Hcase as [->|[[Hpc' Hrun']|(Hpc' & Ht' & _)]].
      * split; [rewrite Hpc; discriminate|rewrite Hpc; discriminate].
      * split; [rewrite Hpc'; discriminate|intros _; exact Hrun'].
      * split; rewrite Hpc'; discriminate.
    + discriminate.
    + discriminate.
  - destruct (Handshake.pc s) eqn:Hpc; try discriminate; injection Hstep as <-;
      (split; [exact Hw|]; split; [exact Hr|]; split; [discriminate|reflexivity]).
  - destruct (Handshake.reader s); [|discriminate].
    destruct (negb (Handshake.is_empty (Standalone.stdout (Handshake.tester s)))
              || negb (Standalone.running (Handshake.tester s))); [|discriminate].
    pose proof (pass_cases (Handshake.tester s)) as Hpass. cbn zeta in Hpass.
    destruct (Standalone._read_messages_pass (Handshake.tester s)) as [lp t'].
    injection Hstep as <-. cbn [snd] in Hpass.
    unfold success_invariant. cbn [Handshake.tester Handshake.pc].
    destruct Hpass as (Hrun & [Hsame|[Hrecv|Hinit]]).
    + destruct Hsame as (Hw' & _ & _ & Hr' & _).
      split; [rewrite Hw'; exact Hw|]. split; [rewrite Hw', Hr'; exact Hr|].
      split; [rewrite Hw'; exact Hok|rewrite Hrun; exact Hexit].
    + destruct Hrecv as (m & _ & Hw' & _ & _ & Hr').
      split; [rewrite Hw'; apply launch_follows_success_received; exact Hw|].
      split; [|split; [|rewrite Hrun; exact Hexit]].
      * intros k m' Hk. rewrite Hw'. apply in_or_app.
        destruct Hr' as [Hr'|Hr']; rewrite Hr' in Hk; [left; eauto|].
        apply store_lookup in Hk as [Hk| ->]; [left; eauto|right; left; reflexivity].
      * intros Hpc. destruct (Hok Hpc) as (m' & Hin & Hsucc).
        exists m'. rewrite Hw'. split; [apply in_or_app; left; exact Hin|exact Hsucc].
    + destruct Hinit as (m & _ & Hw' & _ & _ & Hr' & _).
      assert (Hw2 : Standalone.wire t'
                    = (Standalone.wire (Handshake.tester s) ++ [Standalone.Received m])
                      ++ [Standalone.Sent (Standalone.configuration_done_request
                                             (Standalone.seq (Handshake.tester s) + 1))])
        by (rewrite Hw', <- app_assoc; reflexivity).
      split; [rewrite Hw2; apply launch_follows_success_other; [reflexivity|];
              apply launch_follows_success_received; exact Hw|].
      split; [|split; [|rewrite Hrun; exact Hexit]].
      * intros k m' Hk. rewrite Hr' in Hk. rewrite Hw'. apply in_or_app. left. eauto.
      * intros Hpc. destruct (Hok Hpc) as (m' & Hin & Hsucc).
        exists m'. rewrite Hw'. split; [apply in_or_app; left; exact Hin|exact Hsucc].
  - destruct (Standalone.running (Handshake.tester s)) eqn:Hrun; [|discriminate].
    destruct (Handshake.areact A _ _ choice) as [[a body]|]; [|discriminate].
    injection Hstep as <-.
    split; [exact Hw|]. split; [exact Hr|]. split; [exact Hok|].
    cbn [Handshake.pc Handshake.tester Standalone.set_stdout Standalone.running].
    intros Hpc. specialize (Hexit Hpc). congruence.
Qed.

Lemma success_invariant_run (schedule : list Handshake.label) (s s' : Handshake.system A) :
  Handshake.run program_path A schedule s = Some s' ->
  success_invariant s -> success_invariant s'.
Proof.
  revert s. induction schedule as [|l later IH]; intros s; cbn [Handshake.run].
  - intros [= <-]. auto.
  - destruct (Handshake.step program_path A l s) as [s1|] eqn:Hstep; [|discriminate].
    intros Hrun Hinv. apply (IH s1 Hrun). eapply success_invariant_step; eassumption.
Qed.

Lemma success_invariant_init : success_invariant (Handshake.init A).
Proof.
  split; [apply launch_follows_success_nil|]. split; [|split; discriminate].
  intros k m Hk. cbn in Hk. rewrite lookup_empty in Hk. discriminate.
Qed.

(** X20. [main] never sends the launch request before a success was read.
    With any adapter, under every schedule, deadlines included: wherever a
    launch request stands in the order of the wire, a message that reports
    success (a truthy ['success']) was received before it. *)
Theorem launch_only_after_success (schedule : list Handshake.label) (s : Handshake.system A) :
  Handshake.run program_path A schedule (Handshake.init A) = Some s ->
  launch_follows_success (Standalone.wire (Handshake.tester s)).
Proof.
  intros Hrun. apply (success_invariant_run schedule _ s Hrun success_invariant_init).
Qed.

End MainSafety.

(** ** [wait_for_response] and [find_timing] *)

(** X22. [wait_for_response] returns what the first polled state that holds
    a response for [seq] holds for it, and raises [TimeoutError] exactly when
    no polled state holds one. *)
Theorem wait_for_response_first_stored (seq : Z) (polls : list Standalone.DAPTester) :
  match Standalone.wait_for_response seq polls with
  | Return response =>
      exists before t after,
        polls = before ++ t :: after
        /\ Standalone.received_responses t !! KInt seq = Some response
        /\ Forall (fun p => Standalone.received_responses p !! KInt seq = None) before
  | Raise e =>
      e = TimeoutError
      /\ Forall (fun p => Standalone.received_responses p !! KInt seq = None) polls
  end.
Proof.
  induction polls as [|t polls IH]; cbn [Standalone.wait_for_response].
  - split; [reflexivity|constructor].
  - destruct (Standalone.received_responses t !! KInt seq) as [response|] eqn:Ht.
    + exists [], t, polls. split; [reflexivity|]. split; [exact Ht|constructor].
    + destruct (Standalone.wait_for_response seq polls) as [response|e].
      * destruct IH as (before & t' & after & -> & Ht' & Hbefore).
        exists (t :: before), t', after. split; [reflexivity|].
        split; [exact Ht'|constructor; assumption].
      * destruct IH as [-> Hall]. split; [reflexivity|constructor; assumption].
Qed.

Lemma prefix_split (p s : string) :
  String.prefix p s = true -> exists post, s = p +:+ post.
Proof.
  revert s. induction p as [|c p IH]; intros s.
  - intros _. exists s. reflexivity.
  - intros (s' & -> & (post & ->)%IH)%prefix_cons_inv. exists post. reflexivity.
Qed.

(** [Py.contains_str] is the search for an occurrence. *)
Lemma contains_str_occurs (s sub : string) :
  Py.contains_str s sub = true <-> exists pre post, s = pre +:+ sub +:+ post.
Proof.
  split.
  - induction s as [|c s IH]; cbn [Py.contains_str].
    + rewrite orb_false_r. intros (post & ->)%prefix_split.
      exists EmptyString, post. reflexivity.
    + intros [(post & ->)%prefix_split|(pre & post & ->)%IH]%orb_true_iff.
      * exists EmptyString, post. reflexivity.
      * exists (String c pre), post. reflexivity.
  - intros (pre & post & ->). apply contains_str_app.
Qed.

Section FindTiming.
Context {timestamp : Type}.

(** X23. [find_timing] returns the time stamp of the first entry of the log
    that has the type asked for and whose description holds the text asked
    for, whatever later entries match as well; it returns [None] exactly
    when no entry matches. *)
Theorem find_timing_first_match
  (log : list (Timing.entry timestamp)) (type_val desc_contains : string) :
  match Timing.find_timing timestamp log type_val desc_contains with
  | Some ts =>
      exists before e after,
        log = before ++ e :: after
        /\ Timing.matches timestamp type_val desc_contains e
        /\ Timing.timestamp_ms timestamp e = ts
        /\ Forall (fun e' => ~ Timing.matches timestamp type_val desc_contains e') before
  | None => Forall (fun e => ~ Timing.matches timestamp type_val desc_contains e) log
  end.
Proof.
  assert (Htest : forall e,
             String.eqb (Timing.type timestamp e) type_val
             && Py.contains_str (Timing.description timestamp e) desc_contains = true
             <-> Timing.matches timestamp type_val desc_contains e).
  { intros e. unfold Timing.matches.
    rewrite andb_true_iff, String.eqb_eq, contains_str_occurs. reflexivity. }
  induction log as [|e log IH]; cbn [Timing.find_timing]; [constructor|].
  destruct (String.eqb (Timing.type timestamp e) type_val
            && Py.contains_str (Timing.description timestamp e) desc_contains) eqn:He.
  - exists [], e, log. split; [reflexivity|]. split; [apply Htest; exact He|].
    split; [reflexivity|constructor].
  - assert (Hno : ~ Timing.matches timestamp type_val desc_contains e)
      by (intros Hm%Htest; congruence).
    destruct (Timing.find_timing timestamp log type_val desc_contains) as [ts|].
    + destruct IH as (before & e' & after & -> & Hm & Hts & Hbefore).
      exists (e :: before), e', after. split; [reflexivity|]. split; [exact Hm|].
      split; [exact Hts|constructor; assumption].
    + constructor; assumption.
Qed.

End FindTiming.

(** ** The sequence scripts, from [Popen] to the end *)

Section Scripts.
Context `{JsonCodec}.
Variable select : nat -> bool.
Variable alive : nat -> bool.

Lemma dict_get_returns (fields : list (string * json)) (key : string) :
  exists v, Dict.get (JObj fields) key = Return v.
Proof. unfold Dict.get, Dict.get_default. destruct (Dict.lookup fields key); eauto. Qed.

Lemma correct_read_typed (p p' : CorrectSequence.proc) (msg : option json) :
  CorrectSequence.read select p = (msg, p') ->
  CorrectSequence.stdin p' = CorrectSequence.stdin p
  /\ CorrectSequence.selects p' = S (CorrectSequence.selects p)
  /\ forall m, msg = Some m -> exists fields, m = JObj fields.
Proof.
  unfold CorrectSequence.read.
  destruct (CorrectSequence.read_message _ _) as [msg0 rest] eqn:Hr.
  intros [= <- <-]. repeat split.
  intros m ->. apply sequence_read_typed in Hr as (fields & _ & -> & _). eauto.
Qed.

Lemma launch_read_typed (p p' : CorrectSequence.proc) (msg : option json) :
  LaunchSequence.read select p = (msg, p') ->
  CorrectSequence.stdin p' = CorrectSequence.stdin p
  /\ CorrectSequence.selects p' = S (CorrectSequence.selects p)
  /\ forall m, msg = Some m -> exists fields, m = JObj fields.
Proof.
  unfold LaunchSequence.read.
  destruct (LaunchSequence.read_message _ _) as [msg0 rest] eqn:Hr.
  intros [= <- <-]. repeat split.
  intros m ->. apply sequence_read_typed in Hr as (fields & _ & -> & _). eauto.
Qed.

Lemma correct_await_returns (n : nat) (type key name : string) (p : CorrectSequence.proc) :
  exists p',
    CorrectSequence.await select n type key name p = Return p'
    /\ CorrectSequence.stdin p' = CorrectSequence.stdin p
    /\ (CorrectSequence.selects p' <= CorrectSequence.selects p + n)%nat.
Proof.
  revert p. induction n as [|n IH]; intros p; cbn [CorrectSequence.await].
  - exists p. repeat split. lia.
  - destruct (CorrectSequence.read select p) as [msg p1] eqn:Hr.
    apply correct_read_typed in Hr as (Hin & Hsel & Hdict).
    assert (Hw : exists b, CorrectSequence.wanted msg type key name = Return b).
    { unfold CorrectSequence.wanted. destruct msg as [m|]; [|eauto].
      destruct (Hdict m eq_refl) as (fields & ->).
      destruct (Dict.truthy (JObj fields)); [|eauto].
      destruct (dict_get_returns fields "type") as (t & ->). run_bind.
      destruct (is_str t type); [|eauto].
      destruct (dict_get_returns fields key) as (v & ->). run_bind. eauto. }
    destruct Hw as (b & ->). run_bind. destruct b.
    + exists p1. split; [reflexivity|]. split; [exact Hin|lia].
    + destruct (IH p1) as (p' & -> & Hin' & Hsel'). exists p'.
      split; [reflexivity|]. split; [congruence|lia].
Qed.

Lemma correct_await_launch_returns (n : nat) (p : CorrectSequence.proc) :
  exists p',
    CorrectSequence.await_launch select n p = Return p'
    /\ CorrectSequence.stdin p' = CorrectSequence.stdin p
    /\ (CorrectSequence.selects p' <= CorrectSequence.selects p + n)%nat.
Proof.
  revert p. induction n as [|n IH]; intros p; cbn [CorrectSequence.await_launch].
  - exists p. repeat split. lia.
  - destruct (CorrectSequence.read select p) as [msg p1] eqn:Hr.
    apply correct_read_typed in Hr as (Hin & Hsel & Hdict).
    assert (Hstop : exists p', Return p1 = Return p'
                               /\ CorrectSequence.stdin p' = CorrectSequence.stdin p
                               /\ (CorrectSequence.selects p' <= CorrectSequence.selects p + S n)%nat)
      by (exists p1; split; [reflexivity|]; split; [exact Hin|lia]).
    assert (Hgo : exists p', CorrectSequence.await_launch select n p1 = Return p'
                             /\ CorrectSequence.stdin p' = CorrectSequence.stdin p
                             /\ (CorrectSequence.selects p' <= CorrectSequence.selects p + S n)%nat).
    { destruct (IH p1) as (p' & -> & Hin' & Hsel'). exists p'.
      split; [reflexivity|]. split; [congruence|lia]. }
    destruct msg as [m|]; [|exact Hstop].
    destruct (Hdict m eq_refl) as (fields & ->).
    destruct (negb (Dict.truthy (JObj fields))); [exact Hstop|].
    destruct (dict_get_returns fields "type") as (t & ->). run_bind.
    destruct (is_str t "response"); [|exact Hgo].
    destruct (dict_get_returns fields "command") as (c & ->). run_bind.
    destruct (is_str c "launch"); [|exact Hgo].
    unfold Dict.get_default.
    destruct (Dict.lookup fields "success") as [success|]; run_bind.
    + destruct (Dict.truthy success); [exact Hstop|].
      destruct (dict_get_returns fields "message") as (x & ->). run_bind. exact Hstop.
    + cbn [Dict.truthy]. destruct (dict_get_returns fields "message") as (x & ->).
      run_bind. exact Hstop.
Qed.

Lemma launch_await_returns (n : nat) (command : string) (p : CorrectSequence.proc) :
  exists p',
    LaunchSequence.await select n command p = Return p'
    /\ CorrectSequence.stdin p' = CorrectSequence.stdin p
    /\ (CorrectSequence.selects p' <= CorrectSequence.selects p + n)%nat.
Proof.
  revert p. induction n as [|n IH]; intros p; cbn [LaunchSequence.await].
  - exists p. repeat split. lia.
  - destruct (LaunchSequence.read select p) as [msg p1] eqn:Hr.
    apply launch_read_typed in Hr as (Hin & Hsel & Hdict).
    assert (Hstop : exists p', Return p1 = Return p'
                               /\ CorrectSequence.stdin p' = CorrectSequence.stdin p
                               /\ (CorrectSequence.selects p' <= CorrectSequence.selects p + S n)%nat)
      by (exists p1; split; [reflexivity|]; split; [exact Hin|lia]).
    assert (Hgo : exists p', LaunchSequence.await select n command p1 = Return p'
                             /\ CorrectSequence.stdin p' = CorrectSequence.stdin p
                             /\ (CorrectSequence.selects p' <= CorrectSequence.selects p + S n)%nat).
    { destruct (IH p1) as (p' & -> & Hin' & Hsel'). exists p'.
      split; [reflexivity|]. split; [congruence|lia]. }
    destruct msg as [m|]; [|exact Hstop].
    destruct (Hdict m eq_refl) as (fields & ->).
    destruct (negb (Dict.truthy (JObj fields))); [exact Hstop|].
    destruct (dict_get_returns fields "type") as (t & ->). run_bind.
    destruct (is_str t "response"); [|exact Hgo].
    destruct (dict_get_returns fields "command") as (c & ->). run_bind.
    destruct (is_str c command); [exact Hstop|exact Hgo].
Qed.

Lemma correct_send_request (fields : list (string * json)) (p : CorrectSequence.proc) :
  alive (CorrectSequence.selects p) = true ->
  CorrectSequence.send alive (JObj fields) p
  = Return (CorrectSequence.mkProc (CorrectSequence.stdin p +:+ written_for (JObj fields))
              (CorrectSequence.stdout p) (CorrectSequence.selects p)).
Proof.
  intros Halive.
  unfold CorrectSequence.send, CorrectSequence.send_message, written_for, Dict.get_default.
  rewrite Halive.
  destruct (Dict.lookup fields "event"), (Dict.lookup fields "command"); run_bind;
    rewrite !sapp_assoc; reflexivity.
Qed.

Lemma launch_send_request (m : json) (p : CorrectSequence.proc) :
  dap_message m ->
  alive (CorrectSequence.selects p) = true ->
  LaunchSequence.send alive m p
  = Return (CorrectSequence.mkProc (CorrectSequence.stdin p +:+ written_for m)
              (CorrectSequence.stdout p) (CorrectSequence.selects p)).
Proof.
  intros Hdap Halive. unfold LaunchSequence.send.
  destruct (launch_send_message_cases (CorrectSequence.stdin p) m) as [[_ ->]|[Hn _]];
    [|contradiction].
  run_bind. rewrite Halive. unfold written_for. rewrite !sapp_assoc. reflexivity.
Qed.

Lemma launch_send_exited (m : json) (p : CorrectSequence.proc) :
  dap_message m ->
  alive (CorrectSequence.selects p) = false ->
  LaunchSequence.send alive m p = Raise BrokenPipeError.
Proof.
  intros Hdap Halive. unfold LaunchSequence.send.
  destruct (launch_send_message_cases (CorrectSequence.stdin p) m) as [[_ ->]|[Hn _]];
    [|contradiction].
  run_bind. rewrite Halive. reflexivity.
Qed.


End Scripts.

Section AwaitSkips.
Context `{JsonCodec}.
Variable select : nat -> bool.

Lemma correct_read_message_dap (body rest : string) (m : json) :
  inbound body m -> dap_message m ->
  CorrectSequence.read_message true (frame body +:+ rest) = (Some m, rest).
Proof.
  intros [Hdec Hload] (fields & ty & -> & Hty).
  unfold CorrectSequence.read_message. rewrite correct_read_frame, Hdec. run_bind.
  rewrite Hload. run_bind. unfold Dict.item, Dict.get_default. rewrite Hty. run_bind.
  destruct (Dict.lookup fields "event"), (Dict.lookup fields "command"); reflexivity.
Qed.

(** X26. A loop of test_correct_sequence.py that waits for one message reads
    past the others: when the data is there at every [select] and the
    message it waits for is among the first [n] of the stream, the loop ends
    just after that message, and the messages before it are dropped: no
    later loop sees them. *)
Theorem await_drops_earlier_messages
  (n : nat) (type key name : string) (p : CorrectSequence.proc)
  (skipped : list (string * json)) (body : string) (m : json) (rest : string) :
  (forall i, select i = true) ->
  Forall (fun bm => inbound (fst bm) (snd bm) /\ dap_message (snd bm)
                    /\ CorrectSequence.wanted (Some (snd bm)) type key name = Return false)
    skipped ->
  inbound body m -> dap_message m ->
  CorrectSequence.wanted (Some m) type key name = Return true ->
  (length skipped < n)%nat ->
  CorrectSequence.stdout p = frames (map fst skipped) +:+ frame body +:+ rest ->
  CorrectSequence.await select n type key name p
  = Return (CorrectSequence.mkProc (CorrectSequence.stdin p) rest
              (CorrectSequence.selects p + length skipped + 1)).
Proof.
  intros Hsel Hall Hin Hdap Hwanted. revert n p.
  induction Hall as [|[b0 m0] skipped (Hin0 & Hdap0 & Hw0) Hall IH]; intros n p Hn Hout.
  - destruct n as [|n]; [cbn in Hn; lia|]. cbn [CorrectSequence.await].
    unfold CorrectSequence.read. rewrite Hsel, Hout. cbn [map frames foldr].
    rewrite sapp_nil_l, (correct_read_message_dap body rest m Hin Hdap).
    rewrite Hwanted. run_bind. cbn [length]. do 2 f_equal. lia.
  - destruct n as [|n]; [cbn in Hn; lia|]. cbn [CorrectSequence.await].
    unfold CorrectSequence.read. rewrite Hsel, Hout. cbn [map fst frames foldr].
    rewrite sapp_assoc, (correct_read_message_dap b0 _ m0 Hin0 Hdap0).
    cbn [snd] in Hw0. rewrite Hw0. run_bind.
    rewrite IH; [|cbn [length] in Hn; lia|reflexivity].
    cbn [CorrectSequence.stdin CorrectSequence.selects length]. do 2 f_equal. lia.
Qed.

End AwaitSkips.

(** ** The requests of [main] *)

Section MainRequests.
Context `{JsonCodec} `{PathLib}.
Variable program_path : string.
Variable A : Handshake.adapter.

Lemma main_requests_step (l : Handshake.label) (s s' : Handshake.system A) :
  Handshake.step program_path A l s = Some s' ->
  main_requests program_path (Handshake.pc s)
    (List.filter by_main (requests_sent (Standalone.wire (Handshake.tester s)))) ->
  main_requests program_path (Handshake.pc s')
    (List.filter by_main (requests_sent (Standalone.wire (Handshake.tester s')))).
Proof.
  intros Hstep Hm.
  destruct l as [| | |choice]; cbn [Handshake.step] in Hstep.
  - unfold Handshake.main_step in Hstep.
    destruct (Handshake.pc s) eqn:Hpc; cbn [main_requests] in Hm.
    + rewrite request_initialize_eq in Hstep. injection Hstep as <-.
      cbn [Handshake.goto Handshake.tester Handshake.pc Standalone.wire main_requests].
      rewrite requests_sent_app, List.filter_app, Hm. cbn. eauto.
    + injection Hstep as <-. exact Hm.
    + injection Hstep as <-.
      destruct (success_poll A s init_seq _ Handshake.InitializeOk
                  initialize_succeeded_reports) as (Hw' & _ & Hcase).
      cbn zeta in *. rewrite Hw'.
      destruct Hcase as [->|[[Hpc' _]|(Hpc' & _)]]; rewrite ?Hpc, ?Hpc'; cbn [main_requests];
        auto.
    + rewrite request_launch_eq in Hstep. injection Hstep as <-.
      cbn [Handshake.goto Handshake.tester Handshake.pc Standalone.wire main_requests].
      destruct Hm as (a & Hm).
      rewrite requests_sent_app, List.filter_app, Hm. cbn. eauto.
    + injection Hstep as <-. exact Hm.
    + injection Hstep as <-.
      destruct (success_poll A s launch_seq _ Handshake.LaunchOk
                  launch_succeeded_reports) as (Hw' & _ & Hcase).
      cbn zeta in *. rewrite Hw'.
      destruct Hcase as [->|[[Hpc' _]|(Hpc' & _)]]; rewrite ?Hpc, ?Hpc'; cbn [main_requests];
        auto.
    + discriminate.
    + discriminate.
  - destruct (Handshake.pc s) eqn:Hpc; try discriminate; injection Hstep as <-;
      cbn [main_requests Handshake.exit1 Handshake.pc Handshake.tester
           Standalone.set_running Standalone.wire] in *; auto.
  - destruct (Handshake.reader s); [|discriminate].
    destruct (negb _ || negb _); [|discriminate].
    pose proof (pass_cases (Handshake.tester s)) as Hpass. cbn zeta in Hpass.
    destruct (Standalone._read_messages_pass (Handshake.tester s)) as [lp t'].
    injection Hstep as <-. cbn [snd] in *. cbn [Handshake.tester Handshake.pc].
    destruct Hpass as (_ & [Hsame|[Hrecv|Hinit]]).
    + destruct Hsame as (-> & _). exact Hm.
    + destruct Hrecv as (m & _ & -> & _). rewrite requests_sent_app. cbn [requests_sent].
      rewrite app_nil_r. exact Hm.
    + destruct Hinit as (m & _ & -> & _). rewrite requests_sent_app. cbn [requests_sent].
      rewrite List.filter_app. cbn. rewrite app_nil_r. exact Hm.
  - destruct (Standalone.running (Handshake.tester s)); [|discriminate].
    destruct (Handshake.areact A _ _ choice) as [[a body]|]; [|discriminate].
    injection Hstep as <-. exact Hm.
Qed.

(** X27. [main] writes each of its requests once.  With any adapter and under
    every schedule, the requests on the wire other than the
    [configurationDone] of the reader thread are: none before [main] has sent
    [initialize]; the one [initialize] request up to the moment the launch
    request is sent; and [initialize] followed by the one launch request from
    then on.  The numbers they carry depend on what the reader has sent
    before. *)
Theorem main_writes_each_request_once
  (schedule : list Handshake.label) (s : Handshake.system A) :
  Handshake.run program_path A schedule (Handshake.init A) = Some s ->
  main_requests program_path (Handshake.pc s)
    (List.filter by_main (requests_sent (Standalone.wire (Handshake.tester s)))).
Proof.
  assert (Hgen : forall s0,
             Handshake.run program_path A schedule s0 = Some s ->
             main_requests program_path (Handshake.pc s0)
               (List.filter by_main (requests_sent (Standalone.wire (Handshake.tester s0)))) ->
             main_requests program_path (Handshake.pc s)
               (List.filter by_main (requests_sent (Standalone.wire (Handshake.tester s))))).
  { induction schedule as [|l later IH]; intros s0; cbn [Handshake.run].
    - intros [= <-]. auto.
    - destruct (Handshake.step program_path A l s0) as [s1|] eqn:Hstep; [|discriminate].
      intros Hrun Hm. apply (IH s1 Hrun). eapply main_requests_step; eassumption. }
  intros Hrun. apply (Hgen _ Hrun). reflexivity.
Qed.

End MainRequests.

Lemma main_writes_each_request_once_witness :
  exists s,
    Handshake.play Handshake.eager_adapter Handshake.reader_first = Some s
    /\ @main_requests MiniPath.pathlib Handshake.fixture (Handshake.pc s)
         (List.filter by_main (requests_sent (Standalone.wire (Handshake.tester s))))
    /\ Handshake.pc s = Handshake.WaitLaunch 3
    /\ List.filter by_main (requests_sent (Standalone.wire (Handshake.tester s)))
       = [Standalone.initialize_request 1;
          @Standalone.launch_request MiniPath.pathlib 3 Handshake.fixture].
Proof.
  eexists. split; [vm_compute; reflexivity|].
  split; [|split; reflexivity].
  apply (@main_writes_each_request_once MiniJson.codec MiniPath.pathlib Handshake.fixture
           Handshake.eager_adapter Handshake.reader_first).
  vm_compute. reflexivity.
Defined.

(** ** The properties on concrete streams *)

Ltac plain := repeat constructor; discriminate.

Lemma first_content_length_line_decides_witness :
  let body := MiniJson.dumps initialized_event in
  Forall plain_line ["Content-Type: application/json"%string]
  /\ Forall plain_line ["Content-Length: 0"%string]
  /\ (String.length body <= 64)%nat
  /\ @Standalone._read_message_arrived MiniJson.codec 64
       (header_block (["Content-Type: application/json"%string]
                        ++ header_line_of (String.length body) :: ["Content-Length: 0"%string])
          +:+ body +:+ "rest")
     = (Return (Some initialized_event), "rest"%string).
Proof.
  intros body.
  assert (Hb : Forall plain_line ["Content-Type: application/json"%string]) by plain.
  assert (Ha : Forall plain_line ["Content-Length: 0"%string]) by plain.
  assert (Hl : (String.length body <= 64)%nat) by (vm_compute; lia).
  split; [exact Hb|]. split; [exact Ha|]. split; [exact Hl|].
  refine (eq_trans (@first_content_length_line_decides MiniJson.codec _ _ body "rest" 64
                      Hb Ha _ Hl) _).
  - repeat constructor.
  - vm_compute. reflexivity.
Defined.


Lemma roundtrip_when_body_arrived_witness :
  let m := Standalone.configuration_done_request 3 in
  dap_message m
  /\ @json_faithful MiniJson.codec m
  /\ (String.length (MiniJson.dumps m) <= 61)%nat
  /\ exists t' written,
       @Standalone._send_message MiniJson.codec m (spawned EmptyString) = Return t'
       /\ Standalone.stdin t' = EmptyString +:+ written
       /\ @Standalone._read_message_arrived MiniJson.codec 61 (written +:+ "Content-Length: 2")
          = (Return (Some m), "Content-Length: 2"%string).
Proof.
  intros m.
  assert (Hdap : dap_message m) by (eexists _, _; split; reflexivity).
  assert (Hf : @json_faithful MiniJson.codec m) by (split; vm_compute; reflexivity).
  assert (Hl : (String.length (MiniJson.dumps m) <= 61)%nat) by (vm_compute; lia).
  split; [exact Hdap|]. split; [exact Hf|]. split; [exact Hl|].
  destruct (@Standalone._send_message MiniJson.codec m (spawned EmptyString)) as [t'|e] eqn:Hsend;
    [|discriminate Hsend].
  exists t'.
  destruct (proj1 (@roundtrip_when_body_arrived MiniJson.codec m "Content-Length: 2" Hdap Hf)
              (spawned EmptyString) t' 61%nat Hsend Hl) as (written & Hw & Hr).
  exists written. split; [reflexivity|]. split; [exact Hw|exact Hr].
Defined.

Lemma header_without_content_length_ends_reader_witness :
  let t := spawned (header_block ["content-length: 41"%string]
                      +:+ MiniJson.dumps initialized_event) in
  Forall plain_line ["content-length: 41"%string]
  /\ @Standalone._read_messages MiniJson.codec 3 t
     = (Standalone.Break, Standalone.set_stdout t (MiniJson.dumps initialized_event)).
Proof.
  intros t.
  assert (Hl : Forall plain_line ["content-length: 41"%string]) by plain.
  split; [exact Hl|].
  refine (proj2 (@header_without_content_length_ends_reader MiniJson.codec
                   t ["content-length: 41"%string] (MiniJson.dumps initialized_event) 2
                   _ Hl _ _ _)).
  - discriminate.
  - repeat constructor.
  - reflexivity.
  - reflexivity.
Defined.

Lemma header_cut_short_is_dropped_witness :
  let t := spawned ("Content-Length: 41" +:+ Py.CRLF) in
  no_blank_line (Standalone.stdout t)
  /\ @Standalone._read_messages_pass MiniJson.codec t
     = (Standalone.Continue, Standalone.set_stdout t EmptyString).
Proof.
  intros t.
  assert (Hno : no_blank_line (Standalone.stdout t))
    by (apply no_blank_line_by_search; reflexivity).
  split; [exact Hno|].
  apply (proj2 (@header_cut_short_is_dropped MiniJson.codec t Hno)).
  reflexivity.
Defined.

Lemma reader_loop_at_end_of_stream_witness :
  @Standalone._read_messages MiniJson.codec 1000 (spawned EmptyString)
  = (Standalone.Continue, spawned EmptyString).
Proof.
  apply (proj1 (@reader_loop_at_end_of_stream MiniJson.codec
                  (spawned EmptyString) 1000 eq_refl)).
  reflexivity.
Defined.

Lemma header_line_files_key_and_value_witness :
  CorrectSequence.header_line (" Content-Type : a:b " +:+ Py.CRLF) ∅
  = Return (<["Content-Type"%string := "a:b"%string]> ∅).
Proof.
  refine (eq_trans
            (proj2 (proj2 (header_line_files_key_and_value
                             (" Content-Type : a:b " +:+ Py.CRLF) ∅))
               " Content-Type " (" a:b " +:+ Py.CRLF) eq_refl eq_refl eq_refl) _).
  reflexivity.
Defined.

Lemma header_loops_file_the_fields_witness :
  let fields := [("Content-Length"%string, " 5"%string); ("Content-Type"%string, " a:b"%string);
                 ("Content-Length"%string, " 7"%string)] in
  Forall plain_field fields
  /\ CorrectSequence.read_headers EmptyString ∅ (header_block (map field_line fields) +:+ "rest")
     = (Return (<["Content-Length"%string := "7"%string]>
                  (<["Content-Type"%string := "a:b"%string]>
                     (<["Content-Length"%string := "5"%string]> ∅))), "rest"%string).
Proof.
  intros fields.
  assert (Hf : Forall plain_field fields) by (repeat constructor).
  split; [exact Hf|].
  apply (proj1 (header_loops_file_the_fields fields ∅ "rest" Hf)).
Defined.

Lemma last_content_length_field_decides_witness :
  let body := MiniJson.dumps initialized_event in
  let stream :=
    header_block (map field_line [("Content-Length"%string, " 999"%string)]
                    ++ [header_line_of (String.length body)]) +:+ body +:+ "rest" in
  Forall plain_field [("Content-Length"%string, " 999"%string)]
  /\ @CorrectSequence.read_message_try MiniJson.codec stream
     = (Return initialized_event, "rest"%string).
Proof.
  intros body stream.
  assert (Hf : Forall plain_field [("Content-Length"%string, " 999"%string)])
    by (repeat constructor).
  split; [exact Hf|].
  refine (eq_trans
            (proj1 (@last_content_length_field_decides MiniJson.codec _ body "rest" Hf)) _).
  vm_compute. reflexivity.
Defined.

Lemma no_content_length_field_reads_no_body_witness :
  let body := MiniJson.dumps initialized_event in
  let fields := [("content-length"%string, " 41"%string)] in
  Forall plain_field fields
  /\ @CorrectSequence.read_message MiniJson.codec true
       (header_block (map field_line fields) +:+ body) = (None, body)
  /\ @DebugpyManual.read_message MiniJson.codec 2 (header_block (map field_line fields) +:+ body)
     = Some (Raise JSONDecodeError, body).
Proof.
  intros body fields.
  assert (Hf : Forall plain_field fields) by (repeat constructor).
  split; [exact Hf|].
  pose (H := @no_content_length_field_reads_no_body MiniJson.codec fields body JSONDecodeError
               Hf ltac:(repeat constructor; discriminate) eq_refl).
  exact (conj (proj1 H) (proj2 (proj2 H))).
Defined.

Lemma read_message_returns_typed_dict_witness :
  let stdout := frame (MiniJson.dumps initialized_event) in
  @CorrectSequence.read_message MiniJson.codec true stdout = (Some initialized_event, EmptyString)
  /\ exists fields type,
       initialized_event = JObj fields /\ Dict.lookup fields "type" = Some type.
Proof.
  intros stdout.
  assert (Hr : @CorrectSequence.read_message MiniJson.codec true stdout
               = (Some initialized_event, EmptyString)) by (vm_compute; reflexivity).
  split; [exact Hr|].
  apply (proj1 (@read_message_returns_typed_dict MiniJson.codec true stdout EmptyString
                  initialized_event) Hr).
Defined.

Lemma negative_content_length_witness :
  let body := MiniJson.dumps initialized_event in
  let stream := "Content-Length: " +:+ Py.str (-5) +:+ Py.CRLFCRLF
                +:+ (frame body +:+ frame body) in
  @Standalone._read_message MiniJson.codec stream = (Raise JSONDecodeError, EmptyString)
  /\ @CorrectSequence.read_message MiniJson.codec true stream = (None, frame body +:+ frame body).
Proof.
  intros body stream.
  pose (H := @negative_content_length MiniJson.codec (-5) (frame body +:+ frame body)
               ltac:(lia)).
  split.
  - refine (eq_trans (proj1 H) _). vm_compute. reflexivity.
  - apply (proj2 H). lia.
Defined.

Lemma other_scripts_roundtrip_witness :
  let m := LaunchSequence.configuration_done_request in
  dap_message m
  /\ @json_faithful MiniJson.codec m
  /\ exists written,
       @LaunchSequence.send_message MiniJson.codec EmptyString m
       = (Return tt, EmptyString +:+ written)
       /\ @LaunchSequence.read_message MiniJson.codec true (written +:+ "rest")
          = (Some m, "rest"%string).
Proof.
  intros m.
  assert (Hdap : dap_message m) by (eexists _, _; split; reflexivity).
  assert (Hf : @json_faithful MiniJson.codec m) by (split; vm_compute; reflexivity).
  split; [exact Hdap|]. split; [exact Hf|].
  apply (proj1 (@other_scripts_roundtrip MiniJson.codec m "rest" Hdap Hf) EmptyString).
Defined.

Lemma manual_read_message_needs_crlf_witness :
  let lf := String Py.LF EmptyString in
  let stream := "Content-Length: 2" +:+ lf +:+ lf +:+ "{}" in
  @DebugpyManual.read_message MiniJson.codec 1000 stream = None
  /\ @DebugpyManual.read_message MiniJson.codec 1000 EmptyString = None.
Proof.
  intros lf stream. split.
  - apply (@manual_read_message_needs_crlf MiniJson.codec stream 1000); reflexivity.
  - apply (@manual_read_message_needs_crlf MiniJson.codec EmptyString 1000); reflexivity.
Defined.

Lemma fizzbuzz_numeral_reads_back_witness :
  Py.int (Fizzbuzz.fizzbuzz (-7)) = Return (-7)
  /\ forall m, Fizzbuzz.fizzbuzz m = Fizzbuzz.fizzbuzz (-7) -> m = -7.
Proof.
  apply (fizzbuzz_numeral_reads_back (-7)).
  - intros [k Hk]. lia.
  - intros [k Hk]. lia.
Defined.

Lemma messages_that_end_the_reader_witness :
  let t := spawned (frame "[1]" +:+ frame (MiniJson.dumps (response_to 1 "initialize" true))) in
  @inbound MiniJson.codec "[1]" (JArr [JInt 1])
  /\ @Standalone._read_messages MiniJson.codec 5 t
     = (Standalone.Break,
        Standalone.received t (JArr [JInt 1])
          (frame (MiniJson.dumps (response_to 1 "initialize" true)))).
Proof.
  intros t.
  assert (Hin : @inbound MiniJson.codec "[1]" (JArr [JInt 1])) by (split; reflexivity).
  split; [exact Hin|].
  apply (@messages_that_end_the_reader MiniJson.codec t "[1]"
           (frame (MiniJson.dumps (response_to 1 "initialize" true)))
           (JArr [JInt 1]) eq_refl eq_refl Hin eq_refl 4%nat).
Defined.

Lemma response_filed_under_key_witness :
  let fields := [("type"%string, JStr "response"); ("request_seq"%string, JBool true)] in
  let t := spawned (frame (MiniJson.dumps (JObj fields))) in
  exists t',
    @Standalone._read_messages_pass MiniJson.codec t = (Standalone.Continue, t')
    /\ Standalone.wait_for_response 1 [t'] = Return (JObj fields)
    /\ Standalone.wait_for_response 2 [t'] = Raise TimeoutError.
Proof.
  intros fields t.
  destruct (@response_filed_under_key MiniJson.codec t
              (MiniJson.dumps (JObj fields)) EmptyString fields (JBool true) (KInt 1)
              eq_refl eq_refl ltac:(split; reflexivity) eq_refl eq_refl eq_refl)
    as (t' & Hp & _ & Hw).
  exists t'. split; [exact Hp|]. split.
  - apply (proj1 (Hw 1 [])). reflexivity.
  - rewrite (proj2 (Hw 2 [])) by discriminate. reflexivity.
Defined.

Lemma reader_loop_books_witness :
  let r := response_to 1 "initialize" true in
  let msgs := [(MiniJson.dumps initialized_event, initialized_event);
               (MiniJson.dumps r, r);
               (MiniJson.dumps initialized_event, initialized_event)] in
  let t := spawned (frames (map fst msgs) +:+ "rest") in
  exists t',
    @Standalone._read_messages MiniJson.codec 3 t = (Standalone.Continue, t')
    /\ Standalone.stdout t' = "rest"%string
    /\ Standalone.received_events t' = [initialized_event; initialized_event]
    /\ Standalone.received_responses t' = <[KInt 1 := r]> ∅
    /\ Standalone.seq t' = 2
    /\ requests_sent (Standalone.wire t')
       = [Standalone.configuration_done_request 1; Standalone.configuration_done_request 2].
Proof.
  intros r msgs t.
  assert (Hall : Forall (fun bm => @inbound MiniJson.codec (fst bm) (snd bm)
                                   /\ well_formed (snd bm)) msgs).
  { assert (He : @inbound MiniJson.codec (MiniJson.dumps initialized_event) initialized_event
                 /\ well_formed initialized_event).
    { split; [split; vm_compute; reflexivity|].
      right. exists "initialized"%string. eexists. repeat split. }
    constructor; [exact He|]. constructor; [|constructor; [exact He|constructor]].
    split; [split; vm_compute; reflexivity|].
    left. exists 1. apply response_is_response. }
  destruct (@reader_loop_books MiniJson.codec msgs t "rest" eq_refl eq_refl Hall)
    as (t' & Hl & Hout & Hev & Hresp & Hseq & Hsent).
  exists t'. split; [exact Hl|]. split; [exact Hout|].
  split; [exact Hev|]. split; [exact Hresp|]. split; [exact Hseq|exact Hsent].
Defined.

Lemma launch_only_after_success_witness :
  exists s,
    Handshake.play (Handshake.plain_double true) Handshake.in_step = Some s
    /\ launch_follows_success (Standalone.wire (Handshake.tester s)).
Proof.
  eexists. split; [vm_compute; reflexivity|].
  refine (@launch_only_after_success MiniJson.codec MiniPath.pathlib Handshake.fixture
            (Handshake.plain_double true) Handshake.in_step _ _).
  vm_compute. reflexivity.
Defined.

Lemma await_drops_earlier_messages_witness :
  let r := response_to 1 "initialize" true in
  let p := CorrectSequence.mkProc EmptyString
             (frames [MiniJson.dumps initialized_event] +:+ frame (MiniJson.dumps r)
                +:+ "rest") 0 in
  @CorrectSequence.await MiniJson.codec (fun _ => true) 5 "response" "command" "initialize" p
  = Return (CorrectSequence.mkProc EmptyString "rest" 2).
Proof.
  intros r p.
  refine (@await_drops_earlier_messages MiniJson.codec (fun _ => true) 5
            "response" "command" "initialize" p
            [(MiniJson.dumps initialized_event, initialized_event)]
            (MiniJson.dumps r) r "rest" _ _ _ _ _ _ _).
  - reflexivity.
  - constructor; [|constructor]. split; [split; vm_compute; reflexivity|].
    split; [eexists _, _; split; reflexivity|reflexivity].
  - split; vm_compute; reflexivity.
  - eexists _, _; split; reflexivity.
  - reflexivity.
  - cbn. lia.
  - reflexivity.
Defined.
